(** * casinosim: the command-line driver of the blackjack simulator

    A shallow embedding of [casinosim.py].  The driver reads its options,
    validates the configuration, builds one simulator and runs it
    [iterations] times, folding the statistics of every run into one
    accumulator.

    The modules [simulator], [strategy], [betting] and [stats] that the
    driver imports, and the Python built-ins it calls ([getopt.getopt],
    [int], [open]), are collaborators of [main]: they are gathered in a
    record [Env] that [main] is parametrised by.  Everything [main] does
    that can be observed from outside (text printed, files opened,
    collaborators called) is recorded, in order, in a trace of events. *)

From Stdlib Require Import String Ascii List ZArith Lia Bool Permutation QArith.
Import ListNotations.
Local Open Scope string_scope.
Local Open Scope Z_scope.

(** ** Python strings and lists of strings *)

(** The one-character string holding a line feed. *)
Definition nl : string := String (ascii_of_nat 10) EmptyString.

(** [", ".join(l)] *)
Definition join (sep : string) (l : list string) : string := String.concat sep l.

(** [n] copies of the character [c]. *)
Fixpoint replicate (n : nat) (c : ascii) : string :=
  match n with
  | O => EmptyString
  | S n' => String c (replicate n' c)
  end.

(** ["{:<w}".format(s)]: [s] padded with spaces on the right up to width
    [w]; a longer string is left as it is. *)
Definition ljust (w : nat) (s : string) : string :=
  s ++ replicate (w - String.length s) " "%char.

(** Insertion of a string in a list sorted by code points. *)
Fixpoint insert_sorted (x : string) (l : list string) : list string :=
  match l with
  | [] => [x]
  | y :: l' => if String.leb x y then x :: l else y :: insert_sorted x l'
  end.

(** [sorted(l)] on a list of strings. *)
Definition sorted (l : list string) : list string :=
  fold_right insert_sorted [] l.

(** ** Dictionaries with string keys

    A Python [dict] keeps its keys in insertion order and holds each key
    once: an association list in which [dict_set] replaces in place. *)

Section Dict.
Context {V : Type}.

Definition dict := list (string * V).

Definition dict_keys (d : dict) : list string := map fst d.

Fixpoint dict_get (k : string) (d : dict) : option V :=
  match d with
  | [] => None
  | (k', v) :: d' => if String.eqb k k' then Some v else dict_get k d'
  end.

(** [k in d] *)
Definition dict_mem (k : string) (d : dict) : bool :=
  match dict_get k d with
  | Some _ => true
  | None => false
  end.

(** [d[k] = v] *)
Fixpoint dict_set (k : string) (v : V) (d : dict) : dict :=
  match d with
  | [] => [(k, v)]
  | (k', v') :: d' =>
      if String.eqb k k' then (k, v) :: d' else (k', v') :: dict_set k v d'
  end.
End Dict.
Arguments dict V : clear implicits.

(** ** The tables of the module *)

(** The classes of the module [betting]. *)
Inductive BetClass : Type :=
| NoBetting
| Martingale
| FPBetting
| SimpleBetting.

Definition BETTING_SYSTEMS : dict BetClass :=
  [ ("none", NoBetting);
    ("martingale", Martingale);
    ("fp", FPBetting);
    ("simple", SimpleBetting) ].

Definition HelpTable := list (list string * list string).

Definition HELP_GENERAL : HelpTable :=
  [ (["-h"; "--help"], ["print this help"]);
    (["-v"; "--verbose"], ["print a LOT of extra info"]);
    (["-f"; "--out-file"], ["output the results to a file"]) ].

Definition HELP_SIMULATOR : HelpTable :=
  [ (["-s"; "--strat=FILE"],
     ["playing strategy file to use (default " ++ String (ascii_of_nat 34) "strats/strat.txt"
        ++ String (ascii_of_nat 34) ")"]);
    (["-i"; "--iterations=ITS"],
     ["how many times to run the simulation until";
      "an end condition is reached (default 1)"]);
    (["-g"; "--gold=GOLD"],
     ["total gold to start with, or 0 to disable gold";
      "completely (default 0)"]);
    (["    --anti-fallacy"],
     ["enable anti-fallacy strat (after a loss, bet 0 until a win, repeat)"]) ].

Definition HELP_BETTING : HelpTable :=
  [ (["-b"; "--bet-system=SYSTEM"],
     ["betting system to use (default " ++ String (ascii_of_nat 34) "none"
        ++ String (ascii_of_nat 34) ")"]);
    (["-o"; "--bet-options=OPTS"],
     ["comma-separated key=value list of options";
      "to pass to the betting system"]);
    (["    --list-bet-systems"], ["list available betting systems"]) ].

Definition HELP_CONDITIONS : HelpTable :=
  [ (["-r"; "--rounds=ROUNDS"], ["maximum number of rounds to run"]);
    (["-t"; "--target=GOLD"], ["target gold amount to reach"]) ].

(** ** Statistics *)

(** Modelled from the spec: the class [stats.BlackjackStats] is not among
    the sources.  The statistics of one run are the counters of section 3
    of the specification (hands dealt, wins, losses, pushes, blackjacks,
    busts, skipped rounds, gold at start and end, lowest gold seen).  The
    driver reads [gold_end] and [total_hands]. *)
Record RunStats : Type := mkRunStats {
  total_hands : Z;
  wins : Z;
  losses : Z;
  pushes : Z;
  blackjacks : Z;
  busts : Z;
  skipped : Z;
  gold_begin : Z;
  gold_end : Z;
  gold_low : Z
}.

(** Modelled from the spec: the accumulator over runs.  Counters are sums,
    the floor is a minimum of minimums, and every mean is kept as a running
    sum next to the running count [t_runs]; nothing is divided before
    [summarize].  The driver writes [gold_start], [gold_target] and
    [gold_min]. *)
Record TotalStats : Type := mkTotalStats {
  t_runs : Z;
  t_total_hands : Z;
  t_wins : Z;
  t_losses : Z;
  t_pushes : Z;
  t_blackjacks : Z;
  t_busts : Z;
  t_skipped : Z;
  gold_start : Z;
  gold_target : Z;
  gold_min : Z;
  t_gold_end_sum : Z
}.

(** Modelled from the spec: [stats.BlackjackStats()], every field zero. *)
Definition BlackjackStats : TotalStats :=
  mkTotalStats 0 0 0 0 0 0 0 0 0 0 0 0.

(** Modelled from the spec: [TotalStats.add(other)] of section 4.6. *)
Definition add (t : TotalStats) (o : RunStats) : TotalStats :=
  {| t_runs := t_runs t + 1;
     t_total_hands := t_total_hands t + total_hands o;
     t_wins := t_wins t + wins o;
     t_losses := t_losses t + losses o;
     t_pushes := t_pushes t + pushes o;
     t_blackjacks := t_blackjacks t + blackjacks o;
     t_busts := t_busts t + busts o;
     t_skipped := t_skipped t + skipped o;
     gold_start := gold_start t;
     gold_target := gold_target t;
     gold_min := Z.min (gold_min t) (gold_low o);
     t_gold_end_sum := t_gold_end_sum t + gold_end o |}.

(** Modelled from the spec: the final means of section 4.6, each a single
    division of a running sum by the running count. *)
Record Means : Type := mkMeans {
  mean_gold_end : Q;
  mean_hands : Q;
  mean_wins : Q
}.

(** Modelled from the spec: the [summarize] step; there is no mean of no
    run. *)
Definition summarize (t : TotalStats) : option Means :=
  if t_runs t <=? 0 then None
  else
    let n := Z.to_pos (t_runs t) in
    Some {| mean_gold_end := t_gold_end_sum t # n;
            mean_hands := t_total_hands t # n;
            mean_wins := t_wins t # n |}.

(** Merging a sequence of runs, first to last. *)
Definition add_all (t : TotalStats) (l : list RunStats) : TotalStats :=
  fold_left add l t.

(** ** Observable behaviour *)

(** What is printed.  A line whose text is fixed by the source is kept as
    text; a line that renders a number through a format is kept as the
    format and its arguments. *)
Inductive Line : Type :=
| Text (s : string)
  (** ["{:.<16}{:.>20,}".format(label, v)] *)
| FmtField (label : string) (v : Z)
  (** ["Running {0} iterations of blackjack...".format(n)] *)
| FmtRunning (n : Z)
  (** ["Completed in {:.2f}s"]; the elapsed time is not modelled *)
| FmtCompleted
  (** ["  {:.<22}{:.>12,} ({:>6.2%})".format(rs, count, count/iterations)] *)
| FmtReason (rs : string) (count iterations : Z)
  (** ["    {:.<16}{:.>16,.2f}".format(label, statistics.mean(xs))] *)
| FmtMean (label : string) (xs : list Z).

Inductive Exn : Type :=
| IndexError       (**r [sys.argv[0]] on an empty [sys.argv] *)
| ValueError       (**r [int(a)] on a malformed number *)
| OSError          (**r [open(a, mode='w')] *)
| AssertionError   (**r [assert False, "unhandled option"] *)
| KeyError         (**r a key missing from [BETTING_SYSTEMS] *)
| StrategyError    (**r raised inside [BlackjackStrategy.from_file] *)
| OptionsError     (**r raised inside [from_options] *)
| RunError.        (**r [run] raised, or never returned *)

(** How an invocation ends: [main] returns, [sys.exit] is called, or an
    exception leaves [main]. *)
Inductive Outcome : Type :=
| Completed
| Exit (status : Z)
| Raised (e : Exn).

(** The record kept per termination reason in the dictionary [reasons]:
    [{"count": 0, "gold_end": [], "hands": []}]. *)
Record ReasonEntry : Type := mkReasonEntry {
  count : Z;
  r_gold_end : list Z;
  r_hands : list Z
}.

(** The local variables of [main] after "Default options": the
    configuration the options fill in. *)
Record Config : Type := mkConfig {
  verbose : bool;
  out_file : option string;
  iterations : Z;
  starting_gold : Z;
  strat_file : string;
  bet_system_name : string;
  bet_options : string;
  bet_anti_fallacy : bool;
  target_gold : Z;
  rounds : Z
}.

Definition default_config : Config :=
  {| verbose := false;
     out_file := None;
     iterations := 1;
     starting_gold := 0;
     strat_file := "strats/strat.txt";
     bet_system_name := "none";
     bet_options := "";
     bet_anti_fallacy := false;
     target_gold := 0;
     rounds := 0 |}.

Section Driver.
(** The objects of the modules that are not among the sources: a loaded
    strategy table, a betting system, and the part of a simulator that
    [reset] and [run] change (bankroll, shoe, betting progression, random
    state). *)
Context {Strategy BetSystem Core : Type}.

(** The calls [main] makes and the text it prints, in order. *)
Inductive Event : Type :=
| EvPrint (l : Line)                       (**r [print(...)] *)
| EvPrintFile (f : string) (l : Line)      (**r [print(..., file=out_file)] *)
| EvOpen (f : string)                      (**r [open(f, mode='w')] *)
| EvFromFile (f : string) (v : bool)       (**r [BlackjackStrategy.from_file] *)
| EvFromOptions (c : BetClass) (o : string) (**r [from_options] *)
| EvNewStats                               (**r [stats.BlackjackStats()] *)
| EvNewSimulator (s : Strategy) (b : BetSystem) (v : bool)
| EvSetStartingGold (g : Z)
| EvSetTargetGold (g : Z)
| EvSetAntiFallacy (b : bool)
| EvReset                                  (**r [bj.reset()] *)
| EvRun (s : Strategy) (r : Z)
    (**r [bj.run(r)], on a simulator that holds the strategy [s] *)
| EvAdd (st : RunStats)                    (**r [total_stats.add(st)] *)
| EvStatsPrint (t : TotalStats)            (**r [total_stats.print(just_print)] *)
| EvClose (f : string).                    (**r [out_file.close()] *)

(** The simulator object [bj].  The strategy, the betting system and the
    settings are what [main] gave it; [reset] and [run] work on
    [sim_core]. *)
Record Simulator : Type := mkSimulator {
  sim_strat : Strategy;
  sim_bet : BetSystem;
  sim_verbose : bool;
  sim_starting_gold : Z;
  sim_target_gold : Z;
  sim_anti_fallacy : bool;
  sim_core : Core
}.

Definition set_core (bj : Simulator) (c : Core) : Simulator :=
  {| sim_strat := sim_strat bj;
     sim_bet := sim_bet bj;
     sim_verbose := sim_verbose bj;
     sim_starting_gold := sim_starting_gold bj;
     sim_target_gold := sim_target_gold bj;
     sim_anti_fallacy := sim_anti_fallacy bj;
     sim_core := c |}.

(** The collaborators of [main].  A call that can raise returns an
    option (or a sum carrying the error text); [run], which can also fail
    to return, likewise. *)
Record Env : Type := mkEnv {
  (** [getopt.getopt(args, "hvf:s:i:g:b:o:r:t:", [...])]: the text of a
      [GetoptError], or the list of pairs (option, argument) *)
  getopt : list string -> string + list (string * string);
  (** [int(a)] *)
  int : string -> option Z;
  (** [open(a, mode='w')] succeeds *)
  open_w : string -> bool;
  (** [strategy.BlackjackStrategy.from_file(file, out=verbose_print)] *)
  from_file : string -> bool -> option Strategy;
  (** [BETTING_SYSTEMS[name].from_options(bet_options)] *)
  from_options : BetClass -> string -> option BetSystem;
  (** the state of a simulator fresh from its constructor *)
  new_core : Strategy -> BetSystem -> bool -> Core;
  (** [bj.reset()] *)
  reset : Simulator -> Core;
  (** [bj.run(rounds)]: the reason, the statistics of the run and the
      state the simulator is left in *)
  run : Simulator -> Z -> option (string * RunStats * Core)
}.

Variable env : Env.

(** *** A monad for [main]: a trace, and a value or the end of the program *)

Inductive Res (A : Type) : Type :=
| Ret (a : A)
| Stop (o : Outcome).
Arguments Ret {A} a.
Arguments Stop {A} o.

Definition M (A : Type) : Type := list Event * Res A.

Definition ret {A} (a : A) : M A := ([], Ret a).

Definition bind {A B} (c : M A) (k : A -> M B) : M B :=
  match c with
  | (t, Ret a) => let (t', r) := k a in ((t ++ t')%list, r)
  | (t, Stop o) => (t, Stop o)
  end.

Definition emit (e : Event) : M unit := ([e], Ret tt).

(** [sys.exit(status)] *)
Definition sys_exit {A} (status : Z) : M A := ([], Stop (Exit status)).

Definition raise {A} (e : Exn) : M A := ([], Stop (Raised e)).

Definition print (l : Line) : M unit := emit (EvPrint l).

Notation "x <- c ;; k" := (bind c (fun x => k))
  (at level 61, c at next level, right associativity).
Notation "c ;; k" := (bind c (fun _ => k))
  (at level 61, right associativity).

(** [for x in l: body(x)] where the body only prints or stops. *)
Fixpoint for_each {A} (l : list A) (body : A -> M unit) : M unit :=
  match l with
  | [] => ret tt
  | x :: l' => body x ;; for_each l' body
  end.

(** *** [print_help_thing] and [usage] *)

Definition print_help_thing (thing : HelpTable) : M unit :=
  for_each thing (fun '(cmds, desc) =>
    match desc with
    | [] => raise IndexError              (* desc.pop(0) *)
    | first :: others =>
        print (Text ("  " ++ ljust 24 (join ", " cmds) ++ first)) ;;
        for_each others (fun line =>
          print (Text ("  " ++ ljust 24 "" ++ line)))
    end).

Definition usage (file : string) : M unit :=
  print (Text ("Usage: " ++ file ++ " [OPTION...]")) ;;
  print (Text (nl ++ "General:")) ;;
  print_help_thing HELP_GENERAL ;;
  print (Text (nl ++ "Simulator:")) ;;
  print_help_thing HELP_SIMULATOR ;;
  print (Text (nl ++ "Betting:")) ;;
  print_help_thing HELP_BETTING ;;
  print (Text (nl ++ "End conditions:")) ;;
  print_help_thing HELP_CONDITIONS ;;
  print (Text (nl ++ nl ++ "Betting systems:")) ;;
  print (Text ("  " ++ join ", " (sorted (dict_keys BETTING_SYSTEMS)))).

(** *** Option processing (lines 117-146 of [main]) *)

(** [o in (x, y)] *)
Definition is_opt (o : string) (names : list string) : bool :=
  existsb (String.eqb o) names.

Definition py_int (a : string) : M Z :=
  match int env a with
  | Some z => ret z
  | None => raise ValueError
  end.

Definition py_open (a : string) : M string :=
  emit (EvOpen a) ;;
  if open_w env a then ret a else raise OSError.

(** One turn of [for o, a in opts]; [file] is [sys.argv[0]]. *)
Definition process_opt (file : string) (c : Config) (oa : string * string)
  : M Config :=
  let '(o, a) := oa in
  if is_opt o ["-v"; "--verbose"] then
    ret (mkConfig true (out_file c) (iterations c) (starting_gold c)
           (strat_file c) (bet_system_name c) (bet_options c)
           (bet_anti_fallacy c) (target_gold c) (rounds c))
  else if is_opt o ["-h"; "--help"] then
    usage file ;; sys_exit 0
  else if is_opt o ["-f"; "--out-file"] then
    f <- py_open a ;;
    ret (mkConfig (verbose c) (Some f) (iterations c) (starting_gold c)
           (strat_file c) (bet_system_name c) (bet_options c)
           (bet_anti_fallacy c) (target_gold c) (rounds c))
  else if is_opt o ["-s"; "--strat"] then
    ret (mkConfig (verbose c) (out_file c) (iterations c) (starting_gold c)
           a (bet_system_name c) (bet_options c)
           (bet_anti_fallacy c) (target_gold c) (rounds c))
  else if is_opt o ["-b"; "--bet-system"] then
    ret (mkConfig (verbose c) (out_file c) (iterations c) (starting_gold c)
           (strat_file c) a (bet_options c)
           (bet_anti_fallacy c) (target_gold c) (rounds c))
  else if is_opt o ["-o"; "--bet-options"] then
    ret (mkConfig (verbose c) (out_file c) (iterations c) (starting_gold c)
           (strat_file c) (bet_system_name c) a
           (bet_anti_fallacy c) (target_gold c) (rounds c))
  else if String.eqb o "--list-bet-systems" then
    print (Text ("Available betting systems: "
                 ++ join ", " (sorted (dict_keys BETTING_SYSTEMS)))) ;;
    sys_exit 0
  else if is_opt o ["-i"; "--iterations"] then
    n <- py_int a ;;
    ret (mkConfig (verbose c) (out_file c) n (starting_gold c)
           (strat_file c) (bet_system_name c) (bet_options c)
           (bet_anti_fallacy c) (target_gold c) (rounds c))
  else if is_opt o ["-r"; "--rounds"] then
    n <- py_int a ;;
    ret (mkConfig (verbose c) (out_file c) (iterations c) (starting_gold c)
           (strat_file c) (bet_system_name c) (bet_options c)
           (bet_anti_fallacy c) (target_gold c) n)
  else if is_opt o ["-g"; "--gold"] then
    n <- py_int a ;;
    ret (mkConfig (verbose c) (out_file c) (iterations c) n
           (strat_file c) (bet_system_name c) (bet_options c)
           (bet_anti_fallacy c) (target_gold c) (rounds c))
  else if is_opt o ["-t"; "--target"] then
    n <- py_int a ;;
    ret (mkConfig (verbose c) (out_file c) (iterations c) (starting_gold c)
           (strat_file c) (bet_system_name c) (bet_options c)
           (bet_anti_fallacy c) n (rounds c))
  else if String.eqb o "--anti-fallacy" then
    ret (mkConfig (verbose c) (out_file c) (iterations c) (starting_gold c)
           (strat_file c) (bet_system_name c) (bet_options c)
           true (target_gold c) (rounds c))
  else
    raise AssertionError.

(** [for o, a in opts: ...] *)
Fixpoint process_opts (file : string) (opts : list (string * string))
  (c : Config) : M Config :=
  match opts with
  | [] => ret c
  | oa :: opts' =>
      c' <- process_opt file c oa ;;
      process_opts file opts' c'
  end.

(** *** Validation, set-up, the iteration loop and the report
    (lines 148-228 of [main]) *)

(** The closure [just_print]: to the standard output, and to the output
    file when there is one. *)
Definition just_print (c : Config) (l : Line) : M unit :=
  print l ;;
  match out_file c with
  | Some f => emit (EvPrintFile f l)
  | None => ret tt
  end.

Definition empty_entry : ReasonEntry := mkReasonEntry 0 [] [].

(** The four statements that record the reason of one run. *)
Definition record_reason (reason : string) (st : RunStats)
  (reasons : dict ReasonEntry) : dict ReasonEntry :=
  let reasons1 :=
    if negb (dict_mem reason reasons) then dict_set reason empty_entry reasons
    else reasons in
  match dict_get reason reasons1 with
  | Some e =>
      dict_set reason
        (mkReasonEntry (count e + 1)
           (r_gold_end e ++ [gold_end st])%list
           (r_hands e ++ [total_hands st])%list)
        reasons1
  | None => reasons1
  end.

(** What the loop carries from one iteration to the next. *)
Definition LoopState : Type := Simulator * TotalStats * dict ReasonEntry.

(** The body of [for _ in range(0, iterations)]. *)
Definition iteration (r : Z) (s : LoopState) : M LoopState :=
  let '(bj, total_stats, reasons) := s in
  emit EvReset ;;
  let bj1 := set_core bj (reset env bj) in
  emit (EvRun (sim_strat bj1) r) ;;
  match run env bj1 r with
  | None => raise RunError
  | Some (reason, st, core) =>
      emit (EvAdd st) ;;
      ret (set_core bj1 core, add total_stats st, record_reason reason st reasons)
  end.

(** [n] turns of the loop. *)
Fixpoint iterate (n : nat) (r : Z) (s : LoopState) : M LoopState :=
  match n with
  | O => ret s
  | S n' =>
      s' <- iteration r s ;;
      iterate n' r s'
  end.

(** [range(0, n)] has [n] elements, none when [n] is negative. *)
Definition range_len (n : Z) : nat := Z.to_nat n.

(** The lines of the report for one reason. *)
Definition report_reason (c : Config) (reasons : dict ReasonEntry)
  (rs : string) : M unit :=
  match dict_get rs reasons with
  | None => raise KeyError
  | Some s =>
      just_print c (FmtReason rs (count s) (iterations c)) ;;
      just_print c (FmtMean "Avg. end gold" (r_gold_end s)) ;;
      just_print c (FmtMean "Avg. hands dealt" (r_hands s))
  end.

(** The three configuration checks and the loading of the strategy and
    of the betting system between them (lines 148-163). *)
Definition validate (c : Config) : M (Strategy * BetSystem) :=
  emit (EvFromFile (strat_file c) (verbose c)) ;;
  strat <- match from_file env (strat_file c) (verbose c) with
           | Some s => ret s
           | None => raise StrategyError
           end ;;
  (if negb (dict_mem (bet_system_name c) BETTING_SYSTEMS) then
     just_print c (Text ("Invalid betting system '" ++ bet_system_name c ++ "'")) ;;
     just_print c (Text ("Available systems: "
                         ++ join ", " (sorted (dict_keys BETTING_SYSTEMS)))) ;;
     sys_exit 1
   else ret tt) ;;
  (if negb (String.eqb (bet_system_name c) "none") && (starting_gold c =? 0) then
     just_print c (Text "gold required to use a betting system") ;;
     sys_exit 1
   else ret tt) ;;
  cls <- match dict_get (bet_system_name c) BETTING_SYSTEMS with
         | Some cls => ret cls
         | None => raise KeyError
         end ;;
  emit (EvFromOptions cls (bet_options c)) ;;
  bet_system <- match from_options env cls (bet_options c) with
                | Some b => ret b
                | None => raise OptionsError
                end ;;
  (if (target_gold c =? 0) && (rounds c =? 0) then
     just_print c (Text "At least one end condition (--target or --rounds) needs to be enabled.") ;;
     sys_exit 1
   else ret tt) ;;
  ret (strat, bet_system).

(** The banner (lines 165-180). *)
Definition banner (c : Config) : M unit :=
  just_print c (Text "Casino Simulator 9000!") ;;
  just_print c (Text ("Using strat file: " ++ strat_file c)) ;;
  just_print c (Text ("Using betting system: " ++ bet_system_name c)) ;;
  just_print c (Text ("  with options: " ++ bet_options c)) ;;
  (if starting_gold c >? 0 then
     just_print c (Text "") ;;
     just_print c (FmtField "Starting gold" (starting_gold c))
   else ret tt) ;;
  (if target_gold c >? 0 then
     just_print c (FmtField "Gold target" (target_gold c))
   else ret tt) ;;
  just_print c (FmtField "Max rounds" (rounds c)) ;;
  just_print c (Text "") ;;
  just_print c (FmtRunning (iterations c)).

(** [total_stats] as lines 184-187 leave it. *)
Definition initial_total (c : Config) : TotalStats :=
  {| t_runs := t_runs BlackjackStats;
     t_total_hands := t_total_hands BlackjackStats;
     t_wins := t_wins BlackjackStats;
     t_losses := t_losses BlackjackStats;
     t_pushes := t_pushes BlackjackStats;
     t_blackjacks := t_blackjacks BlackjackStats;
     t_busts := t_busts BlackjackStats;
     t_skipped := t_skipped BlackjackStats;
     gold_start := starting_gold c;
     gold_target := target_gold c;
     gold_min := starting_gold c;
     t_gold_end_sum := t_gold_end_sum BlackjackStats |}.

(** [bj] as lines 189-192 leave it. *)
Definition initial_simulator (c : Config) (strat : Strategy)
  (bet_system : BetSystem) : Simulator :=
  {| sim_strat := strat;
     sim_bet := bet_system;
     sim_verbose := verbose c;
     sim_starting_gold := starting_gold c;
     sim_target_gold := target_gold c;
     sim_anti_fallacy := bet_anti_fallacy c;
     sim_core := new_core env strat bet_system (verbose c) |}.

(** Lines 184-192: the accumulator and the simulator are built. *)
Definition set_up (c : Config) (strat : Strategy) (bet_system : BetSystem)
  : M LoopState :=
  emit EvNewStats ;;
  emit (EvNewSimulator strat bet_system (verbose c)) ;;
  emit (EvSetStartingGold (starting_gold c)) ;;
  emit (EvSetTargetGold (target_gold c)) ;;
  emit (EvSetAntiFallacy (bet_anti_fallacy c)) ;;
  ret (initial_simulator c strat bet_system, initial_total c, []).

(** Lines 211-228: the report. *)
Definition report (c : Config) (s : LoopState) : M unit :=
  let '(_, total_stats, reasons) := s in
  just_print c FmtCompleted ;;
  just_print c (Text "") ;;
  just_print c (Text "Results:") ;;
  for_each (sorted (dict_keys reasons)) (report_reason c reasons) ;;
  just_print c (Text (nl ++ "Stats:")) ;;
  emit (EvStatsPrint total_stats) ;;
  match out_file c with
  | Some f => emit (EvClose f)
  | None => ret tt
  end.

(** Lines 148-228, from a configuration. *)
Definition main_body (c : Config) : M unit :=
  sb <- validate c ;;
  let '(strat, bet_system) := sb in
  banner c ;;
  s0 <- set_up c strat bet_system ;;
  s <- iterate (range_len (iterations c)) (rounds c) s0 ;;
  report c s.

(** Lines 91-228, from the options [getopt] returned. *)
Definition main_opts (file : string) (opts : list (string * string))
  : M unit :=
  c <- process_opts file opts default_config ;;
  main_body c.

Definition main (argv : list string) : M unit :=
  if (length argv <? 2)%nat then
    match argv with
    | [] => raise IndexError                  (* sys.argv[0] *)
    | file :: _ => usage file ;; sys_exit 1
    end
  else
    match argv with
    | [] => raise IndexError
    | file :: args =>
        match getopt env args with
        | inl err => print (Text err) ;; usage file ;; sys_exit 2
        | inr opts => main_opts file opts
        end
    end.

(** The trace of an invocation and how it ends. *)
Definition trace {A} (m : M A) : list Event := fst m.

Definition outcome (m : M unit) : Outcome :=
  match snd m with
  | Ret _ => Completed
  | Stop o => o
  end.

(** *** Observations on a trace *)

Definition is_reset (e : Event) : bool :=
  match e with EvReset => true | _ => false end.

Definition is_run (e : Event) : bool :=
  match e with EvRun _ _ => true | _ => false end.

Definition is_add (e : Event) : bool :=
  match e with EvAdd _ => true | _ => false end.

Definition is_from_file (e : Event) : bool :=
  match e with EvFromFile _ _ => true | _ => false end.

Definition is_from_options (e : Event) : bool :=
  match e with EvFromOptions _ _ => true | _ => false end.

(** The event starts or belongs to a run. *)
Definition is_run_event (e : Event) : bool :=
  is_reset e || is_run e || is_add e.

(** No run was started: neither [reset] nor [run] was called. *)
Definition no_run (t : list Event) : Prop :=
  forall e, In e t -> is_run_event e = false.

(** The line was printed on the standard output. *)
Definition printed (l : Line) (t : list Event) : Prop := In (EvPrint l) t.

Definition is_print (e : Event) : bool :=
  match e with EvPrint _ => true | _ => false end.

(** The events of option processing: text on the standard output and
    the opening of the output file. *)
Definition is_option_event (e : Event) : bool :=
  match e with EvPrint _ | EvOpen _ => true | _ => false end.

(** Text, on the standard output or in the output file. *)
Definition is_output (e : Event) : bool :=
  match e with EvPrint _ | EvPrintFile _ _ => true | _ => false end.

(** Every event of the computation is of the class [p]. *)
Definition only {A} (p : Event -> bool) (m : M A) : Prop :=
  Forall (fun e => p e = true) (fst m).

(** The events of [validate]. *)
Definition is_validate_event (e : Event) : bool :=
  is_from_file e || is_from_options e || is_output e.

(** Neither a loading of the strategy nor an event of a run. *)
Definition is_quiet (e : Event) : bool :=
  negb (is_from_file e) && negb (is_run_event e).

(** The number of events of the class [p]. *)
Definition count_events (p : Event -> bool) (t : list Event) : nat :=
  length (filter p t).

(** How a program that reports an error ends: [sys.exit(1)], or an
    exception. *)
Definition fails (o : Outcome) : Prop :=
  o = Exit 1 \/ exists e, o = Raised e.

(** *** The iteration loop, seen from outside *)

(** [runs r bj results bj']: resetting and running [bj] once per element
    of [results] returns these reasons and statistics, in this order, and
    leaves the simulator [bj']. *)
Inductive runs (r : Z)
  : Simulator -> list (string * RunStats) -> Simulator -> Prop :=
| runs_nil bj : runs r bj [] bj
| runs_cons bj reason st core rest bj' :
    run env (set_core bj (reset env bj)) r = Some (reason, st, core) ->
    runs r (set_core (set_core bj (reset env bj)) core) rest bj' ->
    runs r bj ((reason, st) :: rest) bj'.

(** What one iteration leaves in the trace when its run returns [res]. *)
Definition iteration_events (strat : Strategy) (r : Z)
  (res : string * RunStats) : list Event :=
  [EvReset; EvRun strat r; EvAdd (snd res)].

(** The dictionary [reasons] after the runs that returned [results]. *)
Definition record_all (results : list (string * RunStats))
  (reasons : dict ReasonEntry) : dict ReasonEntry :=
  fold_left (fun d res => record_reason (fst res) (snd res) d) results reasons.

End Driver.

Arguments Event : clear implicits.
Arguments Simulator : clear implicits.
Arguments Env : clear implicits.
Arguments M : clear implicits.
Arguments LoopState : clear implicits.
Arguments Ret {A} a.
Arguments Stop {A} o.

(** ** The simulator: [reset] and [run] *)

Module BlackjackSimulator.
Section Run.
(** The strategy table, the shoe (with the state of its shuffling) and
    the private state of the betting system. *)
Context {Strategy Shoe BetState : Type}.

(** Modelled from the spec: the outcome of a round, section 4.4. *)
Inductive RoundOutcome : Type := Win | Loss | Push.

(** Modelled from the spec: the contract of a betting system, section
    4.3; the class [betting] is not among the sources.  [next_bet] gives
    the stake or [None] for Rejected. *)
Record BettingSystem : Type := mkBettingSystem {
  next_bet : BetState -> Z -> option RoundOutcome -> option Z;
  on_result : BetState -> RoundOutcome -> Z -> Z -> BetState;
  cleared : BetState;
  requires_stake : bool
}.

(** Modelled from the spec: what a simulator is configured with; the
    round engine of section 4.4 is [play_round], which returns the
    outcome, the gold delta and the number of hands, and the shoe it
    leaves. *)
Record Settings : Type := mkSettings {
  strategy : Strategy;
  betting : BettingSystem;
  starting_gold : Z;
  target_gold : Z;
  anti_fallacy : bool;
  reshuffle : Shoe -> Shoe;
  play_round : Shoe -> Strategy -> Z -> (RoundOutcome * Z * Z) * Shoe
}.

(** Modelled from the spec: the state of one run, section 3
    (lifecycle). *)
Record RunState : Type := mkRunState {
  bankroll : Z;
  shoe : Shoe;
  bet_state : BetState;
  last_outcome : option RoundOutcome;
  round_count : Z;
  run_stats : RunStats
}.

Variable cfg : Settings.

(** Modelled from the spec: the statistics of a run that has not played
    yet. *)
Definition clear_stats (gold : Z) : RunStats :=
  mkRunStats 0 0 0 0 0 0 0 gold gold gold.

(** Modelled from the spec: [reset()] of section 4.5. *)
Definition reset (s : RunState) : RunState :=
  {| bankroll := starting_gold cfg;
     shoe := reshuffle cfg (shoe s);
     bet_state := cleared (betting cfg);
     last_outcome := None;
     round_count := 0;
     run_stats := clear_stats (starting_gold cfg) |}.

(** Modelled from the spec: the stake of the next round, with the
    anti-fallacy override of section 4.3 above the betting system. *)
Definition stake (s : RunState) : option Z :=
  match anti_fallacy cfg, last_outcome s with
  | true, Some Loss => Some 0
  | _, _ => next_bet (betting cfg) (bet_state s) (bankroll s) (last_outcome s)
  end.

(** Modelled from the spec: a skipped round draws no card and is counted
    apart. *)
Definition skip_round (s : RunState) : RunState :=
  let st := run_stats s in
  {| bankroll := bankroll s;
     shoe := shoe s;
     bet_state := bet_state s;
     last_outcome := last_outcome s;
     round_count := round_count s + 1;
     run_stats :=
       mkRunStats (total_hands st) (wins st) (losses st) (pushes st)
         (blackjacks st) (busts st) (skipped st + 1)
         (gold_begin st) (gold_end st) (gold_low st) |}.

(** Modelled from the spec: the statistics after a played round. *)
Definition count_round (st : RunStats) (o : RoundOutcome) (hands gold : Z)
  : RunStats :=
  mkRunStats (total_hands st + hands)
    (wins st + match o with Win => 1 | _ => 0 end)
    (losses st + match o with Loss => 1 | _ => 0 end)
    (pushes st + match o with Push => 1 | _ => 0 end)
    (blackjacks st) (busts st) (skipped st)
    (gold_begin st) gold (Z.min (gold_low st) gold).

(** Modelled from the spec: one turn of the loop of [run], section 4.5:
    a bet is asked for; Rejected or a zero bet is a skipped round;
    otherwise a round is played, the gold delta applied, the statistics
    and the betting system updated; the round counter goes up either
    way. *)
Definition one_round (s : RunState) : RunState :=
  match stake s with
  | None => skip_round s
  | Some bet =>
      if bet =? 0 then skip_round s
      else
        let '(o, delta, hands, shoe') :=
          play_round cfg (shoe s) (strategy cfg) bet in
        let gold := bankroll s + delta in
        {| bankroll := gold;
           shoe := shoe';
           bet_state := on_result (betting cfg) (bet_state s) o bet delta;
           last_outcome := Some o;
           round_count := round_count s + 1;
           run_stats := count_round (run_stats s) o hands gold |}
  end.

(** Modelled from the spec: the termination check of section 4.5, in its
    fixed order. *)
Definition termination (max_rounds : Z) (s : RunState) : option string :=
  if (target_gold cfg >? 0) && (bankroll s >=? target_gold cfg) then
    Some "target reached"
  else if (bankroll s <=? 0) && requires_stake (betting cfg) then
    Some "broke"
  else if (max_rounds >? 0) && (round_count s >=? max_rounds) then
    Some "rounds exhausted"
  else None.

(** Modelled from the spec: the loop of [run], a round and then the
    check.  Nothing bounds the loop when no condition ever holds, so the
    model counts turns down from [fuel] and gives [None] when they run
    out. *)
Fixpoint run_loop (fuel : nat) (max_rounds : Z) (s : RunState)
  : option (string * RunState) :=
  match fuel with
  | O => None
  | S fuel' =>
      let s' := one_round s in
      match termination max_rounds s' with
      | Some reason => Some (reason, s')
      | None => run_loop fuel' max_rounds s'
      end
  end.

(** Modelled from the spec: the round counter belongs to the run, which
    starts it at zero. *)
Definition begin_run (s : RunState) : RunState :=
  {| bankroll := bankroll s;
     shoe := shoe s;
     bet_state := bet_state s;
     last_outcome := last_outcome s;
     round_count := 0;
     run_stats := run_stats s |}.

(** Modelled from the spec: [run(max_rounds)]; the reason, the statistics
    of the run and the state it leaves. *)
Definition run (fuel : nat) (max_rounds : Z) (s : RunState)
  : option (string * RunStats * RunState) :=
  match run_loop fuel max_rounds (begin_run s) with
  | Some (reason, s') => Some (reason, run_stats s', s')
  | None => None
  end.

(** The rounds of a run, played and skipped, are the rounds its
    statistics count. *)
Definition rounds_accounted (s : RunState) : Prop :=
  wins (run_stats s) + losses (run_stats s) + pushes (run_stats s)
  + skipped (run_stats s) = round_count s
  /\ 0 <= skipped (run_stats s).

(** Modelled from the spec: the reasons a run can end with. *)
Definition reasons : list string :=
  ["target reached"; "broke"; "rounds exhausted"].

End Run.
Arguments BettingSystem : clear implicits.
Arguments Settings : clear implicits.
Arguments RunState : clear implicits.
End BlackjackSimulator.

(** ** A concrete environment

    The theorems below hold for every environment.  To run the driver, and
    to instantiate the theorems, here is one: the option parser and the
    number parser of Python restricted to ASCII, a strategy loader and an
    option loader that accept anything but an empty file name, and the
    simulator above with a flat bet of 10 against a house that always
    wins. *)

Module Demo.

(** [getopt.getopt] with the short and long options of [main], after the
    classic algorithm of the Python library (no optional arguments). *)
Definition shortopts : string := "hvf:s:i:g:b:o:r:t:".

Definition longopts : list string :=
  ["help"; "verbose"; "out-file="; "strat="; "iterations="; "gold=";
   "bet-system="; "bet-options="; "list-bet-systems"; "rounds=";
   "target="; "anti-fallacy"].

Fixpoint short_has_arg (opt : ascii) (shorts : string) : option bool :=
  match shorts with
  | EmptyString => None
  | String c rest =>
      if Ascii.eqb opt c && negb (Ascii.eqb c ":"%char)
      then Some (String.prefix ":" rest)
      else short_has_arg opt rest
  end.

Fixpoint do_shorts (optstring : string) (args : list string)
  : string + (list (string * string) * list string) :=
  match optstring with
  | EmptyString => inr ([], args)
  | String opt rest =>
      let name := String "-" (String opt EmptyString) in
      match short_has_arg opt shortopts with
      | None => inl ("option " ++ name ++ " not recognized")
      | Some true =>
          match rest, args with
          | EmptyString, [] => inl ("option " ++ name ++ " requires argument")
          | EmptyString, a :: args' => inr ([(name, a)], args')
          | _, _ => inr ([(name, rest)], args)
          end
      | Some false =>
          match do_shorts rest args with
          | inl e => inl e
          | inr (os, args') => inr ((name, "") :: os, args')
          end
      end
  end.

Definition ends_with_eq (s : string) : bool :=
  match String.get (String.length s - 1) s with
  | Some c => Ascii.eqb c "="%char && negb (String.length s =? 0)%nat
  | None => false
  end.

Definition mem (s : string) (l : list string) : bool :=
  existsb (String.eqb s) l.

(** [long_has_args]: whether the option takes an argument, and its full
    name. *)
Definition long_has_args (opt : string) : string + (bool * string) :=
  let possibilities := filter (String.prefix opt) longopts in
  match possibilities with
  | [] => inl ("option --" ++ opt ++ " not recognized")
  | first :: others =>
      if mem opt possibilities then inr (false, opt)
      else if mem (opt ++ "=") possibilities then inr (true, opt)
      else
        match others with
        | _ :: _ => inl ("option --" ++ opt ++ " not a unique prefix")
        | [] =>
            if ends_with_eq first
            then inr (true, String.substring 0 (String.length first - 1) first)
            else inr (false, first)
        end
  end.

Definition do_longs (opt : string) (args : list string)
  : string + (list (string * string) * list string) :=
  let '(opt1, optarg) :=
    match String.index 0 "=" opt with
    | Some i =>
        (String.substring 0 i opt,
         Some (String.substring (i + 1) (String.length opt - (i + 1)) opt))
    | None => (opt, None)
    end in
  match long_has_args opt1 with
  | inl e => inl e
  | inr (true, name) =>
      match optarg, args with
      | Some a, _ => inr ([("--" ++ name, a)], args)
      | None, [] => inl ("option --" ++ name ++ " requires argument")
      | None, a :: args' => inr ([("--" ++ name, a)], args')
      end
  | inr (false, name) =>
      match optarg with
      | Some _ => inl ("option --" ++ name ++ " must not have an argument")
      | None => inr ([("--" ++ name, "")], args)
      end
  end.

Fixpoint getopt_loop (fuel : nat) (args : list string)
  : string + list (string * string) :=
  match fuel, args with
  | S fuel', a :: args' =>
      if String.prefix "-" a && negb (String.eqb a "-") then
        if String.eqb a "--" then inr []
        else
          let step :=
            if String.prefix "--" a
            then do_longs (String.substring 2 (String.length a - 2) a) args'
            else do_shorts (String.substring 1 (String.length a - 1) a) args' in
          match step with
          | inl e => inl e
          | inr (os, rest) =>
              match getopt_loop fuel' rest with
              | inl e => inl e
              | inr os' => inr (os ++ os')%list
              end
          end
      else inr []
  | _, _ => inr []
  end.

Definition getopt (args : list string) : string + list (string * string) :=
  getopt_loop (length args) args.

(** [int(a)] on a string of ASCII characters: blanks around (the space
    and the characters 9 to 13), a sign, decimal digits with single
    underscores between them, and no more than 4300 digits, the default of
    [sys.get_int_max_str_digits()].  Digits and blanks outside ASCII, which
    [int] accepts as well, are not covered: on a string with a character
    above 127 this function gives no number. *)
Definition is_space (c : ascii) : bool :=
  let n := nat_of_ascii c in
  (n =? 32)%nat || ((9 <=? n)%nat && (n <=? 13)%nat).

Fixpoint lstrip (l : list ascii) : list ascii :=
  match l with
  | c :: l' => if is_space c then lstrip l' else l
  | [] => []
  end.

Definition strip (s : string) : string :=
  string_of_list_ascii
    (rev (lstrip (rev (lstrip (list_ascii_of_string s))))).

Definition digit (c : ascii) : option Z :=
  let n := nat_of_ascii c in
  if (48 <=? n)%nat && (n <=? 57)%nat then Some (Z.of_nat (n - 48)) else None.

Fixpoint digits (acc : Z) (after_digit : bool) (s : string) : option Z :=
  match s with
  | EmptyString => if after_digit then Some acc else None
  | String c rest =>
      match digit c with
      | Some d => digits (10 * acc + d) true rest
      | None =>
          if Ascii.eqb c "_"%char && after_digit then digits acc false rest
          else None
      end
  end.

Definition max_str_digits : nat := 4300.

Definition count_digits (s : string) : nat :=
  length (filter (fun c => match digit c with Some _ => true | None => false end)
            (list_ascii_of_string s)).

Definition int (a : string) : option Z :=
  if (max_str_digits <? count_digits (strip a))%nat then None
  else
    match strip a with
    | String "+" r => digits 0 false r
    | String "-" r => option_map Z.opp (digits 0 false r)
    | t => digits 0 false t
    end.

Definition Strategy : Type := string.
Definition BetSystem : Type := (BetClass * string)%type.
Definition Core : Type := BlackjackSimulator.RunState unit unit.

(** A flat bet of 10; it is rejected when gold is tracked and there is
    less than 10 left. *)
Definition flat (tracked : bool) : BlackjackSimulator.BettingSystem unit :=
  {| BlackjackSimulator.next_bet :=
       fun _ gold _ => if tracked && (gold <? 10) then None else Some 10;
     BlackjackSimulator.on_result := fun s _ _ _ => s;
     BlackjackSimulator.cleared := tt;
     BlackjackSimulator.requires_stake := tracked |}.

(** A round the player always loses, one hand. *)
Definition house_wins (sh : unit) (st : Strategy) (bet : Z)
  : (BlackjackSimulator.RoundOutcome * Z * Z) * unit :=
  ((BlackjackSimulator.Loss, - bet, 1), sh).

Definition settings (bj : Simulator Strategy BetSystem Core)
  : BlackjackSimulator.Settings Strategy unit unit :=
  {| BlackjackSimulator.strategy := sim_strat bj;
     BlackjackSimulator.betting := flat (0 <? sim_starting_gold bj);
     BlackjackSimulator.starting_gold := sim_starting_gold bj;
     BlackjackSimulator.target_gold := sim_target_gold bj;
     BlackjackSimulator.anti_fallacy := sim_anti_fallacy bj;
     BlackjackSimulator.reshuffle := fun sh => sh;
     BlackjackSimulator.play_round := house_wins |}.

(** The number of turns a run is given before it counts as not
    returning. *)
Definition budget : nat := 1000.

Definition env : Env Strategy BetSystem Core :=
  mkEnv getopt int
    (fun f => negb (String.eqb f ""))
    (fun f _ => if String.eqb f "" then None else Some f)
    (fun c o => Some (c, o))
    (fun _ _ _ =>
       BlackjackSimulator.mkRunState 0 tt tt None 0
         (BlackjackSimulator.clear_stats 0))
    (fun bj => BlackjackSimulator.reset (settings bj) (sim_core bj))
    (fun bj r => BlackjackSimulator.run (settings bj) budget r (sim_core bj)).

(** A simulator with 30 gold and no target, and three runs' worth of
    statistics, to evaluate the definitions on. *)
Definition table : BlackjackSimulator.Settings Strategy unit unit :=
  {| BlackjackSimulator.strategy := "strats/strat.txt";
     BlackjackSimulator.betting := flat true;
     BlackjackSimulator.starting_gold := 30;
     BlackjackSimulator.target_gold := 0;
     BlackjackSimulator.anti_fallacy := false;
     BlackjackSimulator.reshuffle := fun sh => sh;
     BlackjackSimulator.play_round := house_wins |}.

Definition fresh : Core :=
  BlackjackSimulator.mkRunState 0 tt tt None 0 (BlackjackSimulator.clear_stats 0).

Definition run_a : RunStats := mkRunStats 12 5 6 1 1 2 0 100 80 60.
Definition run_b : RunStats := mkRunStats 40 22 15 3 2 4 1 100 200 90.
Definition run_c : RunStats := mkRunStats 7 0 7 0 0 3 0 100 0 0.

End Demo.

From Stdlib Require Import Sorted.

(** ** The options, as [getopt] is asked for them *)

(** The option strings of line 84: ["hvf:s:i:g:b:o:r:t:"] and the list of
    long options.  A letter gives the option ["-"] + letter, a long name
    gives ["--"] + name without its [=]. *)
Definition short_names (shorts : string) : list string :=
  map (fun c => String "-" (String c EmptyString))
      (filter (fun c => negb (Ascii.eqb c ":"%char)) (list_ascii_of_string shorts)).

Definition long_name (l : string) : string :=
  "--" ++ (if Demo.ends_with_eq l
           then String.substring 0 (String.length l - 1) l
           else l).

(** Every option name [getopt] can return for [main]. *)
Definition declared_options : list string :=
  (short_names Demo.shortopts ++ map long_name Demo.longopts)%list.

(** The argument of the last option of [opts] whose name is in [names]. *)
Fixpoint last_arg (names : list string) (opts : list (string * string))
  : option string :=
  match opts with
  | [] => None
  | (o, a) :: opts' =>
      match last_arg names opts' with
      | Some x => Some x
      | None => if is_opt o names then Some a else None
      end
  end.

(** An option whose name is in [names] occurs in [opts]. *)
Definition has_opt (names : list string) (opts : list (string * string)) : bool :=
  existsb (fun oa => is_opt (fst oa) names) opts.

(** The arguments of the options of [opts] whose name is in [names], in
    order. *)
Definition args_of (names : list string) (opts : list (string * string))
  : list string :=
  map snd (filter (fun oa => is_opt (fst oa) names) opts).

(** The options that take a number. *)
Definition number_options : list string :=
  ["-i"; "--iterations"; "-r"; "--rounds"; "-g"; "--gold"; "-t"; "--target"].

(** ** The dictionary [reasons], run by run *)

(** The runs of [results] that ended with the reason [rs]. *)
Definition ended_with (rs : string) (results : list (string * RunStats))
  : list (string * RunStats) :=
  filter (fun res => String.eqb (fst res) rs) results.

(** The entry [e] after the runs [m] were recorded in it. *)
Definition entry_after (e : ReasonEntry) (m : list (string * RunStats))
  : ReasonEntry :=
  mkReasonEntry (count e + Z.of_nat (length m))
    (r_gold_end e ++ map (fun res => gold_end (snd res)) m)%list
    (r_hands e ++ map (fun res => total_hands (snd res)) m)%list.

(** The runs counted by the entries of the dictionary. *)
Definition counted (d : dict ReasonEntry) : Z :=
  fold_right (fun kv acc => count (snd kv) + acc) 0 d.

(** [a <= b] on strings, by code points. *)
Definition str_le (a b : string) : Prop := String.leb a b = true.

Section DriverMore.
Context {Strategy BetSystem Core : Type}.

(** ** What [main] prints and what it writes to a file *)

(** The lines [main] prints itself on the standard output, in order: the
    [print] calls of [usage], of the option loop and of [just_print].  The
    standard output of the program can hold more: what a collaborator
    prints there through [out=verbose_print] (lines 94-96, passed at lines
    148 and 189) when [verbose] is set leaves no event in a trace, and is
    no part of these lines. *)
Definition printed_lines (t : list (Event Strategy BetSystem)) : list Line :=
  flat_map (fun e => match e with EvPrint l => [l] | _ => [] end) t.

(** The lines [main] writes itself to the file [f], in order. *)
Definition file_lines (f : string) (t : list (Event Strategy BetSystem))
  : list Line :=
  flat_map (fun e => match e with
                     | EvPrintFile f' l => if String.eqb f f' then [l] else []
                     | _ => []
                     end) t.

Definition is_print_file (e : Event Strategy BetSystem) : bool :=
  match e with EvPrintFile _ _ => true | _ => false end.

Definition is_close (e : Event Strategy BetSystem) : bool :=
  match e with EvClose _ => true | _ => false end.

(** [main] writes to the file of the configuration, if any, the lines it
    prints itself, in order, and writes to no other file. *)
Definition mirrored (out : option string) (t : list (Event Strategy BetSystem))
  : Prop :=
  match out with
  | Some f =>
      file_lines f t = printed_lines t
      /\ forall f', f' <> f -> file_lines f' t = []
  | None => Forall (fun e => is_print_file e = false) t
  end.

(** The event is neither a line on the standard output nor a line in a
    file. *)
Definition is_silent (e : Event Strategy BetSystem) : bool :=
  match e with EvPrint _ | EvPrintFile _ _ => false | _ => true end.

(** The reasons of the reason lines printed on the standard output, in
    order. *)
Definition reason_names (t : list (Event Strategy BetSystem)) : list string :=
  flat_map (fun e => match e with
                     | EvPrint (FmtReason rs _ _) => [rs]
                     | _ => []
                     end) t.

(** The table as [print_help_thing] leaves it: every description without
    its first line. *)
Definition popped (thing : HelpTable) : HelpTable :=
  map (fun entry => (fst entry, tl (snd entry))) thing.

(** ** [print_help_thing] on a table it changes

    [desc.pop(0)] removes the first line of a description from the list
    that the module-level table holds: [print_help_thing] leaves the table
    changed.  This version returns the table as the call leaves it. *)
Fixpoint print_help_thing_pop (thing : HelpTable)
  : M Strategy BetSystem HelpTable :=
  match thing with
  | [] => ret []
  | (cmds, desc) :: thing' =>
      match desc with
      | [] => raise IndexError              (* desc.pop(0) *)
      | first :: others =>
          bind (print (Text ("  " ++ ljust 24 (join ", " cmds) ++ first)))
            (fun _ =>
          bind (for_each others (fun line =>
                  print (Text ("  " ++ ljust 24 "" ++ line))))
            (fun _ =>
          bind (print_help_thing_pop thing')
            (fun left => ret ((cmds, others) :: left))))
      end
  end.

(** The line of the report is sound: a reason line counts at least one
    run and no more runs than [n] iterations, and an average is over at
    least one value. *)
Definition sound_report_line (n : Z) (l : Line) : Prop :=
  match l with
  | FmtReason _ k m => m = n /\ 1 <= k <= n
  | FmtMean _ xs => xs <> []
  | _ => True
  end.

Definition sound_report_event (n : Z) (e : Event Strategy BetSystem) : Prop :=
  match e with
  | EvPrint l | EvPrintFile _ l => sound_report_line n l
  | _ => True
  end.

(** ** The strategy table and the simulator in a trace *)

Definition is_new_simulator (e : Event Strategy BetSystem) : bool :=
  match e with EvNewSimulator _ _ _ => true | _ => false end.

(** Neither a loading of the strategy table, nor the construction of a
    simulator, nor an event of a run. *)
Definition is_plain (e : Event Strategy BetSystem) : bool :=
  is_quiet e && negb (is_new_simulator e).

(** The configuration with which the invocation gets to line 148, if it
    does: there is an argument, [getopt] accepts the arguments and the
    option loop of lines 117-146 ends without [sys.exit] and without an
    exception. *)
Definition configuration (env : Env Strategy BetSystem Core)
  (argv : list string) : option Config :=
  match argv with
  | file :: a :: args =>
      match getopt env (a :: args) with
      | inr opts =>
          match snd (process_opts env file opts default_config) with
          | Ret c => Some c
          | Stop _ => None
          end
      | inl _ => None
      end
  | _ => None
  end.

(** What lines 184-192 leave in the trace. *)
Definition set_up_events (c : Config) (strat : Strategy)
  (bet_system : BetSystem) : list (Event Strategy BetSystem) :=
  [EvNewStats; EvNewSimulator strat bet_system (verbose c);
   EvSetStartingGold (starting_gold c); EvSetTargetGold (target_gold c);
   EvSetAntiFallacy (bet_anti_fallacy c)].

End DriverMore.

(** * Properties *)

(** ** The monad and the classes of events *)

Section Facts.
Context {Strategy BetSystem Core : Type}.
Variable env : Env Strategy BetSystem Core.

Abbreviation Ev := (Event Strategy BetSystem).
Abbreviation Mon := (M Strategy BetSystem).

Lemma bind_ret {A B} (t : list Ev) (a : A) (k : A -> Mon B) :
  bind (t, Ret a) k = ((t ++ fst (k a))%list, snd (k a)).
Proof. unfold bind. destruct (k a); reflexivity. Qed.

Lemma bind_stop {A B} (t : list Ev) (o : Outcome) (k : A -> Mon B) :
  bind (t, Stop o) k = (t, Stop o).
Proof. reflexivity. Qed.

Lemma bind_eq_ret {A B} (c : Mon A) (k : A -> Mon B) t a :
  c = (t, Ret a) -> bind c k = ((t ++ fst (k a))%list, snd (k a)).
Proof. intros ->. apply bind_ret. Qed.

Lemma bind_eq_stop {A B} (c : Mon A) (k : A -> Mon B) t o :
  c = (t, Stop o) -> bind c k = (t, Stop o).
Proof. intros ->. reflexivity. Qed.

Lemma bind_assoc {A B C} (c : Mon A) (k : A -> Mon B) (h : B -> Mon C) :
  bind (bind c k) h = bind c (fun a => bind (k a) h).
Proof.
  destruct c as [t [a|o]]; [|reflexivity].
  unfold bind. destruct (k a) as [t' [b|o]]; [|reflexivity].
  destruct (h b) as [t'' r]. rewrite app_assoc. reflexivity.
Qed.

Lemma only_ret {A} p (a : A) : only p (ret a : Mon A).
Proof. constructor. Qed.

Lemma only_stop {A} p t (o : Outcome) :
  Forall (fun e => p e = true) t -> only p ((t, Stop o) : Mon A).
Proof. intro H; exact H. Qed.

Lemma only_exit {A} p z : only p (sys_exit z : Mon A).
Proof. constructor. Qed.

Lemma only_raise {A} p e : only p (raise e : Mon A).
Proof. constructor. Qed.

Lemma only_emit p (e : Ev) : p e = true -> only p (emit e).
Proof. intro H. repeat constructor. exact H. Qed.

Lemma only_bind {A B} p (c : Mon A) (k : A -> Mon B) :
  only p c -> (forall a, only p (k a)) -> only p (bind c k).
Proof.
  unfold only. destruct c as [t [a|o]]; intros Hc Hk.
  - rewrite bind_ret. simpl. apply Forall_app. split; [exact Hc | apply Hk].
  - exact Hc.
Qed.

Lemma only_for_each {A} p (l : list A) (body : A -> Mon unit) :
  (forall x, only p (body x)) -> only p (for_each l body).
Proof.
  intro H. induction l as [|x l IH]; simpl.
  - apply only_ret.
  - apply only_bind; [apply H | intros _; exact IH].
Qed.

Lemma only_weaken {A} (p q : Ev -> bool) (m : Mon A) :
  (forall e, p e = true -> q e = true) -> only p m -> only q m.
Proof. intros H. unfold only. apply Forall_impl. exact H. Qed.

Lemma only_usage p file :
  (forall l, p (EvPrint l) = true) -> only p (usage file : Mon unit).
Proof.
  intro H. unfold only. cbv -[append String.length ljust join sorted].
  repeat (constructor; [apply H|]). constructor.
Qed.

Lemma usage_returns file :
  snd (usage file : Mon unit) = Ret tt.
Proof. reflexivity. Qed.

Lemma only_just_print p c l :
  (forall e, is_output e = true -> p e = true) -> only p (just_print c l : Mon unit).
Proof.
  intro H. unfold just_print. apply only_bind.
  - apply only_emit. apply H. reflexivity.
  - intros _. destruct (out_file c); [apply only_emit, H; reflexivity | apply only_ret].
Qed.

Lemma just_print_returns c l : snd (just_print c l : Mon unit) = Ret tt.
Proof. unfold just_print. destruct (out_file c); reflexivity. Qed.

(** *** Option processing *)

Lemma sorted_systems :
  join ", " (sorted (dict_keys BETTING_SYSTEMS)) = "fp, martingale, none, simple".
Proof. reflexivity. Qed.

Lemma known_systems name :
  dict_mem name BETTING_SYSTEMS = true
  <-> In name ["none"; "martingale"; "fp"; "simple"].
Proof.
  unfold dict_mem, BETTING_SYSTEMS, dict_get. simpl.
  destruct (String.eqb_spec name "none"); [subst; tauto|].
  destruct (String.eqb_spec name "martingale"); [subst; tauto|].
  destruct (String.eqb_spec name "fp"); [subst; tauto|].
  destruct (String.eqb_spec name "simple"); [subst; tauto|].
  split; [discriminate|].
  intros [H|[H|[H|[H|[]]]]]; congruence.
Qed.

Lemma only_py_int p a : only p (py_int env a).
Proof. unfold py_int. destruct (int env a); constructor. Qed.

Lemma only_py_open a : only is_option_event (py_open env a).
Proof.
  unfold py_open. apply only_bind; [apply only_emit; reflexivity|].
  intros _. destruct (open_w env a); constructor.
Qed.

Lemma only_process_opt file c oa :
  only is_option_event (process_opt env file c oa).
Proof.
  destruct oa as [o a]. unfold process_opt.
  repeat match goal with
         | |- context [if ?b then _ else _] => destruct b
         end;
    repeat first
      [ apply only_ret | apply only_raise | apply only_exit
      | apply only_py_int | apply only_py_open
      | apply only_usage; reflexivity
      | apply only_emit; reflexivity
      | apply only_bind; [|intros ?] ].
Qed.

Lemma only_process_opts file opts c :
  only is_option_event (process_opts env file opts c).
Proof.
  revert c. induction opts as [|oa opts IH]; intro c; simpl.
  - apply only_ret.
  - apply only_bind; [apply only_process_opt | intro c'; apply IH].
Qed.

Lemma process_opts_app file pre post c :
  process_opts env file (pre ++ post) c
  = bind (process_opts env file pre c) (fun c' => process_opts env file post c').
Proof.
  revert c. induction pre as [|oa pre IH]; intro c; simpl.
  - unfold ret, bind. destruct (process_opts env file post c); reflexivity.
  - rewrite bind_assoc.
    destruct (process_opt env file c oa) as [t [c'|o]]; [|reflexivity].
    unfold bind at 1 3. rewrite IH. reflexivity.
Qed.

Lemma process_opt_list file c a :
  process_opt env file c ("--list-bet-systems", a)
  = ([EvPrint (Text "Available betting systems: fp, martingale, none, simple")],
     Stop (Exit 0)).
Proof. reflexivity. Qed.

(** Option processing never completes when [--list-bet-systems] is
    among the options. *)
Lemma process_opts_list_stops file opts c :
  In "--list-bet-systems" (map fst opts) ->
  exists t o, process_opts env file opts c = (t, Stop o).
Proof.
  revert c. induction opts as [|[o a] opts IH]; intros c Hin; simpl in Hin.
  - contradiction.
  - cbn [process_opts]. destruct (process_opt env file c (o, a)) as [t [c'|o']] eqn:E.
    + destruct Hin as [->|Hin].
      * rewrite process_opt_list in E. discriminate.
      * destruct (IH c' Hin) as (t' & o' & E').
        exists (t ++ t')%list, o'. rewrite bind_ret, E'. reflexivity.
    + exists t, o'. reflexivity.
Qed.

(** *** Validation *)

(** Case analysis on every test of [validate]. *)
Ltac split_validate :=
  repeat (cbn [bind ret emit raise sys_exit print fst snd app];
          match goal with
          | |- context [from_file ?e ?a ?b] => destruct (from_file e a b) eqn:?
          | |- context [from_options ?e ?a ?b] => destruct (from_options e a b) eqn:?
          | |- context [out_file ?c] => destruct (out_file c) eqn:?
          | |- context [dict_get ?n BETTING_SYSTEMS] =>
              destruct (dict_get n BETTING_SYSTEMS) eqn:?
          | |- context [if ?b then _ else _] => destruct b eqn:?
          end);
  cbn [bind ret emit raise sys_exit print fst snd app].

Lemma no_run_only {A} (p : Ev -> bool) (m : Mon A) :
  (forall e, p e = true -> is_run_event e = false) ->
  only p m -> no_run (fst m).
Proof.
  intros Hp Hm e Hin. apply Hp.
  unfold only in Hm. rewrite Forall_forall in Hm. apply Hm, Hin.
Qed.

Lemma no_run_app (t t' : list Ev) : no_run t -> no_run t' -> no_run (t ++ t').
Proof.
  intros H H' e Hin. apply in_app_or in Hin. destruct Hin; [apply H | apply H']; assumption.
Qed.

Lemma only_validate c : only is_validate_event (validate env c).
Proof.
  unfold validate.
  repeat first
    [ apply only_ret | apply only_raise | apply only_exit
    | apply only_just_print; intros [] H; try discriminate H; reflexivity
    | apply only_emit; reflexivity
    | apply only_bind; [|intros ?]
    | match goal with
      | |- only _ (if ?b then _ else _) => destruct b
      | |- only _ (match ?x with _ => _ end) => destruct x
      end ].
Qed.

Lemma no_run_validate c : no_run (fst (validate env c)).
Proof.
  apply (no_run_only is_validate_event); [|apply only_validate].
  intros [] H; try discriminate H; reflexivity.
Qed.

Lemma no_run_process_opts file opts c :
  no_run (fst (process_opts env file opts c)).
Proof.
  apply (no_run_only is_option_event); [|apply only_process_opts].
  intros [] H; try discriminate H; reflexivity.
Qed.

Lemma validate_load_fails c :
  from_file env (strat_file c) (verbose c) = None ->
  validate env c
  = ([EvFromFile (strat_file c) (verbose c)], Stop (Raised StrategyError)).
Proof. intro H. unfold validate. rewrite H. reflexivity. Qed.

Lemma validate_unknown c s :
  from_file env (strat_file c) (verbose c) = Some s ->
  dict_mem (bet_system_name c) BETTING_SYSTEMS = false ->
  validate env c
  = ((EvFromFile (strat_file c) (verbose c)
      :: fst (just_print c (Text ("Invalid betting system '" ++ bet_system_name c ++ "'")) : Mon unit)
      ++ fst (just_print c (Text "Available systems: fp, martingale, none, simple") : Mon unit))%list,
     Stop (Exit 1)).
Proof.
  intros Hf Hm. unfold validate. rewrite Hf, Hm.
  unfold just_print. destruct (out_file c); reflexivity.
Qed.

Lemma validate_no_gold c s :
  from_file env (strat_file c) (verbose c) = Some s ->
  dict_mem (bet_system_name c) BETTING_SYSTEMS = true ->
  bet_system_name c <> "none" ->
  starting_gold c = 0 ->
  validate env c
  = ((EvFromFile (strat_file c) (verbose c)
      :: fst (just_print c (Text "gold required to use a betting system") : Mon unit))%list,
     Stop (Exit 1)).
Proof.
  intros Hf Hm Hn Hg. unfold validate. rewrite Hf, Hm, Hg.
  apply String.eqb_neq in Hn. rewrite Hn.
  unfold just_print. destruct (out_file c); reflexivity.
Qed.

Lemma validate_no_end_condition c s b :
  from_file env (strat_file c) (verbose c) = Some s ->
  bet_system_name c = "none" ->
  from_options env NoBetting (bet_options c) = Some b ->
  target_gold c = 0 ->
  rounds c = 0 ->
  validate env c
  = ((EvFromFile (strat_file c) (verbose c)
      :: EvFromOptions NoBetting (bet_options c)
      :: fst (just_print c (Text "At least one end condition (--target or --rounds) needs to be enabled.") : Mon unit))%list,
     Stop (Exit 1)).
Proof.
  intros Hf Hn Hb Ht Hr. unfold validate. rewrite Hf, Hn, Ht, Hr.
  change (dict_mem "none" BETTING_SYSTEMS) with true.
  change (dict_get "none" BETTING_SYSTEMS) with (Some NoBetting).
  change ("none" =? "none")%string with true.
  change (0 =? 0) with true.
  cbv beta iota delta [negb andb].
  unfold just_print. destruct (out_file c); cbn; rewrite Hb; reflexivity.
Qed.

Lemma validate_stop_fails c t o :
  validate env c = (t, Stop o) -> fails o.
Proof.
  unfold validate, just_print. split_validate.
  all: intro H; inversion H; subst; unfold fails; eauto.
Qed.

(** With no end condition, [validate] does not return. *)
Lemma validate_no_end_stops c :
  target_gold c = 0 -> rounds c = 0 ->
  exists t o, validate env c = (t, Stop o).
Proof.
  intros Ht Hr. unfold validate, just_print. rewrite Ht, Hr.
  change (0 =? 0) with true. cbn [andb].
  split_validate. all: eauto.
Qed.

(** With a betting system other than "none" and no gold, [validate]
    does not return. *)
Lemma validate_no_gold_stops c :
  bet_system_name c <> "none" -> starting_gold c = 0 ->
  exists t o, validate env c = (t, Stop o).
Proof.
  intros Hn Hg. unfold validate, just_print. rewrite Hg.
  apply String.eqb_neq in Hn. rewrite Hn.
  change (0 =? 0) with true. cbn [andb negb].
  split_validate. all: eauto.
Qed.

(** With an unknown betting system, [validate] does not return. *)
Lemma validate_unknown_stops c :
  dict_mem (bet_system_name c) BETTING_SYSTEMS = false ->
  exists t o, validate env c = (t, Stop o).
Proof.
  intros Hm. unfold validate, just_print. rewrite Hm. cbn [negb].
  split_validate. all: eauto.
Qed.

(** [main_opts] when the options are read and [validate] stops. *)
Lemma main_opts_validate_stop file opts t c t' o :
  process_opts env file opts default_config = (t, Ret c) ->
  validate env c = (t', Stop o) ->
  main_opts env file opts = ((t ++ t')%list, Stop o).
Proof.
  intros Hp Hv. unfold main_opts. rewrite Hp, bind_ret.
  unfold main_body. rewrite Hv. reflexivity.
Qed.

(** [main_opts] when option processing stops. *)
Lemma main_opts_opts_stop file opts t o :
  process_opts env file opts default_config = (t, Stop o) ->
  main_opts env file opts = (t, Stop o).
Proof. intros Hp. unfold main_opts. rewrite Hp. reflexivity. Qed.

(** A configuration [validate] rejects: nothing runs, and the program
    fails. *)
Lemma rejected_configuration file opts t c :
  process_opts env file opts default_config = (t, Ret c) ->
  (exists t' o, validate env c = (t', Stop o)) ->
  no_run (trace (main_opts env file opts))
  /\ fails (outcome (main_opts env file opts)).
Proof.
  intros Hp (t' & o & Hv).
  rewrite (main_opts_validate_stop _ _ _ _ _ _ Hp Hv).
  unfold trace, outcome. cbn [fst snd]. split.
  - apply no_run_app.
    + pose proof (no_run_process_opts file opts default_config) as H.
      rewrite Hp in H. exact H.
    + pose proof (no_run_validate c) as H. rewrite Hv in H. exact H.
  - eapply validate_stop_fails; eassumption.
Qed.

Lemma main_no_args file :
  main env [file] = (fst (usage file : Mon unit), Stop (Exit 1)).
Proof.
  unfold main. change (length [file] <? 2)%nat with true. cbv iota.
  pose proof (usage_returns file) as H.
  destruct (usage file : Mon unit) as [t r]. cbn [snd] in H. subst r.
  unfold bind, sys_exit. cbn [fst]. rewrite app_nil_r. reflexivity.
Qed.


(** *** The iteration loop *)

Lemma sim_strat_set_core (bj : Simulator Strategy BetSystem Core) core :
  sim_strat (set_core bj core) = sim_strat bj.
Proof. reflexivity. Qed.

Lemma iteration_returns r bj total reasons reason st core :
  run env (set_core bj (reset env bj)) r = Some (reason, st, core) ->
  iteration env r (bj, total, reasons)
  = (iteration_events (sim_strat bj) r (reason, st),
     Ret (set_core (set_core bj (reset env bj)) core,
          add total st, record_reason reason st reasons)).
Proof. intro H. unfold iteration. rewrite H. reflexivity. Qed.

Lemma iteration_fails r bj total reasons :
  run env (set_core bj (reset env bj)) r = None ->
  iteration env r (bj, total, reasons)
  = ([EvReset; EvRun (sim_strat bj) r], Stop (Raised RunError)).
Proof. intro H. unfold iteration. rewrite H. reflexivity. Qed.

Lemma runs_strat r bj results bj' :
  runs env r bj results bj' -> sim_strat bj' = sim_strat bj.
Proof. induction 1; [reflexivity | rewrite IHruns; reflexivity]. Qed.


(** Whatever the runs do, the loop only resets, runs the simulator on the
    strategy it was built with, and adds. *)
Lemma iterate_events n r :
  forall bj total reasons,
    Forall (fun e => e = EvReset \/ e = EvRun (sim_strat bj) r \/ exists st, e = EvAdd st)
      (fst (iterate env n r (bj, total, reasons))).
Proof.
  induction n as [|n IH]; intros bj total reasons.
  - constructor.
  - cbn [iterate].
    destruct (run env (set_core bj (reset env bj)) r) as [[[reason st] core]|] eqn:E.
    + rewrite (iteration_returns _ _ _ _ _ _ _ E), bind_ret. cbn [fst].
      apply Forall_app. split.
      * unfold iteration_events.
        constructor; [left; reflexivity|].
        constructor; [right; left; reflexivity|].
        constructor; [right; right; eexists; reflexivity|].
        constructor.
      * specialize (IH (set_core (set_core bj (reset env bj)) core)
                       (add total st) (record_reason reason st reasons)).
        exact IH.
    + rewrite (iteration_fails _ _ _ _ E). cbn [bind fst].
      constructor; [left; reflexivity|].
      constructor; [right; left; reflexivity|].
      constructor.
Qed.

(** *** The banner, the set-up and the report *)

Lemma snd_bind_ret {A B} (c : Mon A) (k : A -> Mon B) a :
  snd c = Ret a -> snd (bind c k) = snd (k a).
Proof.
  destruct c as [t r]. cbn [snd]. intros ->. rewrite bind_ret. reflexivity.
Qed.

Lemma fst_bind_ret {A B} (c : Mon A) (k : A -> Mon B) a :
  snd c = Ret a -> fst (bind c k) = (fst c ++ fst (k a))%list.
Proof.
  destruct c as [t r]. cbn [snd]. intros ->. rewrite bind_ret. reflexivity.
Qed.

Lemma banner_returns c : snd (banner c : Mon unit) = Ret tt.
Proof.
  unfold banner, just_print.
  destruct (out_file c), (starting_gold c >? 0), (target_gold c >? 0); reflexivity.
Qed.

Lemma only_banner c : only is_output (banner c : Mon unit).
Proof.
  unfold banner.
  repeat first
    [ apply only_ret
    | apply only_just_print; intros ? H; exact H
    | apply only_bind; [|intros ?]
    | match goal with
      | |- only _ (if ?b then _ else _) => destruct b
      end ].
Qed.

Lemma set_up_eq c strat bet :
  set_up env c strat bet
  = ([EvNewStats; EvNewSimulator strat bet (verbose c);
      EvSetStartingGold (starting_gold c); EvSetTargetGold (target_gold c);
      EvSetAntiFallacy (bet_anti_fallacy c)],
     Ret (initial_simulator env c strat bet, initial_total c, [])).
Proof. reflexivity. Qed.

Lemma in_insert_sorted x y l : In y (insert_sorted x l) -> y = x \/ In y l.
Proof.
  induction l as [|z l IH]; simpl.
  - intros [H|[]]; auto.
  - destruct (String.leb x z); simpl.
    + intros [H|H]; auto.
    + intros [H|H]; auto. destruct (IH H); auto.
Qed.

Lemma in_sorted y l : In y (sorted l) -> In y l.
Proof.
  induction l as [|x l IH]; simpl; [auto|].
  intro H. apply in_insert_sorted in H. destruct H; auto.
Qed.

Lemma dict_get_key {V} k (d : dict V) :
  In k (dict_keys d) -> exists v, dict_get k d = Some v.
Proof.
  induction d as [|[k' v'] d IH]; simpl; [contradiction|].
  intros [H|H].
  - subst. rewrite String.eqb_refl. eauto.
  - destruct (String.eqb k k'); eauto.
Qed.

Lemma for_each_returns {A} (l : list A) (body : A -> Mon unit) :
  (forall x, In x l -> snd (body x) = Ret tt) ->
  snd (for_each l body) = Ret tt.
Proof.
  induction l as [|x l IH]; intro H; cbn [for_each]; [reflexivity|].
  rewrite (snd_bind_ret _ _ tt) by (apply H; left; reflexivity).
  apply IH. intros y Hy. apply H. right. exact Hy.
Qed.

Lemma report_reason_returns c reasons rs :
  In rs (dict_keys reasons) ->
  snd (report_reason c reasons rs : Mon unit) = Ret tt.
Proof.
  intro H. destruct (dict_get_key _ _ H) as [s Hs].
  unfold report_reason, just_print. rewrite Hs.
  destruct (out_file c); reflexivity.
Qed.

Lemma report_returns c (s : LoopState Strategy BetSystem Core) :
  snd (report c s) = Ret tt.
Proof.
  destruct s as [[bj total] reasons]. unfold report.
  rewrite (snd_bind_ret _ _ tt) by apply just_print_returns.
  rewrite (snd_bind_ret _ _ tt) by apply just_print_returns.
  rewrite (snd_bind_ret _ _ tt) by apply just_print_returns.
  rewrite (snd_bind_ret _ _ tt).
  2: { apply for_each_returns. intros rs Hrs.
       apply report_reason_returns, in_sorted, Hrs. }
  rewrite (snd_bind_ret _ _ tt) by apply just_print_returns.
  destruct (out_file c); reflexivity.
Qed.

(** The events of [report]. *)
Lemma only_report c (s : LoopState Strategy BetSystem Core) :
  only (fun e => negb (is_from_file e) && negb (is_run_event e)) (report c s).
Proof.
  destruct s as [[bj total] reasons]. unfold report.
  repeat first
    [ apply only_ret | apply only_raise
    | apply only_just_print; intros [] H; try discriminate H; reflexivity
    | apply only_emit; reflexivity
    | apply only_bind; [|intros ?]
    | apply only_for_each; intros ?; unfold report_reason
    | match goal with
      | |- only _ (match ?x with _ => _ end) => destruct x
      end ].
Qed.

(** The report of an invocation that ran nothing. *)
Lemma report_empty c (bj : Simulator Strategy BetSystem Core) total :
  report c (bj, total, [])
  = ((fst (just_print c FmtCompleted : Mon unit)
      ++ fst (just_print c (Text "") : Mon unit)
      ++ fst (just_print c (Text "Results:") : Mon unit)
      ++ fst (just_print c (Text (nl ++ "Stats:")) : Mon unit)
      ++ EvStatsPrint total
      :: match out_file c with Some f => [EvClose f] | None => [] end)%list,
     Ret tt).
Proof. unfold report, just_print. destruct (out_file c); reflexivity. Qed.

(** *** [main_body] after the checks *)

Lemma main_body_checked c t0 strat bet :
  validate env c = (t0, Ret (strat, bet)) ->
  forall tl s,
    iterate env (range_len (iterations c)) (rounds c)
      (initial_simulator env c strat bet, initial_total c, []) = (tl, Ret s) ->
    main_body env c
    = ((t0 ++ fst (banner c : Mon unit) ++ fst (set_up env c strat bet)
           ++ tl ++ fst (report c s))%list,
       Ret tt).
Proof.
  intros Hv tl s Hit. unfold main_body. rewrite Hv, bind_ret. cbn [fst snd].
  pose proof (banner_returns c) as Hb.
  destruct (banner c : Mon unit) as [tb rb]. cbn [snd] in Hb. subst rb.
  rewrite bind_ret, set_up_eq, bind_ret, Hit, bind_ret.
  pose proof (report_returns c s) as Hr.
  destruct (report c s) as [tr rr]. cbn [snd] in Hr. subst rr.
  cbn [fst snd]. reflexivity.
Qed.

Lemma main_body_run_fails c t0 strat bet :
  validate env c = (t0, Ret (strat, bet)) ->
  forall tl o,
    iterate env (range_len (iterations c)) (rounds c)
      (initial_simulator env c strat bet, initial_total c, []) = (tl, Stop o) ->
    main_body env c
    = ((t0 ++ fst (banner c : Mon unit) ++ fst (set_up env c strat bet) ++ tl)%list,
       Stop o).
Proof.
  intros Hv tl o Hit. unfold main_body. rewrite Hv, bind_ret. cbn [fst snd].
  pose proof (banner_returns c) as Hb.
  destruct (banner c : Mon unit) as [tb rb]. cbn [snd] in Hb. subst rb.
  rewrite bind_ret, set_up_eq, bind_ret, Hit. cbn [fst snd bind].
  reflexivity.
Qed.

Lemma main_opts_body file opts t c :
  process_opts env file opts default_config = (t, Ret c) ->
  main_opts env file opts
  = ((t ++ fst (main_body env c))%list, snd (main_body env c)).
Proof. intro Hp. unfold main_opts. rewrite Hp, bind_ret. reflexivity. Qed.

(** *** The trace of a whole invocation *)

Lemma only_forall {A} p (m : Mon A) : only p m -> Forall (fun e => p e = true) (fst m).
Proof. intro H; exact H. Qed.

Lemma validate_trace c :
  exists rest,
    fst (validate env c) = EvFromFile (strat_file c) (verbose c) :: rest
    /\ Forall (fun e => is_quiet e = true) rest.
Proof.
  unfold validate, just_print. split_validate.
  all: eexists; split; [reflexivity|]; repeat constructor.
Qed.

Lemma validate_returns c t0 strat bet :
  validate env c = (t0, Ret (strat, bet)) ->
  from_file env (strat_file c) (verbose c) = Some strat.
Proof.
  unfold validate, just_print. split_validate.
  all: intro H; inversion H; subst; reflexivity.
Qed.

Lemma quiet_banner c : Forall (fun e => is_quiet e = true) (fst (banner c : Mon unit)).
Proof.
  apply only_forall, (only_weaken is_output); [|apply only_banner].
  intros [] H; try discriminate H; reflexivity.
Qed.

Lemma quiet_process_opts file opts c :
  Forall (fun e => is_quiet e = true) (fst (process_opts env file opts c)).
Proof.
  apply only_forall, (only_weaken is_option_event); [|apply only_process_opts].
  intros [] H; try discriminate H; reflexivity.
Qed.

Lemma quiet_usage file : Forall (fun e => is_quiet e = true) (fst (usage file : Mon unit)).
Proof. apply only_forall, only_usage. reflexivity. Qed.

Lemma quiet_not_run (t : list Ev) s r :
  Forall (fun e => is_quiet e = true) t -> ~ In (EvRun s r) t.
Proof.
  intros H Hin. rewrite Forall_forall in H. specialize (H _ Hin). discriminate H.
Qed.

Lemma quiet_no_from_file (t : list Ev) :
  Forall (fun e => is_quiet e = true) t -> Forall (fun e => is_from_file e = false) t.
Proof.
  apply Forall_impl. intros e H. unfold is_quiet in H.
  apply andb_true_iff in H. destruct H as [H _].
  apply negb_true_iff in H. exact H.
Qed.

Lemma Forall_app4 {A} (P : A -> Prop) (a b c d : list A) :
  Forall P a -> Forall P b -> Forall P c -> Forall P d ->
  Forall P (a ++ b ++ c ++ d).
Proof. intros. repeat (apply Forall_app; split); assumption. Qed.

Lemma in_app4 {A} (x : A) (a b c d : list A) :
  In x (a ++ b ++ c ++ d) -> In x a \/ In x b \/ In x c \/ In x d.
Proof.
  intro H. repeat (apply in_app_or in H; destruct H as [H|H]); auto.
Qed.

(** The segments of the trace of [main_body] once [validate] returned. *)
Lemma main_body_segments c t0 strat bet :
  validate env c = (t0, Ret (strat, bet)) ->
  exists tr,
    fst (main_body env c)
    = (t0 ++ (fst (banner c : Mon unit) ++ fst (set_up env c strat bet))
          ++ fst (iterate env (range_len (iterations c)) (rounds c)
                    (initial_simulator env c strat bet, initial_total c, []))
          ++ tr)%list
    /\ Forall (fun e => is_quiet e = true) tr.
Proof.
  intro Hv.
  destruct (iterate env (range_len (iterations c)) (rounds c)
              (initial_simulator env c strat bet, initial_total c, []))
    as [tl [s|o]] eqn:Hit.
  - exists (fst (report c s)). split.
    + rewrite (main_body_checked c _ _ _ Hv tl s Hit). cbn [fst].
      rewrite <- !app_assoc. reflexivity.
    + apply only_forall, only_report.
  - exists []. split; [|constructor].
    rewrite (main_body_run_fails c _ _ _ Hv tl o Hit). cbn [fst].
    rewrite app_nil_r, <- !app_assoc. reflexivity.
Qed.

(** The trace of [main_body]: the strategy is loaded first and never
    again, and every run is on the strategy that was loaded. *)
Lemma main_body_trace c :
  exists t1,
    fst (main_body env c) = EvFromFile (strat_file c) (verbose c) :: t1
    /\ Forall (fun e => is_from_file e = false) t1
    /\ forall s r, In (EvRun s r) t1 ->
                   from_file env (strat_file c) (verbose c) = Some s.
Proof.
  destruct (validate_trace c) as (rest & Hrest & Hquiet).
  destruct (validate env c) as [t0 [[strat bet]|o]] eqn:Hv; cbn [fst] in Hrest; subst t0.
  - pose proof (validate_returns c _ _ _ Hv) as Hload.
    pose proof (iterate_events (range_len (iterations c)) (rounds c)
                  (initial_simulator env c strat bet) (initial_total c) [])
      as Hev.
    destruct (main_body_segments c _ _ _ Hv) as (tr & Htr & Hqr).
    rewrite Htr. clear Htr.
    set (tl := fst (iterate env (range_len (iterations c)) (rounds c)
                      (initial_simulator env c strat bet, initial_total c, []))) in *.
    assert (Hpre : Forall (fun e : Ev => is_quiet e = true)
                     (fst (banner c : Mon unit) ++ fst (set_up env c strat bet))).
    { apply Forall_app. split; [apply quiet_banner|].
      rewrite set_up_eq. repeat constructor. }
    set (tp := (fst (banner c : Mon unit) ++ fst (set_up env c strat bet))%list) in *.
    cbn [app]. eexists. split; [reflexivity|]. split.
    + apply Forall_app4.
      * apply quiet_no_from_file, Hquiet.
      * apply quiet_no_from_file, Hpre.
      * revert Hev. apply Forall_impl. intros e [->|[->|[st ->]]]; reflexivity.
      * apply quiet_no_from_file, Hqr.
    + intros s r Hin. apply in_app4 in Hin.
      destruct Hin as [Hin|[Hin|[Hin|Hin]]].
      * exfalso. exact (quiet_not_run _ _ _ Hquiet Hin).
      * exfalso. exact (quiet_not_run _ _ _ Hpre Hin).
      * rewrite Forall_forall in Hev. specialize (Hev _ Hin).
        destruct Hev as [H|[H|[st H]]]; try discriminate H.
        inversion H; subst. exact Hload.
      * exfalso. exact (quiet_not_run _ _ _ Hqr Hin).
  - unfold main_body. rewrite Hv. cbn [bind fst].
    exists rest. split; [reflexivity|]. split.
    + apply quiet_no_from_file, Hquiet.
    + intros s r Hin. exfalso. exact (quiet_not_run _ _ _ Hquiet Hin).
Qed.

Lemma main_trace argv :
  Forall (fun e => is_quiet e = true) (fst (main env argv))
  \/ exists t0 c,
       fst (main env argv) = (t0 ++ fst (main_body env c))%list
       /\ Forall (fun e => is_quiet e = true) t0.
Proof.
  unfold main. destruct argv as [|file [|a args]].
  - left. constructor.
  - left. change (length [file] <? 2)%nat with true. cbv iota.
    rewrite (fst_bind_ret _ _ tt) by apply usage_returns.
    cbn [sys_exit fst]. rewrite app_nil_r. apply quiet_usage.
  - change (length (file :: a :: args) <? 2)%nat with false. cbv iota.
    destruct (getopt env (a :: args)) as [err|opts].
    + left. cbn [print emit bind].
      pose proof (usage_returns file) as Hu. pose proof (quiet_usage file) as Hq.
      destruct (usage file : Mon unit) as [tu ru]. cbn [snd] in Hu. subst ru.
      cbn [fst bind sys_exit app] in *. rewrite app_nil_r.
      constructor; [reflexivity | exact Hq].
    + pose proof (quiet_process_opts file opts default_config) as Hq.
      destruct (process_opts env file opts default_config) as [t [c|o]] eqn:Hp.
      * right. exists t, c. split; [|exact Hq].
        rewrite (main_opts_body _ _ _ _ Hp). reflexivity.
      * left. rewrite (main_opts_opts_stop _ _ _ _ Hp). exact Hq.
Qed.

(** *** Counting the events of the loop *)

Lemma count_app (p : Ev -> bool) t t' :
  count_events p (t ++ t') = (count_events p t + count_events p t')%nat.
Proof. unfold count_events. rewrite filter_app, length_app. reflexivity. Qed.


Lemma no_run_quiet (t : list Ev) :
  Forall (fun e => is_quiet e = true) t -> no_run t.
Proof.
  intros H e Hin. rewrite Forall_forall in H. specialize (H _ Hin).
  unfold is_quiet in H. apply andb_true_iff in H. destruct H as [_ H].
  apply negb_true_iff in H. exact H.
Qed.


(** *** The strategy table and the simulator in the trace *)

Lemma plain_option_events (t : list Ev) :
  Forall (fun e => is_option_event e = true) t ->
  Forall (fun e => is_plain e = true) t.
Proof. apply Forall_impl. intros [] H; try discriminate H; reflexivity. Qed.

Lemma plain_output (t : list Ev) :
  Forall (fun e => is_output e = true) t ->
  Forall (fun e => is_plain e = true) t.
Proof. apply Forall_impl. intros [] H; try discriminate H; reflexivity. Qed.

Lemma plain_process_opts file opts c :
  Forall (fun e => is_plain e = true) (fst (process_opts env file opts c)).
Proof. apply plain_option_events. exact (only_process_opts file opts c). Qed.

Lemma plain_usage file :
  Forall (fun e => is_plain e = true) (fst (usage file : Mon unit)).
Proof. apply only_forall, only_usage. reflexivity. Qed.

Lemma plain_banner c :
  Forall (fun e => is_plain e = true) (fst (banner c : Mon unit)).
Proof. apply plain_output. exact (only_banner c). Qed.

Lemma plain_report c (s : LoopState Strategy BetSystem Core) :
  Forall (fun e => is_plain e = true) (fst (report c s)).
Proof.
  apply only_forall.
  destruct s as [[bj total] reasons]. unfold report.
  repeat first
    [ apply only_ret | apply only_raise
    | apply only_just_print; intros [] H; try discriminate H; reflexivity
    | apply only_emit; reflexivity
    | apply only_bind; [|intros ?]
    | apply only_for_each; intros ?; unfold report_reason
    | match goal with
      | |- only _ (match ?x with _ => _ end) => destruct x
      end ].
Qed.

Lemma plain_no_from_file (t : list Ev) :
  Forall (fun e => is_plain e = true) t ->
  count_events is_from_file t = 0%nat.
Proof.
  intro H. unfold count_events. induction H as [|e t He _ IH]; [reflexivity|].
  cbn [filter]. destruct e; try discriminate He; exact IH.
Qed.

Lemma validate_checks_plain c :
  exists rest,
    fst (validate env c) = EvFromFile (strat_file c) (verbose c) :: rest
    /\ Forall (fun e => is_plain e = true) rest.
Proof.
  unfold validate, just_print. split_validate.
  all: eexists; split; [reflexivity|]; repeat constructor.
Qed.

(** The trace of [main_body]: the loading of the table, the events of the
    checks and of the banner, those of the set-up, those of the loop and
    those of the report. *)
Lemma main_body_shape c :
  exists tchk tset loop tpost,
    fst (main_body env c)
    = (EvFromFile (strat_file c) (verbose c) :: tchk ++ tset ++ loop ++ tpost)%list
    /\ Forall (fun e => is_plain e = true) tchk
    /\ Forall (fun e => is_plain e = true) tpost
    /\ match snd (validate env c) with
       | Ret (strat, bet) =>
           from_file env (strat_file c) (verbose c) = Some strat
           /\ tset = set_up_events c strat bet
           /\ Forall (fun e => e = EvReset \/ e = EvRun strat (rounds c)
                               \/ exists st, e = EvAdd st) loop
       | Stop _ => tset = [] /\ loop = [] /\ tpost = []
       end.
Proof.
  destruct (validate_checks_plain c) as (rest & Hrest & Hplain).
  destruct (validate env c) as [t0 [[strat bet]|o]] eqn:Hv;
    cbn [fst] in Hrest; subst t0; cbn [snd].
  - pose proof (validate_returns c _ _ _ Hv) as Hload.
    pose proof (iterate_events (range_len (iterations c)) (rounds c)
                  (initial_simulator env c strat bet) (initial_total c) [])
      as Hev.
    change (sim_strat (initial_simulator env c strat bet)) with strat in Hev.
    destruct (iterate env (range_len (iterations c)) (rounds c)
                (initial_simulator env c strat bet, initial_total c, []))
      as [tl [s|o]] eqn:Hit;
      pose proof (f_equal fst Hit) as Hfst; cbn [fst] in Hfst;
      pose proof (eq_ind _ (Forall _) Hev _ Hfst) as Hloop.
    + exists (rest ++ fst (banner c : Mon unit))%list,
             (set_up_events c strat bet), tl, (fst (report c s)).
      split.
      { rewrite (main_body_checked c _ _ _ Hv tl s Hit), set_up_eq. cbn [fst].
        rewrite <- app_comm_cons, <- app_assoc. reflexivity. }
      split; [apply Forall_app; split; [exact Hplain | apply plain_banner]|].
      split; [apply plain_report|].
      split; [exact Hload|]. split; [reflexivity | exact Hloop].
    + exists (rest ++ fst (banner c : Mon unit))%list,
             (set_up_events c strat bet), tl, [].
      split.
      { rewrite (main_body_run_fails c _ _ _ Hv tl o Hit), set_up_eq. cbn [fst].
        rewrite app_nil_r, <- app_comm_cons, <- app_assoc. reflexivity. }
      split; [apply Forall_app; split; [exact Hplain | apply plain_banner]|].
      split; [constructor|].
      split; [exact Hload|]. split; [reflexivity | exact Hloop].
  - exists rest, [], [], []. unfold main_body. rewrite Hv. cbn [bind fst].
    split; [rewrite app_nil_r; reflexivity|].
    split; [exact Hplain|]. split; [constructor|].
    repeat split.
Qed.

Lemma main_body_loads_once c :
  count_events is_from_file (fst (main_body env c)) = 1%nat.
Proof.
  destruct (main_body_trace c) as (t1 & Hb & Hff & _). rewrite Hb.
  unfold count_events. cbn [filter is_from_file length]. f_equal.
  clear Hb. induction Hff as [|e t1 He _ IH]; [reflexivity|].
  cbn [filter]. rewrite He. exact IH.
Qed.

End Facts.

(** ** The run loop *)

Section RunFacts.
Context {Strategy Shoe BetState : Type}.
Variable cfg : BlackjackSimulator.Settings Strategy Shoe BetState.

Import BlackjackSimulator.

Abbreviation State := (RunState Shoe BetState).

(** Every turn of the loop, played or skipped, counts one round. *)
Lemma one_round_count (s : State) :
  round_count (one_round cfg s) = round_count s + 1.
Proof.
  unfold one_round. destruct (stake cfg s) as [bet|]; [|reflexivity].
  destruct (bet =? 0); [reflexivity|].
  destruct (play_round cfg (shoe s) (strategy cfg) bet) as [[[o delta] hands] shoe'].
  reflexivity.
Qed.

Lemma termination_reason max_rounds (s : State) reason :
  termination cfg max_rounds s = Some reason -> In reason reasons.
Proof.
  unfold termination, reasons.
  destruct ((target_gold cfg >? 0) && (bankroll s >=? target_gold cfg));
    [intros [= <-]; simpl; auto|].
  destruct ((bankroll s <=? 0) && requires_stake (betting cfg));
    [intros [= <-]; simpl; auto|].
  destruct ((max_rounds >? 0) && (round_count s >=? max_rounds));
    [intros [= <-]; simpl; auto|].
  discriminate.
Qed.

(** Once the round budget is used up, the check ends the run. *)
Lemma termination_exhausted max_rounds (s : State) :
  0 < max_rounds -> max_rounds <= round_count s ->
  termination cfg max_rounds s <> None.
Proof.
  intros Hm Hr. unfold termination.
  destruct ((target_gold cfg >? 0) && (bankroll s >=? target_gold cfg));
    [discriminate|].
  destruct ((bankroll s <=? 0) && requires_stake (betting cfg));
    [discriminate|].
  assert (E : (max_rounds >? 0) && (round_count s >=? max_rounds) = true).
  { apply andb_true_iff. split; [apply Z.gtb_lt | apply Z.geb_le]; lia. }
  rewrite E. discriminate.
Qed.

(** A property every round keeps holds when the loop returns. *)
Lemma run_loop_invariant (P : State -> Prop) max_rounds :
  (forall s, P s -> P (one_round cfg s)) ->
  forall fuel s reason s',
    P s -> run_loop cfg fuel max_rounds s = Some (reason, s') -> P s'.
Proof.
  intros Hstep. induction fuel as [|fuel IH]; intros s reason s' Hs; [discriminate|].
  cbn [run_loop].
  destruct (termination cfg max_rounds (one_round cfg s)) as [r|].
  - intros [= <- <-]. apply Hstep, Hs.
  - apply IH, Hstep, Hs.
Qed.

(** With a round budget, the loop returns before the budget is
    exceeded. *)
Lemma run_loop_terminates max_rounds :
  0 < max_rounds ->
  forall fuel (s : State),
    0 <= round_count s < max_rounds ->
    (Z.to_nat (max_rounds - round_count s) <= fuel)%nat ->
    exists reason s',
      run_loop cfg fuel max_rounds s = Some (reason, s')
      /\ In reason reasons
      /\ round_count s < round_count s' <= max_rounds.
Proof.
  intros Hm. induction fuel as [|fuel IH]; intros s Hs Hfuel; [lia|].
  cbn [run_loop]. pose proof (one_round_count s) as Hc.
  destruct (termination cfg max_rounds (one_round cfg s)) as [r|] eqn:E.
  - exists r, (one_round cfg s). split; [reflexivity|].
    split; [eapply termination_reason; eassumption | lia].
  - assert (Hlt : round_count (one_round cfg s) < max_rounds).
    { destruct (Z_lt_le_dec (round_count (one_round cfg s)) max_rounds) as [H|H];
        [exact H|].
      exfalso. exact (termination_exhausted max_rounds _ Hm H E). }
    destruct (IH (one_round cfg s)) as (reason & s' & Hrun & Hin & Hb); [lia | lia |].
    exists reason, s'. split; [exact Hrun | split; [exact Hin | lia]].
Qed.

(** More fuel does not change what the loop returns. *)
Lemma run_loop_more_fuel max_rounds :
  forall fuel fuel' (s : State) r,
    run_loop cfg fuel max_rounds s = Some r ->
    (fuel <= fuel')%nat ->
    run_loop cfg fuel' max_rounds s = Some r.
Proof.
  induction fuel as [|fuel IH]; intros fuel' s r; [discriminate|].
  destruct fuel' as [|fuel']; [lia|]. cbn [run_loop].
  destruct (termination cfg max_rounds (one_round cfg s)); [auto|].
  intros H Hle. apply (IH fuel'); [exact H | lia].
Qed.

Lemma rounds_accounted_reset (s0 : State) :
  rounds_accounted (begin_run (reset cfg s0)).
Proof. unfold rounds_accounted. cbn. lia. Qed.

Lemma rounds_accounted_round (s : State) :
  rounds_accounted s -> rounds_accounted (one_round cfg s).
Proof.
  unfold rounds_accounted, one_round. intros [H H0].
  destruct (stake cfg s) as [bet|]; [|cbn; lia].
  destruct (bet =? 0); [cbn; lia|].
  destruct (play_round cfg (shoe s) (strategy cfg) bet) as [[[o delta] hands] shoe'].
  destruct o; cbn; lia.
Qed.

(** [run] with a round budget returns, whatever state it starts from. *)
Lemma run_returns max_rounds (s : State) :
  0 < max_rounds ->
  exists reason s',
    (forall fuel, (Z.to_nat max_rounds <= fuel)%nat ->
                  run cfg fuel max_rounds s = Some (reason, run_stats s', s'))
    /\ In reason reasons
    /\ 1 <= round_count s' <= max_rounds
    /\ (rounds_accounted (begin_run s) -> rounds_accounted s').
Proof.
  intro Hm.
  destruct (run_loop_terminates max_rounds Hm (Z.to_nat max_rounds) (begin_run s))
    as (reason & s' & Hrun & Hin & Hb).
  - cbn. lia.
  - cbn. rewrite Z.sub_0_r. lia.
  - exists reason, s'. cbn in Hb. split; [|split; [exact Hin | split; [lia|]]].
    + intros fuel Hfuel. unfold run.
      rewrite (run_loop_more_fuel max_rounds _ fuel _ _ Hrun Hfuel). reflexivity.
    + intro Hacc.
      exact (run_loop_invariant rounds_accounted max_rounds
               rounds_accounted_round _ _ _ _ Hacc Hrun).
Qed.

End RunFacts.


(** * The claims *)

(** ** C1: no end condition *)

(** C1, as amended.  With a configuration in which no termination condition
    is enabled ([target_gold == 0] and [rounds == 0]) and gold is disabled
    ([starting_gold == 0]), the program fails before any run starts:
    neither [reset] nor [run] is ever called, and the program ends by
    [sys.exit(1)] or an exception.  When the betting system is "none" (and
    the strategy file and the betting options load), what it reports is the
    missing end condition, and it exits with status 1. *)
Theorem C1_no_end_condition_fails_before_any_run :
  forall (Strategy BetSystem Core : Type) (env : Env Strategy BetSystem Core)
         (file : string) (opts : list (string * string))
         (t : list (Event Strategy BetSystem)) (c : Config),
    process_opts env file opts default_config = (t, Ret c) ->
    target_gold c = 0 ->
    rounds c = 0 ->
    starting_gold c = 0 ->
    no_run (trace (main_opts env file opts))
    /\ fails (outcome (main_opts env file opts))
    /\ (forall s b,
           from_file env (strat_file c) (verbose c) = Some s ->
           bet_system_name c = "none" ->
           from_options env NoBetting (bet_options c) = Some b ->
           main_opts env file opts
           = ((t ++ EvFromFile (strat_file c) (verbose c)
                 :: EvFromOptions NoBetting (bet_options c)
                 :: trace (just_print c
                       (Text "At least one end condition (--target or --rounds) needs to be enabled.")))%list,
              Stop (Exit 1))).
Proof.
  intros Strategy BetSystem Core env file opts t c Hp Ht Hr Hg.
  destruct (rejected_configuration env file opts t c Hp
              (validate_no_end_stops env c Ht Hr)) as [Hrun Hfail].
  split; [exact Hrun | split; [exact Hfail|]].
  intros s b Hs Hn Hb.
  apply (main_opts_validate_stop env file opts t c _ _ Hp).
  apply (validate_no_end_condition env c s b); assumption.
Qed.

(** The program on [-v] alone: the missing end condition is reported. *)
Lemma C1_witness_no_option_but_verbose :
  main_opts Demo.env "casinosim.py" [("-v", "")]
  = ([EvFromFile "strats/strat.txt" true;
      EvFromOptions NoBetting "";
      EvPrint (Text "At least one end condition (--target or --rounds) needs to be enabled.")],
     Stop (Exit 1)).
Proof.
  destruct (C1_no_end_condition_fails_before_any_run _ _ _ Demo.env
              "casinosim.py" [("-v", "")] []
              (mkConfig true None 1 0 "strats/strat.txt" "none" "" false 0 0)
              eq_refl eq_refl eq_refl eq_refl) as (_ & _ & H).
  exact (H "strats/strat.txt" (NoBetting, "") eq_refl eq_refl eq_refl).
Defined.

(** C1 as stated fails: on [-b martingale] no termination condition is
    enabled and gold is disabled, yet what the program reports is that gold
    is required; the missing end condition is never reported. *)
Lemma C1_counterexample_gold_required_reported :
  Demo.getopt ["-b"; "martingale"] = inr [("-b", "martingale")]
  /\ (exists t c,
         process_opts Demo.env "casinosim.py" [("-b", "martingale")] default_config
         = (t, Ret c)
         /\ target_gold c = 0 /\ rounds c = 0 /\ starting_gold c = 0)
  /\ main Demo.env ["casinosim.py"; "-b"; "martingale"]
     = ([EvFromFile "strats/strat.txt" false;
         EvPrint (Text "gold required to use a betting system")],
        Stop (Exit 1))
  /\ ~ printed (Text "At least one end condition (--target or --rounds) needs to be enabled.")
         (trace (main Demo.env ["casinosim.py"; "-b"; "martingale"])).
Proof.
  split; [reflexivity|]. split.
  - eexists. eexists. split; [reflexivity|]. repeat split.
  - split; [reflexivity|].
    intros [H|[H|[]]]; discriminate H.
Qed.

(** ** C2: a betting system without gold *)

(** C2, as amended.  With a betting system other than "none" requested and
    a starting gold of 0, the program fails before any run starts: neither
    [reset] nor [run] is called and the program ends by [sys.exit(1)] or an
    exception.  The strategy file is loaded first (line 148).  When it
    loads, the program reports "gold required to use a betting system" for
    martingale, fp and simple, the invalid name for a name that is not a
    betting system, and exits with status 1; when the loader raises, its
    exception ends the program and nothing is printed after the option
    loop. *)
Theorem C2_betting_system_without_gold_fails :
  forall (Strategy BetSystem Core : Type) (env : Env Strategy BetSystem Core)
         (file : string) (opts : list (string * string))
         (t : list (Event Strategy BetSystem)) (c : Config),
    process_opts env file opts default_config = (t, Ret c) ->
    bet_system_name c <> "none" ->
    starting_gold c = 0 ->
    no_run (trace (main_opts env file opts))
    /\ fails (outcome (main_opts env file opts))
    /\ (from_file env (strat_file c) (verbose c) = None ->
        main_opts env file opts
        = ((t ++ [EvFromFile (strat_file c) (verbose c)])%list,
           Stop (Raised StrategyError)))
    /\ (forall s,
           from_file env (strat_file c) (verbose c) = Some s ->
           (In (bet_system_name c) ["martingale"; "fp"; "simple"] ->
            main_opts env file opts
            = ((t ++ EvFromFile (strat_file c) (verbose c)
                  :: trace (just_print c (Text "gold required to use a betting system")))%list,
               Stop (Exit 1)))
           /\ (~ In (bet_system_name c) ["martingale"; "fp"; "simple"] ->
               main_opts env file opts
               = ((t ++ EvFromFile (strat_file c) (verbose c)
                     :: trace (just_print c
                           (Text ("Invalid betting system '" ++ bet_system_name c ++ "'")))
                     ++ trace (just_print c
                           (Text "Available systems: fp, martingale, none, simple")))%list,
                  Stop (Exit 1)))).
Proof.
  intros Strategy BetSystem Core env file opts t c Hp Hn Hg.
  destruct (rejected_configuration env file opts t c Hp
              (validate_no_gold_stops env c Hn Hg)) as [Hrun Hfail].
  split; [exact Hrun | split; [exact Hfail|]]. split.
  { intro Hs. apply (main_opts_validate_stop env file opts t c _ _ Hp).
    apply validate_load_fails. exact Hs. }
  intros s Hs. split; intro Hk.
  - apply (main_opts_validate_stop env file opts t c _ _ Hp).
    apply (validate_no_gold env c s); try assumption.
    apply known_systems. right. exact Hk.
  - apply (main_opts_validate_stop env file opts t c _ _ Hp).
    apply (validate_unknown env c s); try assumption.
    destruct (dict_mem (bet_system_name c) BETTING_SYSTEMS) eqn:E; [|reflexivity].
    apply known_systems in E. destruct E as [E|E]; [congruence | contradiction].
Qed.

(** The program on [-b fp]. *)
Lemma C2_witness_fp_without_gold :
  main_opts Demo.env "casinosim.py" [("-b", "fp")]
  = ([EvFromFile "strats/strat.txt" false;
      EvPrint (Text "gold required to use a betting system")],
     Stop (Exit 1)).
Proof.
  assert (Hn : "fp" <> "none") by discriminate.
  destruct (C2_betting_system_without_gold_fails _ _ _ Demo.env
              "casinosim.py" [("-b", "fp")] []
              (mkConfig false None 1 0 "strats/strat.txt" "fp" "" false 0 0)
              eq_refl Hn eq_refl) as (_ & _ & _ & H).
  destruct (H "strats/strat.txt" eq_refl) as [Hk _].
  apply Hk. simpl. auto.
Defined.

(** C2 as stated fails for the betting system "none": on [-b none -r 3]
    the starting gold is 0, the checks pass, and the simulator is reset
    and run. *)
Lemma C2_counterexample_none_runs_without_gold :
  Demo.getopt ["-b"; "none"; "-r"; "3"] = inr [("-b", "none"); ("-r", "3")]
  /\ dict_mem "none" BETTING_SYSTEMS = true
  /\ (exists t c,
         process_opts Demo.env "casinosim.py" [("-b", "none"); ("-r", "3")]
           default_config = (t, Ret c)
         /\ bet_system_name c = "none" /\ starting_gold c = 0)
  /\ outcome (main Demo.env ["casinosim.py"; "-b"; "none"; "-r"; "3"]) = Completed
  /\ In EvReset (trace (main Demo.env ["casinosim.py"; "-b"; "none"; "-r"; "3"]))
  /\ In (EvRun "strats/strat.txt" 3)
        (trace (main Demo.env ["casinosim.py"; "-b"; "none"; "-r"; "3"])).
Proof.
  split; [reflexivity|]. split; [reflexivity|]. split.
  - eexists. eexists. split; [reflexivity|]. split; reflexivity.
  - split; [reflexivity|]. split.
    + vm_compute. repeat (try (left; reflexivity); right).
    + vm_compute. repeat (try (left; reflexivity); right).
Qed.

(** ** C3: an unknown betting system *)

(** C3, as amended.  With a betting-system name that is none of none,
    martingale, fp and simple, the program fails before any run starts:
    neither [reset] nor [run] is called and the program ends by
    [sys.exit(1)] or an exception.  The strategy file is loaded first
    (line 148, before the test of line 150).  When it loads, the program
    prints "Invalid betting system '<name>'", then "Available systems: fp,
    martingale, none, simple" (each also in the output file when there is
    one), and exits with status 1; when the loader raises, its exception
    ends the program and the name is not reported. *)
Theorem C3_unknown_betting_system_fails :
  forall (Strategy BetSystem Core : Type) (env : Env Strategy BetSystem Core)
         (file : string) (opts : list (string * string))
         (t : list (Event Strategy BetSystem)) (c : Config),
    process_opts env file opts default_config = (t, Ret c) ->
    ~ In (bet_system_name c) (dict_keys BETTING_SYSTEMS) ->
    no_run (trace (main_opts env file opts))
    /\ fails (outcome (main_opts env file opts))
    /\ (from_file env (strat_file c) (verbose c) = None ->
        main_opts env file opts
        = ((t ++ [EvFromFile (strat_file c) (verbose c)])%list,
           Stop (Raised StrategyError)))
    /\ (forall s,
           from_file env (strat_file c) (verbose c) = Some s ->
           main_opts env file opts
           = ((t ++ EvFromFile (strat_file c) (verbose c)
                 :: trace (just_print c
                       (Text ("Invalid betting system '" ++ bet_system_name c ++ "'")))
                 ++ trace (just_print c
                       (Text "Available systems: fp, martingale, none, simple")))%list,
              Stop (Exit 1))).
Proof.
  intros Strategy BetSystem Core env file opts t c Hp Hk.
  assert (Hm : dict_mem (bet_system_name c) BETTING_SYSTEMS = false).
  { destruct (dict_mem (bet_system_name c) BETTING_SYSTEMS) eqn:E; [|reflexivity].
    apply known_systems in E. contradiction. }
  destruct (rejected_configuration env file opts t c Hp
              (validate_unknown_stops env c Hm)) as [Hrun Hfail].
  split; [exact Hrun | split; [exact Hfail|]]. split.
  { intro Hs. apply (main_opts_validate_stop env file opts t c _ _ Hp).
    apply validate_load_fails. exact Hs. }
  intros s Hs.
  apply (main_opts_validate_stop env file opts t c _ _ Hp).
  apply (validate_unknown env c s); assumption.
Qed.

(** The program on [-g 100 -b kelly -r 10]. *)
Lemma C3_witness_kelly :
  main_opts Demo.env "casinosim.py" [("-g", "100"); ("-b", "kelly"); ("-r", "10")]
  = ([EvFromFile "strats/strat.txt" false;
      EvPrint (Text "Invalid betting system 'kelly'");
      EvPrint (Text "Available systems: fp, martingale, none, simple")],
     Stop (Exit 1)).
Proof.
  assert (Hk : ~ In "kelly" (dict_keys BETTING_SYSTEMS)).
  { simpl. intros [H|[H|[H|[H|[]]]]]; discriminate H. }
  destruct (C3_unknown_betting_system_fails _ _ _ Demo.env
              "casinosim.py" [("-g", "100"); ("-b", "kelly"); ("-r", "10")] []
              (mkConfig false None 1 100 "strats/strat.txt" "kelly" "" false 0 10)
              eq_refl Hk) as (_ & _ & _ & H).
  exact (H "strats/strat.txt" eq_refl).
Defined.

(** C3 as stated fails when the strategy file does not load: on
    [-b kelly -s ""] the loader of line 148 raises before the name is
    looked up at line 150, and neither the name nor the available systems
    are reported. *)
Lemma C3_counterexample_strategy_file_fails_first :
  Demo.getopt ["-b"; "kelly"; "-s"; ""] = inr [("-b", "kelly"); ("-s", "")]
  /\ dict_mem "kelly" BETTING_SYSTEMS = false
  /\ main Demo.env ["casinosim.py"; "-b"; "kelly"; "-s"; ""]
     = ([EvFromFile "" false], Stop (Raised StrategyError)).
Proof. split; [reflexivity|]. split; reflexivity. Qed.

(** ** C4: the iteration loop *)



(** ** C5: one strategy table *)

(** C5, as amended.  An invocation that ends before line 148 (no argument,
    arguments [getopt] rejects, an option loop that ends in [sys.exit] or
    in an exception) loads no strategy table, builds no simulator and
    starts no run.  Every other invocation loads the table exactly once,
    with the file and the verbosity of its configuration, before any
    simulator is built and before any run.  When the checks of lines
    148-163 pass, one simulator is built (lines 189-192), on the table this
    one call returned, and the loop that follows consists of [reset], [run]
    on this table and [add] only: no iteration loads a table or builds a
    simulator.  When a check fails, the program ends without a simulator
    and without a run. *)
Theorem C5_strategy_loaded_once_when_options_complete :
  forall (Strategy BetSystem Core : Type) (env : Env Strategy BetSystem Core)
         (argv : list string),
    match configuration env argv with
    | None =>
        count_events is_from_file (trace (main env argv)) = 0%nat
        /\ Forall (fun e => is_plain e = true) (trace (main env argv))
    | Some c =>
        count_events is_from_file (trace (main env argv)) = 1%nat
        /\ exists t0 tchk tset loop tpost,
             trace (main env argv)
             = (t0 ++ EvFromFile (strat_file c) (verbose c)
                   :: tchk ++ tset ++ loop ++ tpost)%list
             /\ Forall (fun e => is_plain e = true) t0
             /\ Forall (fun e => is_plain e = true) tchk
             /\ Forall (fun e => is_plain e = true) tpost
             /\ match snd (validate env c) with
                | Ret (strat, bet) =>
                    from_file env (strat_file c) (verbose c) = Some strat
                    /\ tset = set_up_events c strat bet
                    /\ Forall (fun e => e = EvReset
                                        \/ e = EvRun strat (rounds c)
                                        \/ exists st, e = EvAdd st) loop
                | Stop _ => tset = [] /\ loop = [] /\ tpost = []
                end
    end.
Proof.
  intros Strategy BetSystem Core env argv.
  assert (Hnone : forall t : list (Event Strategy BetSystem),
             Forall (fun e => is_plain e = true) t ->
             count_events is_from_file t = 0%nat
             /\ Forall (fun e => is_plain e = true) t).
  { intros t H. split; [apply plain_no_from_file; exact H | exact H]. }
  unfold configuration, trace, main. destruct argv as [|file [|a args]].
  - apply Hnone. constructor.
  - apply Hnone. change (length [file] <? 2)%nat with true. cbv iota.
    rewrite (fst_bind_ret _ _ tt) by apply usage_returns.
    cbn [sys_exit fst]. rewrite app_nil_r. apply plain_usage.
  - change (length (file :: a :: args) <? 2)%nat with false. cbv iota.
    destruct (getopt env (a :: args)) as [err|opts].
    + apply Hnone. cbn [print emit bind].
      pose proof (usage_returns (Strategy:=Strategy) (BetSystem:=BetSystem) file) as Hu.
      pose proof (plain_usage (Strategy:=Strategy) (BetSystem:=BetSystem) file) as Hq.
      destruct (usage file : M Strategy BetSystem unit) as [tu ru].
      cbn [snd] in Hu. subst ru.
      cbn [fst bind sys_exit app] in *. rewrite app_nil_r.
      constructor; [reflexivity | exact Hq].
    + pose proof (plain_process_opts env file opts default_config) as Hq.
      destruct (process_opts env file opts default_config) as [t [c|o]] eqn:Hp;
        cbn [fst snd] in *.
      * rewrite (main_opts_body env _ _ _ _ Hp). cbn [fst]. split.
        { rewrite count_app, (plain_no_from_file _ Hq), main_body_loads_once.
          reflexivity. }
        destruct (main_body_shape env c)
          as (tchk & tset & loop & tpost & Hb & Hc & Hpost & Hsim).
        exists t, tchk, tset, loop, tpost. rewrite Hb.
        split; [reflexivity|]. split; [exact Hq|]. split; [exact Hc|].
        split; [exact Hpost | exact Hsim].
      * apply Hnone. rewrite (main_opts_opts_stop env _ _ _ _ Hp). exact Hq.
Qed.

(** C5 as stated fails for an invocation that ends in the option loop: on
    [--list-bet-systems] the program lists the systems and ends with
    status 0, and no strategy table is built. *)
Lemma C5_counterexample_list_bet_systems_loads_nothing :
  Demo.getopt ["--list-bet-systems"] = inr [("--list-bet-systems", "")]
  /\ outcome (main Demo.env ["casinosim.py"; "--list-bet-systems"]) = Exit 0
  /\ count_events is_from_file
       (trace (main Demo.env ["casinosim.py"; "--list-bet-systems"])) = 0%nat
  /\ count_events is_from_file
       (trace (main Demo.env ["casinosim.py"; "-t"; "5"; "-i"; "0"])) = 1%nat.
Proof. repeat split; reflexivity. Qed.

(** ** C6: merging statistics *)

Lemma add_swap (t : TotalStats) (a b : RunStats) :
  add (add t a) b = add (add t b) a.
Proof. unfold add. cbn. f_equal; lia. Qed.

Lemma add_all_permutation (l l' : list RunStats) :
  Permutation l l' -> forall t, add_all t l = add_all t l'.
Proof.
  unfold add_all. induction 1 as [|x l l' _ IH|x y l|l l' l'' _ IH1 _ IH2]; intro t; cbn.
  - reflexivity.
  - apply IH.
  - rewrite add_swap. reflexivity.
  - rewrite IH1. apply IH2.
Qed.

(** C6.  [TotalStats.add] does not depend on the order of the merges: two
    merges commute, and merging three runs A, B and C in any order gives
    the same accumulator, counter by counter, floor and running sums
    included, hence the same final means. *)
Theorem C6_add_is_order_independent :
  forall (t : TotalStats) (A B C : RunStats) (l : list RunStats),
    Permutation l [A; B; C] ->
    add (add t A) B = add (add t B) A
    /\ add_all t l = add (add (add t A) B) C
    /\ summarize (add_all t l) = summarize (add (add (add t A) B) C).
Proof.
  intros t A B C l Hl.
  assert (H : add_all t l = add (add (add t A) B) C)
    by (rewrite (add_all_permutation _ _ Hl t); reflexivity).
  split; [apply add_swap | split; [exact H | rewrite H; reflexivity]].
Qed.

(** Three runs merged as C, A, B and as A, B, C. *)
Lemma C6_witness_three_runs :
  Permutation [Demo.run_c; Demo.run_a; Demo.run_b]
              [Demo.run_a; Demo.run_b; Demo.run_c]
  /\ add_all BlackjackStats [Demo.run_c; Demo.run_a; Demo.run_b]
     = add (add (add BlackjackStats Demo.run_a) Demo.run_b) Demo.run_c
  /\ summarize (add_all BlackjackStats [Demo.run_c; Demo.run_a; Demo.run_b])
     = Some {| mean_gold_end := 280 # 3; mean_hands := 59 # 3; mean_wins := 27 # 3 |}.
Proof.
  assert (Hp : Permutation [Demo.run_c; Demo.run_a; Demo.run_b]
                           [Demo.run_a; Demo.run_b; Demo.run_c]).
  { apply (Permutation_cons_app [Demo.run_a; Demo.run_b] [] Demo.run_c).
    rewrite app_nil_r. apply Permutation_refl. }
  destruct (C6_add_is_order_independent BlackjackStats
              Demo.run_a Demo.run_b Demo.run_c _ Hp) as (_ & H & Hs).
  split; [exact Hp | split; [exact H | rewrite Hs; reflexivity]].
Defined.

(** ** C7: a run with a round budget *)

(** C7.  With [max_rounds > 0], [run(max_rounds)] returns, from whatever
    state it is called in and for any fuel of at least [max_rounds] turns:
    its reason is one of "target reached", "broke" and "rounds exhausted",
    and it has gone through at least one and at most [max_rounds] rounds.
    After a [reset], the rounds the returned statistics count (won, lost,
    pushed and skipped) are those rounds, so that no more than [max_rounds]
    rounds were played. *)
Theorem C7_run_ends_within_max_rounds :
  forall (Strategy Shoe BetState : Type)
         (cfg : BlackjackSimulator.Settings Strategy Shoe BetState)
         (max_rounds : Z) (s : BlackjackSimulator.RunState Shoe BetState),
    0 < max_rounds ->
    exists reason st s',
      (forall fuel, (Z.to_nat max_rounds <= fuel)%nat ->
                    BlackjackSimulator.run cfg fuel max_rounds s
                    = Some (reason, st, s'))
      /\ In reason ["target reached"; "broke"; "rounds exhausted"]
      /\ 1 <= BlackjackSimulator.round_count s' <= max_rounds
      /\ (forall s0, s = BlackjackSimulator.reset cfg s0 ->
                     wins st + losses st + pushes st + skipped st
                     = BlackjackSimulator.round_count s'
                     /\ wins st + losses st + pushes st <= max_rounds).
Proof.
  intros Strategy Shoe BetState cfg max_rounds s Hm.
  destruct (run_returns cfg max_rounds s Hm) as (reason & s' & Hrun & Hin & Hb & Hacc).
  exists reason, (BlackjackSimulator.run_stats s'), s'.
  split; [exact Hrun | split; [exact Hin | split; [exact Hb|]]].
  intros s0 ->.
  destruct (Hacc (rounds_accounted_reset cfg s0)) as [H H0].
  split; [exact H | lia].
Qed.

(** A run of at most five rounds with 30 gold, a flat bet of 10 and a
    house that always wins: broke after three rounds. *)
Lemma C7_witness_broke_in_three_rounds :
  0 < 5
  /\ BlackjackSimulator.run Demo.table 5 5
       (BlackjackSimulator.reset Demo.table Demo.fresh)
     = Some ("broke", mkRunStats 3 0 3 0 0 0 0 30 0 0,
             BlackjackSimulator.mkRunState 0 tt tt
               (Some BlackjackSimulator.Loss) 3 (mkRunStats 3 0 3 0 0 0 0 30 0 0)).
Proof.
  assert (H5 : 0 < 5) by lia.
  split; [exact H5|].
  destruct (C7_run_ends_within_max_rounds _ _ _ Demo.table 5
              (BlackjackSimulator.reset Demo.table Demo.fresh) H5)
    as (reason & st & s' & Hrun & _).
  specialize (Hrun 5%nat (Nat.le_refl _)).
  rewrite Hrun. vm_compute in Hrun. injection Hrun as <- <- <-. reflexivity.
Defined.

(** ** C8: no argument *)

(** C8.  Invoked with no command-line argument ([sys.argv] holds the
    program name alone), the program prints the usage text and then calls
    [sys.exit(1)]: the trace is the one of [usage], it holds printed lines
    only (no strategy file is loaded, no betting system is built, no
    iteration is run) and starts with the line that names the program. *)
Theorem C8_no_arguments_usage_exit_1 :
  forall (Strategy BetSystem Core : Type) (env : Env Strategy BetSystem Core)
         (file : string),
    outcome (main env [file]) = Exit 1
    /\ trace (main env [file]) = trace (usage file : M Strategy BetSystem unit)
    /\ Forall (fun e => is_print e = true) (trace (main env [file]))
    /\ hd_error (trace (main env [file]))
       = Some (EvPrint (Text ("Usage: " ++ file ++ " [OPTION...]")))
    /\ length (trace (main env [file])) = 22%nat.
Proof.
  intros. rewrite main_no_args. unfold outcome, trace. cbn [fst snd].
  repeat split.
  apply (only_usage is_print file). reflexivity.
Qed.

(** ** C9: [--list-bet-systems] *)

(** C9, as amended.  When [--list-bet-systems] is among the options, option
    processing never completes: the program ends inside the option loop,
    so the strategy file is not loaded, no configuration check is made and
    no run is started; its trace holds printed lines and openings of the
    output file only.  When moreover the options before it are processed
    without ending the program, what they left in the trace is followed by
    the one line "Available betting systems: fp, martingale, none, simple",
    and the program exits with status 0. *)
Theorem C9_list_bet_systems_ends_option_processing :
  forall (Strategy BetSystem Core : Type) (env : Env Strategy BetSystem Core)
         (file : string) (opts : list (string * string)),
    In "--list-bet-systems" (map fst opts) ->
    (exists o,
        snd (process_opts env file opts default_config) = Stop o
        /\ main_opts env file opts
           = (trace (process_opts env file opts default_config), Stop o))
    /\ Forall (fun e => is_option_event e = true) (trace (main_opts env file opts))
    /\ (forall pre a post t c,
           opts = (pre ++ ("--list-bet-systems", a) :: post)%list ->
           process_opts env file pre default_config = (t, Ret c) ->
           main_opts env file opts
           = ((t ++ [EvPrint (Text "Available betting systems: fp, martingale, none, simple")])%list,
              Stop (Exit 0))).
Proof.
  intros Strategy BetSystem Core env file opts Hin.
  destruct (process_opts_list_stops env file opts default_config Hin)
    as (t0 & o & Hstop).
  assert (Hmain : main_opts env file opts = (t0, Stop o))
    by (apply main_opts_opts_stop; exact Hstop).
  split; [|split].
  - exists o. rewrite Hstop. split; [reflexivity | exact Hmain].
  - rewrite Hmain. pose proof (only_process_opts env file opts default_config) as H.
    unfold only in H. rewrite Hstop in H. exact H.
  - intros pre a post t c -> Hpre.
    apply main_opts_opts_stop.
    rewrite process_opts_app, Hpre, bind_ret.
    cbn [process_opts]. rewrite process_opt_list. reflexivity.
Qed.

(** The program on [-v --list-bet-systems]. *)
Lemma C9_witness_verbose_then_list :
  In "--list-bet-systems" (map fst [("-v", ""); ("--list-bet-systems", "")])
  /\ main_opts Demo.env "casinosim.py" [("-v", ""); ("--list-bet-systems", "")]
     = ([EvPrint (Text "Available betting systems: fp, martingale, none, simple")],
        Stop (Exit 0)).
Proof.
  assert (H : In "--list-bet-systems"
                (map fst [("-v", ""); ("--list-bet-systems", "")]))
    by (simpl; auto).
  split; [exact H|].
  destruct (C9_list_bet_systems_ends_option_processing _ _ _ Demo.env
              "casinosim.py" _ H) as (_ & _ & Hlist).
  exact (Hlist [("-v", "")] "" [] []
           (mkConfig true None 1 0 "strats/strat.txt" "none" "" false 0 0)
           eq_refl eq_refl).
Defined.

(** C9 as stated fails: on [-i abc --list-bet-systems] the option is
    present, yet [int("abc")] raises before it is reached; nothing is
    printed and the program does not exit successfully. *)
Lemma C9_counterexample_malformed_number_first :
  Demo.getopt ["-i"; "abc"; "--list-bet-systems"]
  = inr [("-i", "abc"); ("--list-bet-systems", "")]
  /\ In "--list-bet-systems" (map fst [("-i", "abc"); ("--list-bet-systems", "")])
  /\ main Demo.env ["casinosim.py"; "-i"; "abc"; "--list-bet-systems"]
     = ([], Stop (Raised ValueError))
  /\ outcome (main Demo.env ["casinosim.py"; "-i"; "abc"; "--list-bet-systems"])
     <> Exit 0.
Proof.
  repeat split.
  - simpl; auto.
  - discriminate.
Qed.

(** ** C10: no iteration *)

(** C10.  With an iteration count of 0 or less and a configuration that
    passes the checks, neither [reset] nor [run] is called; the program
    still prints "Completed in ...", an empty line, "Results:" with no
    reason under it, "Stats:" and the accumulator as it was initialised,
    closes the output file if there is one, and returns normally. *)
Theorem C10_no_iteration_still_reports :
  forall (Strategy BetSystem Core : Type) (env : Env Strategy BetSystem Core)
         (file : string) (opts : list (string * string))
         (t t0 : list (Event Strategy BetSystem)) (c : Config)
         (strat : Strategy) (bet : BetSystem),
    process_opts env file opts default_config = (t, Ret c) ->
    validate env c = (t0, Ret (strat, bet)) ->
    iterations c <= 0 ->
    main_opts env file opts
    = ((t ++ t0 ++ trace (banner c : M Strategy BetSystem unit)
          ++ trace (set_up env c strat bet)
          ++ trace (just_print c FmtCompleted : M Strategy BetSystem unit)
          ++ trace (just_print c (Text "") : M Strategy BetSystem unit)
          ++ trace (just_print c (Text "Results:") : M Strategy BetSystem unit)
          ++ trace (just_print c (Text (nl ++ "Stats:")) : M Strategy BetSystem unit)
          ++ EvStatsPrint (initial_total c)
          :: match out_file c with Some f => [EvClose f] | None => [] end)%list,
       Ret tt)
    /\ outcome (main_opts env file opts) = Completed
    /\ no_run (trace (main_opts env file opts)).
Proof.
  intros Strategy BetSystem Core env file opts t t0 c strat bet Hp Hv Hi.
  assert (Hit : iterate env (range_len (iterations c)) (rounds c)
                  (initial_simulator env c strat bet, initial_total c, [])
                = ([], Ret (initial_simulator env c strat bet, initial_total c, []))).
  { unfold range_len. replace (Z.to_nat (iterations c)) with 0%nat by lia.
    reflexivity. }
  assert (Hmain : main_opts env file opts
    = ((t ++ t0 ++ trace (banner c : M Strategy BetSystem unit)
          ++ trace (set_up env c strat bet)
          ++ trace (just_print c FmtCompleted : M Strategy BetSystem unit)
          ++ trace (just_print c (Text "") : M Strategy BetSystem unit)
          ++ trace (just_print c (Text "Results:") : M Strategy BetSystem unit)
          ++ trace (just_print c (Text (nl ++ "Stats:")) : M Strategy BetSystem unit)
          ++ EvStatsPrint (initial_total c)
          :: match out_file c with Some f => [EvClose f] | None => [] end)%list,
       Ret tt)).
  { rewrite (main_opts_body env _ _ _ _ Hp).
    rewrite (main_body_checked env c _ _ _ Hv _ _ Hit).
    rewrite report_empty. reflexivity. }
  split; [exact Hmain|]. split; [rewrite Hmain; reflexivity|].
  rewrite (main_opts_body env _ _ _ _ Hp).
  rewrite (main_body_checked env c _ _ _ Hv _ _ Hit).
  unfold trace. cbn [fst].
  apply no_run_app.
  { pose proof (no_run_process_opts env file opts default_config) as H.
    rewrite Hp in H. exact H. }
  apply no_run_app.
  { pose proof (no_run_validate env c) as H. rewrite Hv in H. exact H. }
  apply no_run_app; [apply no_run_quiet, quiet_banner|].
  apply no_run_app; [apply no_run_quiet; rewrite set_up_eq; repeat constructor|].
  apply no_run_app; [intros e []|].
  apply no_run_quiet, only_forall, only_report.
Qed.

(** The program on [-t 5 -i 0]. *)
Lemma C10_witness_zero_iterations :
  main_opts Demo.env "casinosim.py" [("-t", "5"); ("-i", "0")]
  = ([EvFromFile "strats/strat.txt" false; EvFromOptions NoBetting "";
      EvPrint (Text "Casino Simulator 9000!");
      EvPrint (Text "Using strat file: strats/strat.txt");
      EvPrint (Text "Using betting system: none");
      EvPrint (Text "  with options: ");
      EvPrint (FmtField "Gold target" 5);
      EvPrint (FmtField "Max rounds" 0);
      EvPrint (Text "");
      EvPrint (FmtRunning 0);
      EvNewStats;
      EvNewSimulator "strats/strat.txt" (NoBetting, "") false;
      EvSetStartingGold 0; EvSetTargetGold 5; EvSetAntiFallacy false;
      EvPrint FmtCompleted;
      EvPrint (Text "");
      EvPrint (Text "Results:");
      EvPrint (Text (nl ++ "Stats:"));
      EvStatsPrint (mkTotalStats 0 0 0 0 0 0 0 0 0 5 0 0)],
     Ret tt).
Proof.
  assert (Hi : 0 <= 0) by lia.
  destruct (C10_no_iteration_still_reports _ _ _ Demo.env
              "casinosim.py" [("-t", "5"); ("-i", "0")]
              [] [EvFromFile "strats/strat.txt" false; EvFromOptions NoBetting ""]
              (mkConfig false None 0 0 "strats/strat.txt" "none" "" false 5 0)
              "strats/strat.txt" (NoBetting, "")
              eq_refl eq_refl Hi) as (H & _ & _).
  exact H.
Defined.

(** * Further properties of the driver *)

(** ** Option by option *)

Section OptionFacts.
Context {Strategy BetSystem Core : Type}.
Variable env : Env Strategy BetSystem Core.

Lemma is_opt_in o names : is_opt o names = true -> In o names.
Proof.
  unfold is_opt. intro H. apply existsb_exists in H.
  destruct H as (x & Hx & E). apply String.eqb_eq in E. subst. exact Hx.
Qed.

Lemma in_is_opt o names : In o names -> is_opt o names = true.
Proof.
  intro H. unfold is_opt. apply existsb_exists. exists o.
  split; [exact H | apply String.eqb_refl].
Qed.

Lemma bind_returns {A B} (m : M Strategy BetSystem A)
  (k : A -> M Strategy BetSystem B) t b :
  bind m k = (t, Ret b) ->
  exists t1 a t2, m = (t1, Ret a) /\ k a = (t2, Ret b) /\ t = (t1 ++ t2)%list.
Proof.
  destruct m as [t1 [a|o]]; [|discriminate].
  unfold bind. destruct (k a) as [t2 r] eqn:E. intros [= <- ->].
  exists t1, a, t2. auto.
Qed.

(** What one option does to the configuration, when it does not end the
    program. *)
Lemma process_opt_step file c0 o a t1 c1 :
  process_opt env file c0 (o, a) = (t1, Ret c1) ->
  ((if is_opt o ["-i"; "--iterations"] then int env a = Some (iterations c1)
    else iterations c1 = iterations c0)
   /\ (if is_opt o ["-r"; "--rounds"] then int env a = Some (rounds c1)
       else rounds c1 = rounds c0)
   /\ (if is_opt o ["-g"; "--gold"] then int env a = Some (starting_gold c1)
       else starting_gold c1 = starting_gold c0)
   /\ (if is_opt o ["-t"; "--target"] then int env a = Some (target_gold c1)
       else target_gold c1 = target_gold c0))
  /\ (strat_file c1 = (if is_opt o ["-s"; "--strat"] then a else strat_file c0)
      /\ bet_system_name c1
         = (if is_opt o ["-b"; "--bet-system"] then a else bet_system_name c0)
      /\ bet_options c1
         = (if is_opt o ["-o"; "--bet-options"] then a else bet_options c0))
  /\ (verbose c1 = verbose c0 || is_opt o ["-v"; "--verbose"]
      /\ bet_anti_fallacy c1 = bet_anti_fallacy c0 || is_opt o ["--anti-fallacy"])
  /\ (out_file c1 = (if is_opt o ["-f"; "--out-file"] then Some a else out_file c0)
      /\ t1 = (if is_opt o ["-f"; "--out-file"] then [EvOpen a] else [])
      /\ (if is_opt o ["-f"; "--out-file"] then open_w env a = true else True)).
Proof.
  unfold process_opt.
  destruct (is_opt o ["-v"; "--verbose"]) eqn:Ev.
  { apply is_opt_in in Ev. destruct Ev as [<-|[<-|[]]];
      intros [= <- <-]; cbn; rewrite ?orb_true_r, ?orb_false_r; repeat split. }
  destruct (is_opt o ["-h"; "--help"]) eqn:Eh.
  { intro H. exfalso. revert H.
    pose proof (usage_returns (Strategy:=Strategy) (BetSystem:=BetSystem) file) as Hu.
    destruct (usage file) as [tu ru]. cbn [snd] in Hu. subst ru. discriminate. }
  destruct (is_opt o ["-f"; "--out-file"]) eqn:Ef.
  { apply is_opt_in in Ef. unfold py_open.
    destruct (open_w env a) eqn:Eo; [|destruct Ef as [<-|[<-|[]]]; discriminate].
    destruct Ef as [<-|[<-|[]]];
      intros [= <- <-]; cbn; rewrite ?orb_true_r, ?orb_false_r; repeat split;
      exact Eo. }
  destruct (is_opt o ["-s"; "--strat"]) eqn:Es.
  { apply is_opt_in in Es. destruct Es as [<-|[<-|[]]];
      intros [= <- <-]; cbn; rewrite ?orb_true_r, ?orb_false_r; repeat split. }
  destruct (is_opt o ["-b"; "--bet-system"]) eqn:Eb.
  { apply is_opt_in in Eb. destruct Eb as [<-|[<-|[]]];
      intros [= <- <-]; cbn; rewrite ?orb_true_r, ?orb_false_r; repeat split. }
  destruct (is_opt o ["-o"; "--bet-options"]) eqn:Eo.
  { apply is_opt_in in Eo. destruct Eo as [<-|[<-|[]]];
      intros [= <- <-]; cbn; rewrite ?orb_true_r, ?orb_false_r; repeat split. }
  destruct (String.eqb_spec o "--list-bet-systems") as [->|Hl]; [discriminate|].
  destruct (is_opt o ["-i"; "--iterations"]) eqn:Ei.
  { apply is_opt_in in Ei. unfold py_int.
    destruct (int env a) as [n|] eqn:En; [|destruct Ei as [<-|[<-|[]]]; discriminate].
    destruct Ei as [<-|[<-|[]]];
      intros [= <- <-]; cbn; rewrite ?orb_true_r, ?orb_false_r; repeat split. }
  destruct (is_opt o ["-r"; "--rounds"]) eqn:Er.
  { apply is_opt_in in Er. unfold py_int.
    destruct (int env a) as [n|] eqn:En; [|destruct Er as [<-|[<-|[]]]; discriminate].
    destruct Er as [<-|[<-|[]]];
      intros [= <- <-]; cbn; rewrite ?orb_true_r, ?orb_false_r; repeat split. }
  destruct (is_opt o ["-g"; "--gold"]) eqn:Eg.
  { apply is_opt_in in Eg. unfold py_int.
    destruct (int env a) as [n|] eqn:En; [|destruct Eg as [<-|[<-|[]]]; discriminate].
    destruct Eg as [<-|[<-|[]]];
      intros [= <- <-]; cbn; rewrite ?orb_true_r, ?orb_false_r; repeat split. }
  destruct (is_opt o ["-t"; "--target"]) eqn:Et.
  { apply is_opt_in in Et. unfold py_int.
    destruct (int env a) as [n|] eqn:En; [|destruct Et as [<-|[<-|[]]]; discriminate].
    destruct Et as [<-|[<-|[]]];
      intros [= <- <-]; cbn; rewrite ?orb_true_r, ?orb_false_r; repeat split. }
  destruct (String.eqb_spec o "--anti-fallacy") as [->|Ha]; [|discriminate].
  intros [= <- <-]; cbn; rewrite ?orb_true_r, ?orb_false_r; repeat split.
Qed.

(** What the options do to the configuration, when none of them ends the
    program. *)
Lemma process_opts_config file opts :
  forall c0 t c,
    process_opts env file opts c0 = (t, Ret c) ->
    (match last_arg ["-i"; "--iterations"] opts with
     | Some a => int env a = Some (iterations c)
     | None => iterations c = iterations c0
     end
     /\ match last_arg ["-r"; "--rounds"] opts with
        | Some a => int env a = Some (rounds c)
        | None => rounds c = rounds c0
        end
     /\ match last_arg ["-g"; "--gold"] opts with
        | Some a => int env a = Some (starting_gold c)
        | None => starting_gold c = starting_gold c0
        end
     /\ match last_arg ["-t"; "--target"] opts with
        | Some a => int env a = Some (target_gold c)
        | None => target_gold c = target_gold c0
        end)
    /\ (strat_file c
        = match last_arg ["-s"; "--strat"] opts with
          | Some a => a
          | None => strat_file c0
          end
        /\ bet_system_name c
           = match last_arg ["-b"; "--bet-system"] opts with
             | Some a => a
             | None => bet_system_name c0
             end
        /\ bet_options c
           = match last_arg ["-o"; "--bet-options"] opts with
             | Some a => a
             | None => bet_options c0
             end)
    /\ (verbose c = verbose c0 || has_opt ["-v"; "--verbose"] opts
        /\ bet_anti_fallacy c
           = bet_anti_fallacy c0 || has_opt ["--anti-fallacy"] opts)
    /\ (out_file c
        = match last_arg ["-f"; "--out-file"] opts with
          | Some a => Some a
          | None => out_file c0
          end
        /\ t = map EvOpen (args_of ["-f"; "--out-file"] opts)
        /\ Forall (fun f => open_w env f = true)
                  (args_of ["-f"; "--out-file"] opts)).
Proof.
  induction opts as [|[o a] opts IH]; intros c0 t c.
  - intros [= <- <-]. cbn. rewrite !orb_false_r. repeat split. constructor.
  - cbn [process_opts]. intro H.
    apply bind_returns in H. destruct H as (t1 & c1 & t2 & H1 & H2 & ->).
    apply process_opt_step in H1. apply IH in H2. clear IH.
    destruct H1 as ((Hi1 & Hr1 & Hg1 & Ht1) & (Hs1 & Hb1 & Ho1)
                    & (Hv1 & Ha1) & (Hf1 & Htr1 & Hop1)).
    destruct H2 as ((Hi2 & Hr2 & Hg2 & Ht2) & (Hs2 & Hb2 & Ho2)
                    & (Hv2 & Ha2) & (Hf2 & Htr2 & Hop2)).
    unfold has_opt, args_of in *. cbn [last_arg existsb filter fst].
    repeat split.
    + destruct (last_arg ["-i"; "--iterations"] opts); [exact Hi2|].
      destruct (is_opt o ["-i"; "--iterations"]); congruence.
    + destruct (last_arg ["-r"; "--rounds"] opts); [exact Hr2|].
      destruct (is_opt o ["-r"; "--rounds"]); congruence.
    + destruct (last_arg ["-g"; "--gold"] opts); [exact Hg2|].
      destruct (is_opt o ["-g"; "--gold"]); congruence.
    + destruct (last_arg ["-t"; "--target"] opts); [exact Ht2|].
      destruct (is_opt o ["-t"; "--target"]); congruence.
    + destruct (last_arg ["-s"; "--strat"] opts); [exact Hs2|].
      destruct (is_opt o ["-s"; "--strat"]); congruence.
    + destruct (last_arg ["-b"; "--bet-system"] opts); [exact Hb2|].
      destruct (is_opt o ["-b"; "--bet-system"]); congruence.
    + destruct (last_arg ["-o"; "--bet-options"] opts); [exact Ho2|].
      destruct (is_opt o ["-o"; "--bet-options"]); congruence.
    + rewrite Hv2, Hv1, orb_assoc. reflexivity.
    + rewrite Ha2, Ha1, orb_assoc. reflexivity.
    + destruct (last_arg ["-f"; "--out-file"] opts); [exact Hf2|].
      destruct (is_opt o ["-f"; "--out-file"]); congruence.
    + rewrite Htr1, Htr2.
      destruct (is_opt o ["-f"; "--out-file"]); reflexivity.
    + destruct (is_opt o ["-f"; "--out-file"]); [constructor|]; assumption.
Qed.

End OptionFacts.

(** ** X1: repeated options *)

(** X1.  When option processing completes, every option that takes a value
    has the value of its last occurrence: the numbers of iterations,
    rounds, gold and target are [int] of the last argument given for them
    (1, 0, 0 and 0 when the option is absent), and the strategy file, the
    betting system and its options are the last argument given (the
    defaults "strats/strat.txt", "none" and "" when absent). *)
Theorem X1_last_occurrence_of_an_option_wins :
  forall (Strategy BetSystem Core : Type) (env : Env Strategy BetSystem Core)
         (file : string) (opts : list (string * string))
         (t : list (Event Strategy BetSystem)) (c : Config),
    process_opts env file opts default_config = (t, Ret c) ->
    match last_arg ["-i"; "--iterations"] opts with
    | Some a => int env a = Some (iterations c)
    | None => iterations c = 1
    end
    /\ match last_arg ["-r"; "--rounds"] opts with
       | Some a => int env a = Some (rounds c)
       | None => rounds c = 0
       end
    /\ match last_arg ["-g"; "--gold"] opts with
       | Some a => int env a = Some (starting_gold c)
       | None => starting_gold c = 0
       end
    /\ match last_arg ["-t"; "--target"] opts with
       | Some a => int env a = Some (target_gold c)
       | None => target_gold c = 0
       end
    /\ strat_file c
       = match last_arg ["-s"; "--strat"] opts with
         | Some a => a
         | None => "strats/strat.txt"
         end
    /\ bet_system_name c
       = match last_arg ["-b"; "--bet-system"] opts with
         | Some a => a
         | None => "none"
         end
    /\ bet_options c
       = match last_arg ["-o"; "--bet-options"] opts with
         | Some a => a
         | None => ""
         end.
Proof.
  intros Strategy BetSystem Core env file opts t c H.
  apply process_opts_config in H.
  destruct H as ((Hi & Hr & Hg & Ht) & (Hs & Hb & Ho) & _).
  repeat split; assumption.
Qed.

(** The options [-g 5 --gold 30 -g 7 -b fp -b simple]. *)
Lemma X1_witness_gold_thrice :
  process_opts Demo.env "casinosim.py"
    [("-g", "5"); ("--gold", "30"); ("-g", "7"); ("-b", "fp"); ("-b", "simple")]
    default_config
  = ([], Ret (mkConfig false None 1 7 "strats/strat.txt" "simple" "" false 0 0))
  /\ Demo.int "7" = Some 7.
Proof.
  split; [reflexivity|].
  destruct (X1_last_occurrence_of_an_option_wins _ _ _ Demo.env "casinosim.py"
              [("-g", "5"); ("--gold", "30"); ("-g", "7"); ("-b", "fp"); ("-b", "simple")]
              []
              (mkConfig false None 1 7 "strats/strat.txt" "simple" "" false 0 0)
              eq_refl) as (_ & _ & Hg & _).
  exact Hg.
Defined.

(** ** X2: flags *)

(** X2.  When option processing completes, [verbose] is set exactly when
    [-v] or [--verbose] occurs somewhere among the options, and the
    anti-fallacy flag exactly when [--anti-fallacy] occurs: no option
    clears a flag. *)
Theorem X2_flags_are_set_by_any_occurrence :
  forall (Strategy BetSystem Core : Type) (env : Env Strategy BetSystem Core)
         (file : string) (opts : list (string * string))
         (t : list (Event Strategy BetSystem)) (c : Config),
    process_opts env file opts default_config = (t, Ret c) ->
    verbose c = has_opt ["-v"; "--verbose"] opts
    /\ bet_anti_fallacy c = has_opt ["--anti-fallacy"] opts.
Proof.
  intros Strategy BetSystem Core env file opts t c H.
  apply process_opts_config in H.
  destruct H as (_ & _ & (Hv & Ha) & _). split; assumption.
Qed.

(** The options [--anti-fallacy -r 3 -v]. *)
Lemma X2_witness_both_flags :
  exists c,
    process_opts Demo.env "casinosim.py"
      [("--anti-fallacy", ""); ("-r", "3"); ("-v", "")] default_config
    = ([], Ret c)
    /\ verbose c = true /\ bet_anti_fallacy c = true.
Proof.
  eexists. split; [reflexivity|].
  exact (X2_flags_are_set_by_any_occurrence _ _ _ Demo.env "casinosim.py"
           [("--anti-fallacy", ""); ("-r", "3"); ("-v", "")] [] _ eq_refl).
Defined.

(** ** X3: output files *)

(** X3.  When option processing completes, nothing has been printed: the
    trace holds one [open(a, mode='w')] per [-f]/[--out-file] option, in
    order, each of which succeeded, and the output file of the
    configuration is the last one opened (none without such an option).
    A file opened by an earlier [-f] is left open and empty. *)
Theorem X3_every_out_file_option_opens_a_file :
  forall (Strategy BetSystem Core : Type) (env : Env Strategy BetSystem Core)
         (file : string) (opts : list (string * string))
         (t : list (Event Strategy BetSystem)) (c : Config),
    process_opts env file opts default_config = (t, Ret c) ->
    t = map EvOpen (args_of ["-f"; "--out-file"] opts)
    /\ Forall (fun f => open_w env f = true) (args_of ["-f"; "--out-file"] opts)
    /\ out_file c = last_arg ["-f"; "--out-file"] opts.
Proof.
  intros Strategy BetSystem Core env file opts t c H.
  apply process_opts_config in H.
  destruct H as (_ & _ & _ & (Hf & Ht & Ho)).
  split; [exact Ht | split; [exact Ho|]].
  rewrite Hf. destruct (last_arg ["-f"; "--out-file"] opts); reflexivity.
Qed.

(** The options [-f a.txt -v --out-file b.txt]. *)
Lemma X3_witness_two_files :
  exists c,
    process_opts Demo.env "casinosim.py"
      [("-f", "a.txt"); ("-v", ""); ("--out-file", "b.txt")] default_config
    = ([EvOpen "a.txt"; EvOpen "b.txt"], Ret c)
    /\ out_file c = Some "b.txt".
Proof.
  eexists. split; [reflexivity|].
  destruct (X3_every_out_file_option_opens_a_file _ _ _ Demo.env "casinosim.py"
              [("-f", "a.txt"); ("-v", ""); ("--out-file", "b.txt")] _ _ eq_refl)
    as (_ & _ & H).
  exact H.
Defined.

(** ** Options that end the program *)

Section EndingFacts.
Context {Strategy BetSystem Core : Type}.
Variable env : Env Strategy BetSystem Core.

Lemma usage_then_exit {A} file n :
  bind (usage file) (fun _ => sys_exit n : M Strategy BetSystem A)
  = (fst (usage file : M Strategy BetSystem unit), Stop (Exit n)).
Proof.
  pose proof (usage_returns (Strategy:=Strategy) (BetSystem:=BetSystem) file) as Hu.
  destruct (usage file : M Strategy BetSystem unit) as [tu ru].
  cbn [snd] in Hu. subst ru. unfold bind, sys_exit. cbn [fst].
  rewrite app_nil_r. reflexivity.
Qed.

Lemma process_opt_help file c o a :
  In o ["-h"; "--help"] ->
  process_opt env file c (o, a)
  = (fst (usage file : M Strategy BetSystem unit), Stop (Exit 0)).
Proof.
  intros [<-|[<-|[]]].
  - change (process_opt env file c ("-h", a))
      with (bind (usage file) (fun _ => sys_exit 0) : M Strategy BetSystem Config).
    apply usage_then_exit.
  - change (process_opt env file c ("--help", a))
      with (bind (usage file) (fun _ => sys_exit 0) : M Strategy BetSystem Config).
    apply usage_then_exit.
Qed.

Lemma process_opt_bad_number file c o a :
  In o number_options ->
  int env a = None ->
  process_opt env file c (o, a) = ([], Stop (Raised ValueError)).
Proof.
  intros Ho Ha. unfold number_options in Ho. cbn [In] in Ho.
  repeat (destruct Ho as [<-|Ho];
          [unfold process_opt; cbn [is_opt existsb String.eqb Ascii.eqb Bool.eqb orb andb];
           unfold py_int; rewrite Ha; reflexivity|]).
  contradiction.
Qed.

Lemma process_opt_bad_file file c o a :
  In o ["-f"; "--out-file"] ->
  open_w env a = false ->
  process_opt env file c (o, a) = ([EvOpen a], Stop (Raised OSError)).
Proof.
  intros Ho Ha. cbn [In] in Ho.
  repeat (destruct Ho as [<-|Ho];
          [unfold process_opt; cbn [is_opt existsb String.eqb Ascii.eqb Bool.eqb orb andb];
           unfold py_open; rewrite Ha; reflexivity|]).
  contradiction.
Qed.

(** The program ends at the first option that ends it. *)
Lemma main_opts_stops_at file pre oa post t c t1 o1 :
  process_opts env file pre default_config = (t, Ret c) ->
  process_opt env file c oa = (t1, Stop o1) ->
  main_opts env file (pre ++ oa :: post) = ((t ++ t1)%list, Stop o1).
Proof.
  intros Hp H1. apply main_opts_opts_stop.
  rewrite process_opts_app, Hp, bind_ret. cbn [process_opts].
  rewrite H1. reflexivity.
Qed.

(** How an option can end the program: [sys.exit()], or an exception. *)
Lemma process_opt_stop file c o a t1 o1 :
  process_opt env file c (o, a) = (t1, Stop o1) ->
  o1 = Exit 0 \/ o1 = Raised ValueError \/ o1 = Raised OSError
  \/ o1 = Raised AssertionError.
Proof.
  unfold process_opt, py_int, py_open.
  repeat match goal with
         | |- context [if ?b then _ else _] => destruct b
         end;
    try discriminate;
    try (rewrite usage_then_exit);
    try (destruct (int env a));
    cbn; intros [= <- <-]; auto.
Qed.

Lemma process_opts_stop file opts :
  forall c t o1,
    process_opts env file opts c = (t, Stop o1) ->
    o1 = Exit 0 \/ o1 = Raised ValueError \/ o1 = Raised OSError
    \/ o1 = Raised AssertionError.
Proof.
  induction opts as [|[o a] opts IH]; intros c t o1; [discriminate|].
  cbn [process_opts].
  destruct (process_opt env file c (o, a)) as [t1 [c1|o']] eqn:E.
  - rewrite bind_ret.
    destruct (process_opts env file opts c1) as [t2 [c2|o2]] eqn:E2;
      [discriminate|].
    cbn [fst snd]. intros [= <- <-]. eapply IH. exact E2.
  - cbn [bind]. intros [= <- <-]. eapply process_opt_stop. exact E.
Qed.

(** The loop ends the program only when a run fails. *)
Lemma iterate_stop n r :
  forall s t o1,
    iterate env n r s = (t, Stop o1) -> o1 = Raised RunError.
Proof.
  induction n as [|n IH]; intros [[bj total] reasons] t o1; [discriminate|].
  cbn [iterate].
  destruct (run env (set_core bj (reset env bj)) r) as [[[reason st] core]|] eqn:E.
  - rewrite (iteration_returns env _ _ _ _ _ _ _ E), bind_ret.
    destruct (iterate env n r _) as [t2 [s2|o2]] eqn:E2; [discriminate|].
    cbn [fst snd]. intros [= <- <-]. eapply IH. exact E2.
  - rewrite (iteration_fails env _ _ _ _ E). cbn [bind]. intros [= <- <-].
    reflexivity.
Qed.

(** How [main_body] can end. *)
Lemma main_body_outcome c :
  outcome (main_body env c) = Completed
  \/ outcome (main_body env c) = Exit 1
  \/ exists e, outcome (main_body env c) = Raised e.
Proof.
  destruct (validate env c) as [t0 [[strat bet]|o]] eqn:Hv.
  - destruct (iterate env (range_len (iterations c)) (rounds c)
                (initial_simulator env c strat bet, initial_total c, []))
      as [tl [s|o]] eqn:Hit.
    + left. rewrite (main_body_checked env c _ _ _ Hv _ _ Hit). reflexivity.
    + right. right. rewrite (main_body_run_fails env c _ _ _ Hv _ _ Hit).
      apply iterate_stop in Hit. subst o. eexists. reflexivity.
  - right. unfold main_body. rewrite Hv. cbn [bind].
    destruct (validate_stop_fails env c _ _ Hv) as [->|[e ->]];
      [left; reflexivity | right; eexists; reflexivity].
Qed.

Lemma main_opts_outcome file opts :
  outcome (main_opts env file opts) = Completed
  \/ outcome (main_opts env file opts) = Exit 0
  \/ outcome (main_opts env file opts) = Exit 1
  \/ exists e, outcome (main_opts env file opts) = Raised e.
Proof.
  destruct (process_opts env file opts default_config) as [t [c|o]] eqn:Hp.
  - rewrite (main_opts_body env _ _ _ _ Hp).
    destruct (main_body_outcome c) as [H|[H|(e & H)]];
      unfold outcome in *; cbn [snd] in *; rewrite H; eauto.
  - rewrite (main_opts_opts_stop env _ _ _ _ Hp).
    destruct (process_opts_stop _ _ _ _ _ Hp) as [-> | [-> | [-> | ->]]];
      unfold outcome; cbn [snd]; eauto.
Qed.

Lemma main_getopt_error file a args err :
  getopt env (a :: args) = inl err ->
  main env (file :: a :: args)
  = (EvPrint (Text err) :: fst (usage file : M Strategy BetSystem unit),
     Stop (Exit 2)).
Proof.
  intro H. unfold main. change (length (file :: a :: args) <? 2)%nat with false.
  cbv iota. rewrite H. unfold print, emit.
  rewrite (bind_ret [EvPrint (Text err)] tt).
  rewrite usage_then_exit. reflexivity.
Qed.

Lemma main_getopt_ok file a args opts :
  getopt env (a :: args) = inr opts ->
  main env (file :: a :: args) = main_opts env file opts.
Proof.
  intro H. unfold main. change (length (file :: a :: args) <? 2)%nat with false.
  cbv iota. rewrite H. reflexivity.
Qed.

End EndingFacts.

(** ** X4: the help option *)

(** X4.  When [-h] or [--help] is reached (the options before it are
    processed without ending the program), the program prints the usage
    text on the standard output only, after whatever files the earlier
    options opened, and exits with status 0: the strategy file is not
    loaded and nothing is validated or run. *)
Theorem X4_help_prints_usage_and_exits_0 :
  forall (Strategy BetSystem Core : Type) (env : Env Strategy BetSystem Core)
         (file : string) (pre post : list (string * string)) (o a : string)
         (t : list (Event Strategy BetSystem)) (c : Config),
    In o ["-h"; "--help"] ->
    process_opts env file pre default_config = (t, Ret c) ->
    main_opts env file (pre ++ (o, a) :: post)
    = ((t ++ trace (usage file : M Strategy BetSystem unit))%list, Stop (Exit 0)).
Proof.
  intros Strategy BetSystem Core env file pre post o a t c Ho Hp.
  apply (main_opts_stops_at env file pre (o, a) post t c _ _ Hp).
  apply process_opt_help, Ho.
Qed.

(** The program on [-f out.txt --help -b kelly]. *)
Lemma X4_witness_help_after_out_file :
  outcome (main_opts Demo.env "casinosim.py"
             [("-f", "out.txt"); ("--help", ""); ("-b", "kelly")]) = Exit 0
  /\ hd_error (trace (main_opts Demo.env "casinosim.py"
                        [("-f", "out.txt"); ("--help", ""); ("-b", "kelly")]))
     = Some (EvOpen "out.txt").
Proof.
  assert (Ho : In "--help" ["-h"; "--help"]) by (simpl; auto).
  pose proof (X4_help_prints_usage_and_exits_0 _ _ _ Demo.env "casinosim.py"
                [("-f", "out.txt")] [("-b", "kelly")] "--help" ""
                [EvOpen "out.txt"]
                (mkConfig false (Some "out.txt") 1 0 "strats/strat.txt" "none" "" false 0 0)
                Ho eq_refl) as H.
  cbn [app] in H. rewrite H. split; reflexivity.
Defined.

(** ** X5: a command line [getopt] refuses *)

(** X5.  When [getopt] raises [GetoptError], the program prints the text of
    the error, then the usage text, and exits with status 2; no option is
    processed and nothing else happens. *)
Theorem X5_getopt_error_prints_usage_and_exits_2 :
  forall (Strategy BetSystem Core : Type) (env : Env Strategy BetSystem Core)
         (file a : string) (args : list string) (err : string),
    getopt env (a :: args) = inl err ->
    main env (file :: a :: args)
    = (EvPrint (Text err) :: trace (usage file : M Strategy BetSystem unit),
       Stop (Exit 2)).
Proof.
  intros Strategy BetSystem Core env file a args err H.
  apply main_getopt_error, H.
Qed.

(** The program on [--bogus]. *)
Lemma X5_witness_unknown_option :
  outcome (main Demo.env ["casinosim.py"; "--bogus"]) = Exit 2
  /\ hd_error (trace (main Demo.env ["casinosim.py"; "--bogus"]))
     = Some (EvPrint (Text "option --bogus not recognized")).
Proof.
  rewrite (X5_getopt_error_prints_usage_and_exits_2 _ _ _ Demo.env
             "casinosim.py" "--bogus" [] "option --bogus not recognized" eq_refl).
  split; reflexivity.
Defined.

(** ** X6: a malformed number *)

(** X6.  When the argument of [-i], [-r], [-g] or [-t] (or of their long
    forms) is not a number for [int], and the options before it are
    processed without ending the program, [ValueError] leaves [main] at
    that option: nothing is printed, the strategy file is not loaded, and
    the options after it are not looked at. *)
Theorem X6_malformed_number_raises_ValueError :
  forall (Strategy BetSystem Core : Type) (env : Env Strategy BetSystem Core)
         (file : string) (pre post : list (string * string)) (o a : string)
         (t : list (Event Strategy BetSystem)) (c : Config),
    In o number_options ->
    int env a = None ->
    process_opts env file pre default_config = (t, Ret c) ->
    main_opts env file (pre ++ (o, a) :: post) = (t, Stop (Raised ValueError)).
Proof.
  intros Strategy BetSystem Core env file pre post o a t c Ho Ha Hp.
  rewrite (main_opts_stops_at env file pre (o, a) post t c _ _ Hp
             (process_opt_bad_number env file c o a Ho Ha)).
  rewrite app_nil_r. reflexivity.
Qed.

(** The program on [-b fp --gold 1e3 -h]. *)
Lemma X6_witness_gold_1e3 :
  main_opts Demo.env "casinosim.py" [("-b", "fp"); ("--gold", "1e3"); ("-h", "")]
  = ([], Stop (Raised ValueError)).
Proof.
  assert (Ho : In "--gold" number_options) by (simpl; tauto).
  exact (X6_malformed_number_raises_ValueError _ _ _ Demo.env "casinosim.py"
           [("-b", "fp")] [("-h", "")] "--gold" "1e3" []
           (mkConfig false None 1 0 "strats/strat.txt" "fp" "" false 0 0)
           Ho eq_refl eq_refl).
Defined.

(** ** X7: an output file that cannot be opened *)

(** X7.  When [open(a, mode='w')] fails for the argument of [-f] or
    [--out-file], and the options before it are processed without ending
    the program, [OSError] leaves [main] right after that call: nothing
    is printed and the strategy file is not loaded. *)
Theorem X7_unopenable_out_file_raises_OSError :
  forall (Strategy BetSystem Core : Type) (env : Env Strategy BetSystem Core)
         (file : string) (pre post : list (string * string)) (o a : string)
         (t : list (Event Strategy BetSystem)) (c : Config),
    In o ["-f"; "--out-file"] ->
    open_w env a = false ->
    process_opts env file pre default_config = (t, Ret c) ->
    main_opts env file (pre ++ (o, a) :: post)
    = ((t ++ [EvOpen a])%list, Stop (Raised OSError)).
Proof.
  intros Strategy BetSystem Core env file pre post o a t c Ho Ha Hp.
  exact (main_opts_stops_at env file pre (o, a) post t c _ _ Hp
           (process_opt_bad_file env file c o a Ho Ha)).
Qed.

(** The program on [-r 5 -f ""]. *)
Lemma X7_witness_empty_file_name :
  main_opts Demo.env "casinosim.py" [("-r", "5"); ("-f", "")]
  = ([EvOpen ""], Stop (Raised OSError)).
Proof.
  assert (Ho : In "-f" ["-f"; "--out-file"]) by (simpl; auto).
  exact (X7_unopenable_out_file_raises_OSError _ _ _ Demo.env "casinosim.py"
           [("-r", "5")] [] "-f" "" []
           (mkConfig false None 1 0 "strats/strat.txt" "none" "" false 0 5)
           Ho eq_refl eq_refl).
Defined.

(** ** X8: the unhandled-option assertion *)

(** X8.  The final [else: assert False, "unhandled option"] of the option
    loop is reached exactly by the option names that line 84 does not
    declare to [getopt]: every one of the 22 names [getopt] can return has
    a branch of its own, so the assertion cannot fail on what [getopt]
    returns. *)
Theorem X8_assertion_only_for_undeclared_options :
  forall (Strategy BetSystem Core : Type) (env : Env Strategy BetSystem Core)
         (file : string) (c : Config) (o a : string),
    snd (process_opt env file c (o, a)) = Stop (Raised AssertionError)
    <-> ~ In o declared_options.
Proof.
  intros Strategy BetSystem Core env file c o a. split.
  - intros H Hin. revert H. cbv in Hin.
    repeat (destruct Hin as [<-|Hin];
            [unfold process_opt, py_int, py_open;
             cbn [is_opt existsb String.eqb Ascii.eqb Bool.eqb orb andb];
             try rewrite usage_then_exit;
             try destruct (int env a); try destruct (open_w env a);
             cbn; discriminate|]).
    contradiction.
  - intro H. unfold process_opt.
    repeat match goal with
           | |- context [if is_opt o ?n then _ else _] =>
               let E := fresh "E" in
               destruct (is_opt o n) eqn:E;
               [ exfalso; apply H; apply is_opt_in in E;
                 destruct E as [<-|[<-|[]]]; cbv;
                 repeat (try (left; reflexivity); right)
               | ]
           | |- context [if String.eqb o ?s then _ else _] =>
               destruct (String.eqb_spec o s);
               [ exfalso; apply H; subst o; cbv;
                 repeat (try (left; reflexivity); right)
               | ]
           end.
    reflexivity.
Qed.

(** ** X9: exit statuses *)

(** X9.  The program calls [sys.exit] with 0, 1 or 2 only, and with 2
    exactly when there is at least one argument and [getopt] refuses the
    command line. *)
Theorem X9_exit_status_is_0_1_or_2 :
  forall (Strategy BetSystem Core : Type) (env : Env Strategy BetSystem Core)
         (argv : list string),
    (forall n, outcome (main env argv) = Exit n -> n = 0 \/ n = 1 \/ n = 2)
    /\ (outcome (main env argv) = Exit 2
        <-> exists file a args err,
              argv = file :: a :: args /\ getopt env (a :: args) = inl err).
Proof.
  intros Strategy BetSystem Core env argv.
  destruct argv as [|file [|a args]].
  - split; [discriminate|]. split; [discriminate|].
    intros (f & a & args & err & H & _). discriminate H.
  - rewrite main_no_args. unfold outcome. cbn [snd]. split.
    + intros n [= <-]. auto.
    + split; [discriminate|].
      intros (f & a & args & err & H & _). discriminate H.
  - destruct (getopt env (a :: args)) as [err|opts] eqn:Hg.
    + rewrite (main_getopt_error env file a args err Hg). unfold outcome. cbn [snd].
      split; [intros n [= <-]; auto|].
      split; [|reflexivity]. intros _. exists file, a, args, err. auto.
    + rewrite (main_getopt_ok env file a args opts Hg).
      pose proof (main_opts_outcome env file opts) as Ho.
      split.
      * intros n Hn. rewrite Hn in Ho.
        destruct Ho as [H|[H|[H|[e H]]]]; try discriminate H;
          injection H as <-; auto.
      * split.
        -- intro H2. rewrite H2 in Ho.
           destruct Ho as [H|[H|[H|[e H]]]]; discriminate H.
        -- intros (f & a' & args' & err & Hargv & Herr).
           injection Hargv as <- <- <-. rewrite Hg in Herr. discriminate Herr.
Qed.

(** ** X10: the configurations that pass the checks *)

(** X10.  [validate] returns, that is, the configuration passes lines
    148-163, exactly when the strategy file loads, the name is a key of
    [BETTING_SYSTEMS] whose class accepts the betting options, the betting
    system is "none" or the starting gold is not 0, and the target or the
    number of rounds is not 0 (a negative value counts as set).  It has
    then printed nothing: its trace is the two loading calls. *)
Theorem X10_configurations_that_pass_the_checks :
  forall (Strategy BetSystem Core : Type) (env : Env Strategy BetSystem Core)
         (c : Config) (t : list (Event Strategy BetSystem))
         (s : Strategy) (b : BetSystem),
    validate env c = (t, Ret (s, b))
    <-> (from_file env (strat_file c) (verbose c) = Some s
         /\ (exists cls,
                dict_get (bet_system_name c) BETTING_SYSTEMS = Some cls
                /\ from_options env cls (bet_options c) = Some b
                /\ t = [EvFromFile (strat_file c) (verbose c);
                        EvFromOptions cls (bet_options c)])
         /\ (bet_system_name c = "none" \/ starting_gold c <> 0)
         /\ (target_gold c <> 0 \/ rounds c <> 0)).
Proof.
  intros Strategy BetSystem Core env c t s b. unfold validate, just_print, dict_mem.
  destruct (from_file env (strat_file c) (verbose c)) as [s'|] eqn:Hf.
  2: { split; [discriminate | intros [H _]; discriminate H]. }
  destruct (dict_get (bet_system_name c) BETTING_SYSTEMS) as [cls|] eqn:Hd.
  2: { split.
       - destruct (out_file c); discriminate.
       - intros (_ & (cls & H & _) & _). discriminate H. }
  cbn [negb].
  destruct (String.eqb_spec (bet_system_name c) "none") as [Hn|Hn];
    destruct (Z.eqb_spec (starting_gold c) 0) as [Hg|Hg]; cbn [negb andb].
  3: { split.
       - destruct (out_file c); discriminate.
       - intros (_ & _ & [H|H] & _); contradiction. }
  all: cbn [bind ret emit raise sys_exit print fst snd app].
  all: destruct (from_options env cls (bet_options c)) as [b'|] eqn:Hb;
    [|split; [discriminate | intros (_ & (cls' & H1 & H2 & _) & _); congruence]].
  all: destruct (Z.eqb_spec (target_gold c) 0) as [Ht|Ht];
    destruct (Z.eqb_spec (rounds c) 0) as [Hr|Hr]; cbn [andb].
  all: try (split;
            [destruct (out_file c); discriminate
            |intros (_ & _ & _ & [H|H]); contradiction]).
  all: cbn [bind ret emit raise sys_exit print fst snd app]; split;
    [ intros [= <- <- <-]; split; [reflexivity|];
      split; [exists cls; auto|]; auto
    | intros ([= <-] & (cls' & H1 & H2 & ->) & _);
      assert (cls' = cls) by congruence; subst cls';
      assert (b' = b) by congruence; subst b'; reflexivity ].
Qed.

(** ** X11: the strategy file that is loaded *)

(** X11.  When option processing completes, the next thing the program does
    after the openings of the output files is to load the strategy file of
    the last [-s]/[--strat] option ("strats/strat.txt" without one), and
    it loads it verbosely exactly when [-v] or [--verbose] occurs anywhere
    among the options, before or after [-s]. *)
Theorem X11_strategy_of_last_s_option_is_loaded :
  forall (Strategy BetSystem Core : Type) (env : Env Strategy BetSystem Core)
         (file : string) (opts : list (string * string))
         (t : list (Event Strategy BetSystem)) (c : Config),
    process_opts env file opts default_config = (t, Ret c) ->
    exists rest,
      trace (main_opts env file opts)
      = (map EvOpen (args_of ["-f"; "--out-file"] opts)
         ++ EvFromFile
              match last_arg ["-s"; "--strat"] opts with
              | Some a => a
              | None => "strats/strat.txt"
              end
              (has_opt ["-v"; "--verbose"] opts)
         :: rest)%list.
Proof.
  intros Strategy BetSystem Core env file opts t c Hp.
  rewrite (main_opts_body env _ _ _ _ Hp). unfold trace. cbn [fst].
  destruct (main_body_trace env c) as (rest & Hb & _). rewrite Hb.
  apply process_opts_config in Hp.
  destruct Hp as (_ & (Hs & _) & (Hv & _) & (_ & Ht & _)).
  exists rest. rewrite Ht, Hs, Hv. reflexivity.
Qed.

(** The program on [-s a.txt -s b.txt -r 1 -v]. *)
Lemma X11_witness_verbose_after_strat :
  hd_error (trace (main_opts Demo.env "casinosim.py"
                     [("-s", "a.txt"); ("-s", "b.txt"); ("-r", "1"); ("-v", "")]))
  = Some (EvFromFile "b.txt" true).
Proof.
  destruct (X11_strategy_of_last_s_option_is_loaded _ _ _ Demo.env "casinosim.py"
              [("-s", "a.txt"); ("-s", "b.txt"); ("-r", "1"); ("-v", "")]
              _ _ eq_refl) as (rest & H).
  rewrite H. reflexivity.
Defined.

(** ** The output file *)

Section MirrorFacts.
Context {Strategy BetSystem Core : Type}.
Variable env : Env Strategy BetSystem Core.

Abbreviation Ev := (Event Strategy BetSystem).
Abbreviation Mon := (M Strategy BetSystem).

Lemma printed_lines_app (t t' : list Ev) :
  printed_lines (t ++ t') = (printed_lines t ++ printed_lines t')%list.
Proof. unfold printed_lines. apply flat_map_app. Qed.

Lemma file_lines_app f (t t' : list Ev) :
  file_lines f (t ++ t') = (file_lines f t ++ file_lines f t')%list.
Proof. unfold file_lines. apply flat_map_app. Qed.

Lemma mirrored_nil out : mirrored out ([] : list Ev).
Proof. destruct out; cbn; [split; [reflexivity | intros; reflexivity] | constructor]. Qed.

Lemma mirrored_app out (t t' : list Ev) :
  mirrored out t -> mirrored out t' -> mirrored out (t ++ t').
Proof.
  destruct out as [f|]; cbn.
  - intros [H1 H2] [H1' H2']. split.
    + rewrite file_lines_app, printed_lines_app, H1, H1'. reflexivity.
    + intros f' Hf. rewrite file_lines_app, (H2 f' Hf), (H2' f' Hf). reflexivity.
  - intros H H'. apply Forall_app. split; assumption.
Qed.

Lemma mirrored_silent out (t : list Ev) :
  Forall (fun e => is_silent e = true) t -> mirrored out t.
Proof.
  intro H. induction H as [|e t He _ IH]; [apply mirrored_nil|].
  change (e :: t) with ([e] ++ t)%list. apply mirrored_app; [|exact IH].
  destruct out as [f|]; destruct e; try discriminate He; cbn;
    try (split; [reflexivity | intros; reflexivity]);
    repeat constructor.
Qed.

Lemma mirrored_just_print c l :
  mirrored (out_file c) (fst (just_print c l : Mon unit)).
Proof.
  unfold just_print. destruct (out_file c) as [f|] eqn:E; cbn.
  - rewrite String.eqb_refl. split; [reflexivity|].
    intros f' Hf. apply String.eqb_neq in Hf. rewrite Hf. reflexivity.
  - repeat constructor.
Qed.

Lemma mirrored_bind {A B} out (m : Mon A) (k : A -> Mon B) :
  mirrored out (fst m) -> (forall a, mirrored out (fst (k a))) ->
  mirrored out (fst (bind m k)).
Proof.
  destruct m as [t [a|o]]; intros Hm Hk.
  - rewrite bind_ret. cbn [fst]. apply mirrored_app; [exact Hm | apply Hk].
  - exact Hm.
Qed.

Lemma mirrored_for_each {A} out (l : list A) (body : A -> Mon unit) :
  (forall x, mirrored out (fst (body x))) -> mirrored out (fst (for_each l body)).
Proof.
  intro H. induction l as [|x l IH]; cbn [for_each].
  - apply mirrored_nil.
  - apply mirrored_bind; [apply H | intros _; exact IH].
Qed.

(** Steps of a proof that a computation is mirrored. *)
Ltac mirror_steps :=
  repeat first
    [ apply mirrored_just_print
    | apply mirrored_bind; [|intros ?]
    | solve [apply mirrored_nil]
    | solve [apply mirrored_silent; repeat constructor]
    | match goal with
      | |- mirrored _ (fst (if ?b then _ else _)) => destruct b
      | |- mirrored _ (fst (match ?x with _ => _ end)) => destruct x
      end ].

Lemma mirrored_validate c : mirrored (out_file c) (fst (validate env c)).
Proof. unfold validate. mirror_steps. Qed.

Lemma mirrored_banner c : mirrored (out_file c) (fst (banner c : Mon unit)).
Proof. unfold banner. mirror_steps. Qed.

Lemma mirrored_report c (s : LoopState Strategy BetSystem Core) :
  mirrored (out_file c) (fst (report c s)).
Proof.
  destruct s as [[bj total] reasons]. unfold report.
  apply mirrored_bind; [apply mirrored_just_print | intros _].
  apply mirrored_bind; [apply mirrored_just_print | intros _].
  apply mirrored_bind; [apply mirrored_just_print | intros _].
  apply mirrored_bind.
  { apply mirrored_for_each. intro rs. unfold report_reason. mirror_steps. }
  intros _. mirror_steps.
Qed.

Lemma mirrored_iterate out n r (s : LoopState Strategy BetSystem Core) :
  mirrored out (fst (iterate env n r s)).
Proof.
  destruct s as [[bj total] reasons]. apply mirrored_silent.
  pose proof (iterate_events env n r bj total reasons) as H.
  revert H. apply Forall_impl.
  intros e [->|[->|[st ->]]]; reflexivity.
Qed.

Lemma mirrored_main_body c : mirrored (out_file c) (fst (main_body env c)).
Proof.
  unfold main_body.
  apply mirrored_bind; [apply mirrored_validate | intros [strat bet]].
  apply mirrored_bind; [apply mirrored_banner | intros _].
  apply mirrored_bind; [rewrite set_up_eq; apply mirrored_silent; repeat constructor|].
  intros s0.
  apply mirrored_bind; [apply mirrored_iterate | intros s].
  apply mirrored_report.
Qed.

End MirrorFacts.

(** ** X12: what the output file receives *)

(** X12.  From line 148 on, every line [main] prints itself is printed
    through [just_print]: with an output file, the lines [main] writes to
    it are the lines [main] prints on the standard output, in the same
    order, configuration errors included, and [main] writes to no other
    file; without one, [main] writes to no file.  This holds with and
    without [verbose]: the lines a collaborator prints through
    [out=verbose_print] go to the standard output only, and are no part of
    [printed_lines]. *)
Theorem X12_output_file_mirrors_the_lines_main_prints :
  forall (Strategy BetSystem Core : Type) (env : Env Strategy BetSystem Core)
         (c : Config),
    match out_file c with
    | Some f =>
        file_lines f (trace (main_body env c))
        = printed_lines (trace (main_body env c))
        /\ forall f', f' <> f -> file_lines f' (trace (main_body env c)) = []
    | None =>
        Forall (fun e => is_print_file e = false) (trace (main_body env c))
    end.
Proof.
  intros Strategy BetSystem Core env c.
  exact (mirrored_main_body env c).
Qed.

(** ** The dictionary of reasons *)

Section ReasonFacts.

Lemma dict_get_set_same {V} k (v : V) d : dict_get k (dict_set k v d) = Some v.
Proof.
  induction d as [|[k' v'] d IH]; cbn.
  - rewrite String.eqb_refl. reflexivity.
  - destruct (String.eqb k k') eqn:E; cbn; rewrite ?String.eqb_refl, ?E; auto.
Qed.

Lemma dict_get_set_other {V} k k' (v : V) d :
  k' <> k -> dict_get k' (dict_set k v d) = dict_get k' d.
Proof.
  intro Hk. induction d as [|[k0 v0] d IH]; cbn.
  - apply String.eqb_neq in Hk. rewrite Hk. reflexivity.
  - destruct (String.eqb_spec k k0) as [->|Hk0]; cbn.
    + apply String.eqb_neq in Hk. rewrite Hk. reflexivity.
    + destruct (String.eqb k' k0); [reflexivity | exact IH].
Qed.

(** The entry of [rs] after one more run. *)
Lemma record_reason_get reason st d rs :
  dict_get rs (record_reason reason st d)
  = if String.eqb reason rs
    then Some (entry_after
                 match dict_get rs d with Some e => e | None => empty_entry end
                 [(reason, st)])
    else dict_get rs d.
Proof.
  unfold record_reason, dict_mem.
  destruct (String.eqb_spec reason rs) as [->|Hne].
  - destruct (dict_get rs d) as [e|] eqn:E; cbn [negb].
    + rewrite E, dict_get_set_same. reflexivity.
    + rewrite dict_get_set_same, dict_get_set_same. reflexivity.
  - assert (Hne' : rs <> reason) by congruence.
    destruct (dict_get reason d) as [e|] eqn:E; cbn [negb].
    + rewrite E, dict_get_set_other by exact Hne'. reflexivity.
    + rewrite dict_get_set_same, !dict_get_set_other by exact Hne'. reflexivity.
Qed.

Lemma entry_after_cons e res m :
  entry_after (entry_after e [res]) m = entry_after e (res :: m).
Proof.
  unfold entry_after. cbn [count r_gold_end r_hands length map].
  rewrite <- !app_assoc. cbn [app]. f_equal. lia.
Qed.

Lemma entry_after_nil e : entry_after e [] = e.
Proof.
  destruct e. unfold entry_after. cbn. rewrite Z.add_0_r, !app_nil_r. reflexivity.
Qed.

(** The entry of [rs] after the runs [results]. *)
Lemma record_all_get results :
  forall d rs,
    dict_get rs (record_all results d)
    = match dict_get rs d, ended_with rs results with
      | Some e, m => Some (entry_after e m)
      | None, [] => None
      | None, m => Some (entry_after empty_entry m)
      end.
Proof.
  unfold record_all.
  induction results as [|[reason st] results IH]; intros d rs; cbn [fold_left].
  - cbn. destruct (dict_get rs d); [rewrite entry_after_nil|]; reflexivity.
  - rewrite IH, record_reason_get. cbn [fst snd ended_with filter].
    destruct (String.eqb reason rs).
    + destruct (dict_get rs d) as [e|]; rewrite entry_after_cons; reflexivity.
    + reflexivity.
Qed.

Lemma ended_with_length rs results :
  (length (ended_with rs results) <= length results)%nat.
Proof. unfold ended_with. apply filter_length_le. Qed.

End ReasonFacts.

(** ** X13: what [reasons] holds after the loop *)

(** X13.  After the runs, the dictionary [reasons] has an entry for a reason
    exactly when some run ended with it; the entry counts those runs and
    lists their end gold and their hands dealt, in the order the runs were
    made. *)
Theorem X13_reasons_entry_collects_the_runs_of_its_reason :
  forall (results : list (string * RunStats)) (rs : string),
    dict_get rs (record_all results [])
    = match ended_with rs results with
      | [] => None
      | m =>
          Some (mkReasonEntry (Z.of_nat (length m))
                  (map (fun res => gold_end (snd res)) m)
                  (map (fun res => total_hands (snd res)) m))
      end.
Proof.
  intros results rs. rewrite record_all_get. cbn [dict_get].
  destruct (ended_with rs results); reflexivity.
Qed.

(** ** The report after the loop *)

Section ReportFacts.
Context {Strategy BetSystem Core : Type}.
Variable env : Env Strategy BetSystem Core.

Abbreviation Ev := (Event Strategy BetSystem).
Abbreviation Mon := (M Strategy BetSystem).

(** When the loop returns, it made [n] runs, and its state holds what they
    returned. *)
Lemma iterate_returns_inv r n :
  forall bj total reasons tl s,
    iterate env n r (bj, total, reasons) = (tl, Ret s) ->
    exists results bj',
      length results = n
      /\ runs env r bj results bj'
      /\ s = (bj', add_all total (map snd results), record_all results reasons)
      /\ tl = flat_map (iteration_events (sim_strat bj) r) results.
Proof.
  induction n as [|n IH]; intros bj total reasons tl s.
  - intros [= <- <-]. exists [], bj. repeat split. constructor.
  - cbn [iterate].
    destruct (run env (set_core bj (reset env bj)) r) as [[[reason st] core]|] eqn:E.
    + rewrite (iteration_returns env _ _ _ _ _ _ _ E), bind_ret.
      destruct (iterate env n r _) as [t2 [s2|o2]] eqn:E2; [|discriminate].
      cbn [fst snd]. intros [= <- <-].
      destruct (IH _ _ _ _ _ E2) as (results & bj' & Hlen & Hruns & Hs & Ht).
      exists ((reason, st) :: results), bj'.
      split; [cbn; congruence|]. split; [econstructor; eassumption|].
      split; [exact Hs|]. rewrite Ht. reflexivity.
    + rewrite (iteration_fails env _ _ _ _ E). discriminate.
Qed.

(** When a run fails, the loop stops right after calling it. *)
Lemma iterate_fails_after r results :
  forall n bj bj' total reasons,
    runs env r bj results bj' ->
    (length results < n)%nat ->
    run env (set_core bj' (reset env bj')) r = None ->
    iterate env n r (bj, total, reasons)
    = ((flat_map (iteration_events (sim_strat bj) r) results
        ++ [EvReset; EvRun (sim_strat bj) r])%list,
       Stop (Raised RunError)).
Proof.
  induction results as [|[reason st] results IH];
    intros n bj bj' total reasons Hruns Hlen Hfail.
  - inversion Hruns; subst. destruct n as [|n]; [cbn in Hlen; lia|].
    cbn [iterate]. rewrite (iteration_fails env _ _ _ _ Hfail). reflexivity.
  - inversion Hruns as [|? ? ? core ? ? Hrun Hrest]; subst.
    destruct n as [|n]; [cbn in Hlen; lia|].
    cbn [iterate]. rewrite (iteration_returns env _ _ _ _ _ _ _ Hrun), bind_ret.
    rewrite (IH n _ bj' _ _ Hrest); [|cbn in Hlen; lia | exact Hfail].
    reflexivity.
Qed.

Lemma sound_bind {A B} (P : Ev -> Prop) (m : Mon A) (k : A -> Mon B) :
  Forall P (fst m) -> (forall a, Forall P (fst (k a))) ->
  Forall P (fst (bind m k)).
Proof.
  destruct m as [t [a|o]]; intros Hm Hk.
  - rewrite bind_ret. cbn [fst]. apply Forall_app. split; [exact Hm | apply Hk].
  - exact Hm.
Qed.

Lemma sound_just_print n c l :
  sound_report_line n l ->
  Forall (sound_report_event n) (fst (just_print c l : Mon unit)).
Proof.
  intro H. unfold just_print. destruct (out_file c); cbn; repeat constructor; exact H.
Qed.

Lemma sound_for_each {A} (P : Ev -> Prop) (l : list A) (body : A -> Mon unit) :
  (forall x, In x l -> Forall P (fst (body x))) -> Forall P (fst (for_each l body)).
Proof.
  induction l as [|x l IH]; intro H; cbn [for_each]; [constructor|].
  apply sound_bind; [apply H; left; reflexivity|].
  intros _. apply IH. intros y Hy. apply H. right. exact Hy.
Qed.

(** Steps of a proof that a computation prints sound lines only. *)
Ltac sound_steps :=
  repeat first
    [ apply sound_just_print; exact I
    | apply sound_bind; [|intros ?]
    | solve [constructor]
    | solve [repeat constructor]
    | match goal with
      | |- Forall _ (fst (if ?b then _ else _)) => destruct b
      | |- Forall _ (fst (match ?x with _ => _ end)) => destruct x
      end ].

Lemma sound_validate n c : Forall (sound_report_event n) (fst (validate env c)).
Proof. unfold validate. sound_steps. Qed.

Lemma sound_banner n c : Forall (sound_report_event n) (fst (banner c : Mon unit)).
Proof. unfold banner. sound_steps. Qed.

Lemma sound_iterate k n r (s : LoopState Strategy BetSystem Core) :
  Forall (sound_report_event k) (fst (iterate env n r s)).
Proof.
  destruct s as [[bj total] reasons].
  pose proof (iterate_events env n r bj total reasons) as H.
  revert H. apply Forall_impl.
  intros e [->|[->|[st ->]]]; exact I.
Qed.

(** The report of [n] runs. *)
Lemma sound_report c bj total (results : list (string * RunStats)) :
  length results = range_len (iterations c) ->
  Forall (sound_report_event (iterations c))
    (fst (report c ((bj, total, record_all results []) : LoopState Strategy BetSystem Core))).
Proof.
  intro Hlen. unfold report.
  apply sound_bind; [apply sound_just_print; exact I | intros _].
  apply sound_bind; [apply sound_just_print; exact I | intros _].
  apply sound_bind; [apply sound_just_print; exact I | intros _].
  apply sound_bind.
  - apply sound_for_each. intros rs _. unfold report_reason.
    rewrite record_all_get. cbn [dict_get].
    pose proof (ended_with_length rs results) as Hle.
    destruct (ended_with rs results) as [|res m] eqn:Em; [constructor|].
    unfold range_len in Hlen. cbn [length] in Hle.
    apply sound_bind; [|intros _; apply sound_bind; [|intros _]];
      apply sound_just_print; cbn.
    + split; [reflexivity|]. lia.
    + destruct (r_gold_end empty_entry); discriminate.
    + destruct (r_hands empty_entry); discriminate.
  - intros _. sound_steps.
Qed.

Lemma sound_main_body c :
  Forall (sound_report_event (iterations c)) (fst (main_body env c)).
Proof.
  unfold main_body.
  apply sound_bind; [apply sound_validate | intros [strat bet]].
  apply sound_bind; [apply sound_banner | intros _].
  rewrite set_up_eq, bind_ret. cbn [fst]. apply Forall_app.
  split; [repeat constructor|].
  destruct (iterate env (range_len (iterations c)) (rounds c)
              (initial_simulator env c strat bet, initial_total c, []))
    as [tl [s|o]] eqn:Hit.
  - rewrite bind_ret. cbn [fst]. apply Forall_app. split.
    + pose proof (sound_iterate (iterations c) (range_len (iterations c)) (rounds c)
                    (initial_simulator env c strat bet, initial_total c, [])) as H.
      rewrite Hit in H. exact H.
    + destruct (iterate_returns_inv _ _ _ _ _ _ _ Hit)
        as (results & bj' & Hlen & _ & -> & _).
      apply sound_report, Hlen.
  - cbn [bind fst].
    pose proof (sound_iterate (iterations c) (range_len (iterations c)) (rounds c)
                  (initial_simulator env c strat bet, initial_total c, [])) as H.
    rewrite Hit in H. exact H.
Qed.

End ReportFacts.

(** ** X14: the report divides by nothing it should not *)

(** X14.  Every reason line the driver prints,
    ["... ({:>6.2%})".format(rs, count, count/iterations)], has
    [1 <= count <= iterations], so [iterations] is at least 1 where it
    divides; and every average is [statistics.mean] of a list that is not
    empty.  The report therefore never raises [ZeroDivisionError] or
    [StatisticsError], whatever the iteration count and whatever the runs
    returned. *)
Theorem X14_report_lines_are_sound :
  forall (Strategy BetSystem Core : Type) (env : Env Strategy BetSystem Core)
         (c : Config),
    Forall (sound_report_event (iterations c)) (trace (main_body env c)).
Proof.
  intros Strategy BetSystem Core env c. exact (sound_main_body env c).
Qed.

(** ** X15: a run that fails *)

(** X15.  When the checks pass, the first runs return [results] and the
    next one, still within the iteration count, raises (or never returns),
    the program ends there: after the set-up the trace holds the triples
    of the runs that returned, then [reset] and [run], and nothing more.
    Nothing of the runs that returned is reported, and the output file is
    not closed. *)
Theorem X15_failing_run_ends_the_program_without_report :
  forall (Strategy BetSystem Core : Type) (env : Env Strategy BetSystem Core)
         (c : Config) (t0 : list (Event Strategy BetSystem))
         (strat : Strategy) (bet : BetSystem)
         (results : list (string * RunStats))
         (bj : Simulator Strategy BetSystem Core),
    validate env c = (t0, Ret (strat, bet)) ->
    runs env (rounds c) (initial_simulator env c strat bet) results bj ->
    (length results < range_len (iterations c))%nat ->
    run env (set_core bj (reset env bj)) (rounds c) = None ->
    main_body env c
    = ((t0 ++ trace (banner c : M Strategy BetSystem unit)
           ++ trace (set_up env c strat bet)
           ++ flat_map (iteration_events strat (rounds c)) results
           ++ [EvReset; EvRun strat (rounds c)])%list,
       Stop (Raised RunError)).
Proof.
  intros Strategy BetSystem Core env c t0 strat bet results bj Hv Hruns Hlen Hfail.
  rewrite (main_body_run_fails env c _ _ _ Hv _ _
             (iterate_fails_after env _ _ _ _ _ (initial_total c) [] Hruns Hlen Hfail)).
  unfold trace. cbn [sim_strat initial_simulator]. reflexivity.
Qed.

(** The program on [-t 5]: with gold disabled the target is never
    reached, and the first run does not return. *)
Lemma X15_witness_target_without_gold :
  main_opts Demo.env "casinosim.py" [("-t", "5")]
  = ([EvFromFile "strats/strat.txt" false; EvFromOptions NoBetting "";
      EvPrint (Text "Casino Simulator 9000!");
      EvPrint (Text "Using strat file: strats/strat.txt");
      EvPrint (Text "Using betting system: none");
      EvPrint (Text "  with options: ");
      EvPrint (FmtField "Gold target" 5);
      EvPrint (FmtField "Max rounds" 0);
      EvPrint (Text "");
      EvPrint (FmtRunning 1);
      EvNewStats;
      EvNewSimulator "strats/strat.txt" (NoBetting, "") false;
      EvSetStartingGold 0; EvSetTargetGold 5; EvSetAntiFallacy false;
      EvReset; EvRun "strats/strat.txt" 0],
     Stop (Raised RunError)).
Proof.
  assert (Hlen : (length ([] : list (string * RunStats)) < range_len 1)%nat)
    by (cbn; lia).
  assert (Hfail : run Demo.env
                    (set_core
                       (initial_simulator Demo.env
                          (mkConfig false None 1 0 "strats/strat.txt" "none" "" false 5 0)
                          "strats/strat.txt" (NoBetting, ""))
                       (reset Demo.env
                          (initial_simulator Demo.env
                             (mkConfig false None 1 0 "strats/strat.txt" "none" "" false 5 0)
                             "strats/strat.txt" (NoBetting, "")))) 0 = None)
    by (vm_compute; reflexivity).
  pose proof (X15_failing_run_ends_the_program_without_report _ _ _ Demo.env
                (mkConfig false None 1 0 "strats/strat.txt" "none" "" false 5 0)
                [EvFromFile "strats/strat.txt" false; EvFromOptions NoBetting ""]
                "strats/strat.txt" (NoBetting, "") [] _
                eq_refl (runs_nil Demo.env 0 _) Hlen Hfail) as H.
  unfold main_opts.
  change (process_opts Demo.env "casinosim.py" [("-t", "5")] default_config)
    with (([] : list (Event Demo.Strategy Demo.BetSystem)),
          Ret (mkConfig false None 1 0 "strats/strat.txt" "none" "" false 5 0)).
  rewrite bind_ret. rewrite H. reflexivity.
Defined.

(** ** The help tables *)

Section HelpFacts.
Context {Strategy BetSystem : Type}.

Abbreviation Mon := (M Strategy BetSystem).

Lemma bind_print {B} l (k : unit -> Mon B) :
  bind (print l) k = (EvPrint l :: fst (k tt), snd (k tt)).
Proof. unfold print, emit. rewrite bind_ret. reflexivity. Qed.

Lemma for_each_print {A} (l : list A) (f : A -> string) :
  (for_each l (fun x => print (Text (f x))) : Mon unit)
  = (map (fun x => EvPrint (Text (f x))) l, Ret tt).
Proof.
  induction l as [|x l IH]; [reflexivity|]. cbn [for_each].
  rewrite bind_print, IH. reflexivity.
Qed.

(** The lines that one entry of a table gives. *)
Lemma pop_returns thing :
  Forall (fun entry => snd entry <> []) thing ->
  exists t,
    (print_help_thing_pop thing : Mon HelpTable) = (t, Ret (popped thing))
    /\ print_help_thing thing = (t, Ret tt)
    /\ length t = length (concat (map snd thing)).
Proof.
  induction 1 as [|[cmds desc] thing Hne _ IH].
  - exists []. repeat split.
  - destruct IH as (t & Hpop & Hpure & Hlen).
    destruct desc as [|first others]; [contradiction Hne; reflexivity|].
    cbn [print_help_thing_pop]. unfold print_help_thing in *. cbn [for_each].
    rewrite !bind_print, !for_each_print, !bind_ret, Hpop, Hpure, bind_ret.
    cbn [fst snd]. eexists. split; [reflexivity|]. split.
    + rewrite app_nil_r. reflexivity.
    + cbn [map concat snd length]. rewrite !length_app, length_map, Hlen.
      cbn [fst ret length]. lia.
Qed.

Lemma pop_raises thing :
  Exists (fun entry => snd entry = []) thing ->
  exists t,
    (print_help_thing_pop thing : Mon HelpTable) = (t, Stop (Raised IndexError))
    /\ print_help_thing thing = (t, Stop (Raised IndexError)).
Proof.
  induction thing as [|[cmds desc] thing IH]; intro H; [inversion H|].
  destruct desc as [|first others].
  - exists []. split; reflexivity.
  - assert (H' : Exists (fun entry : list string * list string => snd entry = []) thing).
    { inversion H as [? ? Hd|? ? Hd]; subst; [discriminate Hd | exact Hd]. }
    destruct (IH H') as (t & Hpop & Hpure).
    cbn [print_help_thing_pop]. unfold print_help_thing in *. cbn [for_each].
    rewrite !bind_print, !for_each_print, !bind_ret, Hpop, Hpure.
    cbn [fst snd bind]. eexists. split; reflexivity.
Qed.

Lemma popped_single thing :
  Exists (fun entry => length (snd entry) = 1%nat) thing ->
  Exists (fun entry => snd entry = []) (popped thing).
Proof.
  unfold popped. induction 1 as [[cmds desc] thing H|entry thing _ IH]; cbn [map].
  - left. cbn [fst snd] in *. destruct desc as [|d [|d' desc]]; try discriminate H.
    reflexivity.
  - right. exact IH.
Qed.

End HelpFacts.

(** ** X16: [print_help_thing] and the table it is given *)

(** X16.  On a table in which every entry has a description,
    [print_help_thing] prints one line per description line, returns, and
    leaves every description without its first line ([desc.pop(0)]); on a
    table with an entry whose description is empty it raises [IndexError].
    What it prints and how it ends is what the version of it that leaves
    the table alone, the one [usage] is modelled with, prints and does. *)
Theorem X16_print_help_thing_pops_each_description :
  forall (Strategy BetSystem : Type) (thing : HelpTable),
    (Forall (fun entry => snd entry <> []) thing ->
     exists t,
       (print_help_thing_pop thing : M Strategy BetSystem HelpTable)
       = (t, Ret (popped thing))
       /\ print_help_thing thing = (t, Ret tt)
       /\ length t = length (concat (map snd thing)))
    /\ (Exists (fun entry => snd entry = []) thing ->
        exists t,
          (print_help_thing_pop thing : M Strategy BetSystem HelpTable)
          = (t, Stop (Raised IndexError))
          /\ print_help_thing thing = (t, Stop (Raised IndexError))).
Proof.
  intros Strategy BetSystem thing. split; [apply pop_returns | apply pop_raises].
Qed.

(** ** X17: [print_help_thing] a second time *)

(** X17.  After a call of [print_help_thing] that returned, a second call on
    the same table raises [IndexError] as soon as one entry had a
    description of a single line: the table is used up by the first
    call. *)
Theorem X17_second_print_help_thing_raises_IndexError :
  forall (Strategy BetSystem : Type) (thing left : HelpTable)
         (t : list (Event Strategy BetSystem)),
    print_help_thing_pop thing = (t, Ret left) ->
    Exists (fun entry => length (snd entry) = 1%nat) thing ->
    exists t',
      (print_help_thing_pop left : M Strategy BetSystem HelpTable)
      = (t', Stop (Raised IndexError)).
Proof.
  intros Strategy BetSystem thing left t Hfirst Hsingle.
  assert (Hleft : left = popped thing).
  { assert (Hne : Forall (fun entry : list string * list string => snd entry <> []) thing).
    { apply Forall_forall. intros entry Hin Hempty.
      assert (Hex : Exists (fun e : list string * list string => snd e = []) thing)
        by (apply Exists_exists; exists entry; auto).
      destruct (pop_raises (Strategy:=Strategy) (BetSystem:=BetSystem) thing Hex)
        as (t' & Hraise & _).
      rewrite Hraise in Hfirst. discriminate Hfirst. }
    destruct (pop_returns (Strategy:=Strategy) (BetSystem:=BetSystem) thing Hne)
      as (t' & Hret & _).
    rewrite Hret in Hfirst. injection Hfirst as _ <-. reflexivity. }
  subst left.
  destruct (pop_raises (Strategy:=Strategy) (BetSystem:=BetSystem)
              (popped thing) (popped_single thing Hsingle)) as (t' & H & _).
  exists t'. exact H.
Qed.

(** [print_help_thing(HELP_GENERAL)] twice: the second call prints nothing
    and raises. *)
Lemma X17_witness_general_twice :
  (print_help_thing_pop HELP_GENERAL : M unit unit HelpTable)
  = ([EvPrint (Text "  -h, --help              print this help");
      EvPrint (Text "  -v, --verbose           print a LOT of extra info");
      EvPrint (Text "  -f, --out-file          output the results to a file")],
     Ret [(["-h"; "--help"], []); (["-v"; "--verbose"], []);
          (["-f"; "--out-file"], [])])
  /\ exists t',
       (print_help_thing_pop
          [(["-h"; "--help"], []); (["-v"; "--verbose"], []);
           (["-f"; "--out-file"], [])] : M unit unit HelpTable)
       = (t', Stop (Raised IndexError)).
Proof.
  split; [reflexivity|].
  apply (X17_second_print_help_thing_raises_IndexError unit unit HELP_GENERAL _ _ eq_refl).
  left. reflexivity.
Defined.

(** ** The end of the report *)

Section CloseFacts.
Context {Strategy BetSystem Core : Type}.
Variable env : Env Strategy BetSystem Core.

Abbreviation Ev := (Event Strategy BetSystem).
Abbreviation Mon := (M Strategy BetSystem).

(** The report, piece by piece. *)
Lemma report_trace c (bj : Simulator Strategy BetSystem Core) total reasons :
  fst (report c (bj, total, reasons))
  = (fst (just_print c FmtCompleted : Mon unit)
     ++ fst (just_print c (Text "") : Mon unit)
     ++ fst (just_print c (Text "Results:") : Mon unit)
     ++ fst (for_each (sorted (dict_keys reasons)) (report_reason c reasons) : Mon unit)
     ++ fst (just_print c (Text (nl ++ "Stats:")) : Mon unit)
     ++ EvStatsPrint total
     :: match out_file c with Some f => [EvClose f] | None => [] end)%list.
Proof.
  unfold report.
  rewrite (fst_bind_ret _ _ tt) by apply just_print_returns.
  rewrite (fst_bind_ret _ _ tt) by apply just_print_returns.
  rewrite (fst_bind_ret _ _ tt) by apply just_print_returns.
  rewrite (fst_bind_ret _ _ tt).
  2: { apply for_each_returns. intros rs Hrs.
       apply report_reason_returns, in_sorted, Hrs. }
  rewrite (fst_bind_ret _ _ tt) by apply just_print_returns.
  destruct (out_file c); reflexivity.
Qed.

Lemma no_close_output (t : list Ev) :
  Forall (fun e => is_output e = true) t -> Forall (fun e => is_close e = false) t.
Proof. apply Forall_impl. intros [] H; try discriminate H; reflexivity. Qed.

Lemma output_just_print c l :
  Forall (fun e => is_output e = true) (fst (just_print c l : Mon unit)).
Proof. apply only_forall, only_just_print. auto. Qed.

Lemma output_report_reasons c reasons keys :
  Forall (fun e => is_output e = true)
    (fst (for_each keys (report_reason c reasons) : Mon unit)).
Proof.
  apply only_forall, only_for_each. intro rs. unfold report_reason.
  destruct (dict_get rs reasons); [|apply only_raise].
  repeat first [apply only_just_print; solve [auto] | apply only_bind; [|intros _]].
Qed.

Lemma no_close_validate c : Forall (fun e => is_close e = false) (fst (validate env c)).
Proof.
  pose proof (only_validate env c) as H. unfold only in H.
  revert H. apply Forall_impl. intros [] H; try discriminate H; reflexivity.
Qed.

Lemma no_close_iterate n r (s : LoopState Strategy BetSystem Core) :
  Forall (fun e => is_close e = false) (fst (iterate env n r s)).
Proof.
  destruct s as [[bj total] reasons].
  pose proof (iterate_events env n r bj total reasons) as H.
  revert H. apply Forall_impl. intros e [->|[->|[st ->]]]; reflexivity.
Qed.

Lemma no_close_before_loop c strat bet t0 :
  validate env c = (t0, Ret (strat, bet)) ->
  Forall (fun e => is_close e = false)
    (t0 ++ fst (banner c : Mon unit) ++ fst (set_up env c strat bet)
        ++ fst (iterate env (range_len (iterations c)) (rounds c)
                  (initial_simulator env c strat bet, initial_total c, []))).
Proof.
  intro Hv. apply Forall_app4.
  - pose proof (no_close_validate c) as H. rewrite Hv in H. exact H.
  - apply no_close_output, only_forall, only_banner.
  - rewrite set_up_eq. repeat constructor.
  - apply no_close_iterate.
Qed.

Lemma app4_assoc {A} (a b c d e : list A) :
  (a ++ b ++ c ++ d ++ e = (a ++ b ++ c ++ d) ++ e)%list.
Proof. rewrite <- !app_assoc. reflexivity. Qed.

(** The report ends with the closing of the file, if there is one, and
    closes nothing before. *)
Lemma report_ends_with_close c (bj : Simulator Strategy BetSystem Core) total reasons :
  exists body,
    fst (report c (bj, total, reasons))
    = (body ++ match out_file c with Some f => [EvClose f] | None => [] end)%list
    /\ Forall (fun e => is_close e = false) body.
Proof.
  exists (fst (just_print c FmtCompleted : Mon unit)
          ++ fst (just_print c (Text "") : Mon unit)
          ++ fst (just_print c (Text "Results:") : Mon unit)
          ++ fst (for_each (sorted (dict_keys reasons)) (report_reason c reasons) : Mon unit)
          ++ fst (just_print c (Text (nl ++ "Stats:")) : Mon unit)
          ++ [EvStatsPrint total])%list.
  split.
  - rewrite report_trace, <- !app_assoc. reflexivity.
  - repeat (apply Forall_app; split);
      try (apply no_close_output, output_just_print).
    + apply no_close_output, output_report_reasons.
    + repeat constructor.
Qed.

End CloseFacts.

(** ** X18: closing the output file *)

(** X18.  The output file is closed exactly when [main] gets to its last
    line: when lines 148-228 return and there is an output file, the
    closing of that file is the last thing the program does and the only
    closing; in every other case (a configuration error, a run that
    fails, no output file) the program never calls [close]. *)
Theorem X18_output_file_closed_only_at_the_end :
  forall (Strategy BetSystem Core : Type) (env : Env Strategy BetSystem Core)
         (c : Config),
    match outcome (main_body env c), out_file c with
    | Completed, Some f =>
        exists t,
          trace (main_body env c) = (t ++ [EvClose f])%list
          /\ Forall (fun e => is_close e = false) t
    | _, _ =>
        Forall (fun e => is_close e = false) (trace (main_body env c))
    end.
Proof.
  intros Strategy BetSystem Core env c.
  destruct (validate env c) as [t0 [[strat bet]|o]] eqn:Hv.
  - pose proof (no_close_before_loop env c strat bet t0 Hv) as Hpre.
    destruct (iterate env (range_len (iterations c)) (rounds c)
                (initial_simulator env c strat bet, initial_total c, []))
      as [tl [[[bj total] reasons]|o]] eqn:Hit; cbn [fst] in Hpre.
    + rewrite (main_body_checked env c _ _ _ Hv _ _ Hit).
      unfold outcome, trace. cbn [fst snd].
      destruct (report_ends_with_close c bj total reasons) as (body & Hr & Hbody).
      rewrite Hr, app4_assoc.
      destruct (out_file c) as [f|].
      * eexists. split; [rewrite app_assoc; reflexivity|].
        apply Forall_app. split; assumption.
      * rewrite app_nil_r. apply Forall_app. split; assumption.
    + rewrite (main_body_run_fails env c _ _ _ Hv _ _ Hit).
      unfold outcome, trace. cbn [fst snd].
      rewrite (iterate_stop env _ _ _ _ _ Hit). exact Hpre.
  - unfold main_body. rewrite Hv. unfold outcome, trace. cbn [bind fst snd].
    pose proof (no_close_validate env c) as H. rewrite Hv in H. cbn [fst] in H.
    destruct (validate_stop_fails env c _ _ Hv) as [-> | [e ->]]; exact H.
Qed.

(** ** The keys of the dictionary of reasons *)

Section KeyFacts.

Lemma dict_mem_keys {V} k (d : dict V) :
  dict_mem k d = true <-> In k (dict_keys d).
Proof.
  unfold dict_mem. induction d as [|[k0 v0] d IH]; cbn.
  - split; [discriminate | contradiction].
  - destruct (String.eqb_spec k k0) as [->|Hne].
    + split; auto.
    + rewrite IH. split; [auto | intros [H|H]; [congruence | exact H]].
Qed.

Lemma dict_keys_set {V} k (v : V) d :
  dict_keys (dict_set k v d)
  = if dict_mem k d then dict_keys d else (dict_keys d ++ [k])%list.
Proof.
  unfold dict_mem. induction d as [|[k0 v0] d IH]; [reflexivity|].
  cbn [dict_set dict_get].
  destruct (String.eqb_spec k k0) as [->|Hne]; [reflexivity|].
  unfold dict_keys in *. cbn [map fst]. rewrite IH.
  destruct (dict_get k d); reflexivity.
Qed.

Lemma dict_set_nodup {V} k (v : V) d :
  NoDup (dict_keys d) -> NoDup (dict_keys (dict_set k v d)).
Proof.
  intro H. rewrite dict_keys_set. destruct (dict_mem k d) eqn:E; [exact H|].
  apply NoDup_app; [exact H | repeat constructor; intros [] | ].
  intros x Hx [<-|[]]. apply dict_mem_keys in Hx. congruence.
Qed.

Lemma counted_set k v d :
  counted (dict_set k v d)
  = counted d + count v
    - match dict_get k d with Some e => count e | None => 0 end.
Proof.
  unfold counted. induction d as [|[k0 v0] d IH]; cbn [dict_set dict_get fold_right snd].
  - lia.
  - destruct (String.eqb k k0); cbn [fold_right snd]; lia.
Qed.

Lemma record_reason_nodup reason st d :
  NoDup (dict_keys d) -> NoDup (dict_keys (record_reason reason st d)).
Proof.
  intro H. unfold record_reason.
  destruct (negb (dict_mem reason d));
    match goal with
    | |- context [dict_get reason ?r] => destruct (dict_get reason r)
    end;
    repeat apply dict_set_nodup; exact H.
Qed.

Lemma record_reason_counted reason st d :
  counted (record_reason reason st d) = counted d + 1.
Proof.
  unfold record_reason, dict_mem.
  destruct (dict_get reason d) as [e|] eqn:E; cbn [negb].
  - rewrite E, counted_set, E. cbn [count]. lia.
  - rewrite dict_get_set_same, !counted_set, dict_get_set_same, E.
    unfold empty_entry. cbn [count]. lia.
Qed.

Lemma record_all_nodup results :
  forall d, NoDup (dict_keys d) -> NoDup (dict_keys (record_all results d)).
Proof.
  unfold record_all. induction results as [|res results IH]; intros d H; cbn [fold_left].
  - exact H.
  - apply IH, record_reason_nodup, H.
Qed.

Lemma record_all_counted results :
  forall d, counted (record_all results d) = counted d + Z.of_nat (length results).
Proof.
  unfold record_all. induction results as [|res results IH]; intro d; cbn [fold_left length].
  - lia.
  - rewrite IH, record_reason_counted. lia.
Qed.

Lemma dict_get_none_keys {V} k (d : dict V) :
  dict_get k d = None <-> ~ In k (dict_keys d).
Proof.
  rewrite <- dict_mem_keys. unfold dict_mem.
  destruct (dict_get k d); split; try discriminate; auto.
  intro H. exfalso. apply H. reflexivity.
Qed.

Lemma ended_with_nil rs results :
  ended_with rs results = [] <-> ~ In rs (map fst results).
Proof.
  unfold ended_with. induction results as [|[reason st] results IH]; cbn.
  - tauto.
  - destruct (String.eqb_spec reason rs) as [->|Hne].
    + split; [discriminate | intro H; exfalso; apply H; auto].
    + rewrite IH. split; [intros H [E|E]; [congruence | exact (H E)] | auto].
Qed.

Lemma record_all_keys results rs :
  In rs (dict_keys (record_all results [])) <-> In rs (map fst results).
Proof.
  pose proof (record_all_get results [] rs) as H. cbn [dict_get] in H.
  pose proof (dict_get_none_keys rs (record_all results [])) as Hk.
  pose proof (ended_with_nil rs results) as He.
  destruct (ended_with rs results) as [|res m].
  - split.
    + intro Hin. exfalso. apply Hk in H. exact (H Hin).
    + intro Hin. exfalso. apply He; [reflexivity | exact Hin].
  - split.
    + intros _. destruct (in_dec string_dec rs (map fst results)) as [Hin|Hn];
        [exact Hin|]. apply He in Hn. discriminate Hn.
    + intros _. destruct (in_dec string_dec rs (dict_keys (record_all results [])))
        as [Hin|Hn]; [exact Hin|]. apply Hk in Hn. congruence.
Qed.

(** Insertion sort sorts. *)
Lemma insert_sorted_perm x l : Permutation (insert_sorted x l) (x :: l).
Proof.
  induction l as [|y l IH]; cbn; [apply Permutation_refl|].
  destruct (String.leb x y); [apply Permutation_refl|].
  eapply perm_trans; [apply perm_skip, IH | apply perm_swap].
Qed.

Lemma sorted_perm l : Permutation (sorted l) l.
Proof.
  induction l as [|x l IH]; cbn; [constructor|].
  eapply perm_trans; [apply insert_sorted_perm | apply perm_skip, IH].
Qed.

Lemma insert_sorted_hd a x l :
  str_le a x -> HdRel str_le a l -> HdRel str_le a (insert_sorted x l).
Proof.
  intros Hax H. destruct H as [|y l Hay]; cbn.
  - constructor. exact Hax.
  - destruct (String.leb x y); constructor; assumption.
Qed.

Lemma insert_sorted_sorted x l :
  Sorted str_le l -> Sorted str_le (insert_sorted x l).
Proof.
  induction 1 as [|y l Hs IH Hhd]; cbn.
  - repeat constructor.
  - destruct (String.leb x y) eqn:E.
    + constructor; [constructor; assumption | constructor; exact E].
    + constructor; [exact IH|].
      apply insert_sorted_hd; [|exact Hhd].
      destruct (String.leb_total x y) as [H|H]; [congruence | exact H].
Qed.

Lemma sorted_sorted l : Sorted str_le (sorted l).
Proof.
  induction l as [|x l IH]; cbn; [constructor|].
  apply insert_sorted_sorted, IH.
Qed.

End KeyFacts.

Section ReasonLines.
Context {Strategy BetSystem Core : Type}.

Abbreviation Ev := (Event Strategy BetSystem).
Abbreviation Mon := (M Strategy BetSystem).

Lemma reason_names_app (t t' : list Ev) :
  reason_names (t ++ t') = (reason_names t ++ reason_names t')%list.
Proof. unfold reason_names. apply flat_map_app. Qed.

Lemma reason_names_just_print c l :
  (forall rs k n, l <> FmtReason rs k n) ->
  reason_names (fst (just_print c l : Mon unit)) = [].
Proof.
  intro H. unfold just_print.
  destruct (out_file c); destruct l; cbn; try reflexivity;
    exfalso; eapply H; reflexivity.
Qed.

Lemma reason_names_report_reason c reasons rs :
  In rs (dict_keys reasons) ->
  reason_names (fst (report_reason c reasons rs : Mon unit)) = [rs].
Proof.
  intro H. apply dict_get_key in H. destruct H as [e He].
  unfold report_reason, just_print. rewrite He.
  destruct (out_file c); reflexivity.
Qed.

Lemma reason_names_for_each c reasons keys :
  (forall rs, In rs keys -> In rs (dict_keys reasons)) ->
  reason_names (fst (for_each keys (report_reason c reasons) : Mon unit)) = keys.
Proof.
  induction keys as [|rs keys IH]; intro H; [reflexivity|].
  cbn [for_each].
  rewrite (fst_bind_ret _ _ tt)
    by (apply report_reason_returns, H; left; reflexivity).
  rewrite reason_names_app, reason_names_report_reason by (apply H; left; reflexivity).
  rewrite IH by (intros; apply H; right; assumption). reflexivity.
Qed.

Lemma reason_names_report c (bj : Simulator Strategy BetSystem Core) total reasons :
  reason_names (fst (report c (bj, total, reasons))) = sorted (dict_keys reasons).
Proof.
  rewrite report_trace, !reason_names_app.
  rewrite !reason_names_just_print by (intros; discriminate).
  rewrite reason_names_for_each by (intros rs; apply in_sorted).
  cbn [app]. destruct (out_file c); cbn; rewrite app_nil_r; reflexivity.
Qed.

End ReasonLines.

(** ** X19: every run is counted under one reason *)

(** X19.  After the runs, the dictionary [reasons] holds each reason once,
    its keys are the reasons that some run returned, and the counts of its
    entries add up to the number of runs: every run is counted under one
    reason and one only. *)
Theorem X19_reason_counts_add_up_to_the_runs :
  forall results : list (string * RunStats),
    NoDup (dict_keys (record_all results []))
    /\ (forall rs, In rs (dict_keys (record_all results []))
                   <-> In rs (map fst results))
    /\ counted (record_all results []) = Z.of_nat (length results).
Proof.
  intro results. split; [apply record_all_nodup; constructor|].
  split; [intro rs; apply record_all_keys|].
  rewrite record_all_counted. reflexivity.
Qed.

(** ** X20: the order of the report *)

(** X20.  The report prints one reason line per key of [reasons], in
    ascending order of the reasons: the reasons of its reason lines are
    [sorted(reasons.keys())], a sorted rearrangement of the keys. *)
Theorem X20_reason_lines_sorted_one_per_reason :
  forall (Strategy BetSystem Core : Type) (c : Config)
         (bj : Simulator Strategy BetSystem Core) (total : TotalStats)
         (reasons : dict ReasonEntry),
    reason_names (trace (report c (bj, total, reasons)))
    = sorted (dict_keys reasons)
    /\ Sorted str_le (sorted (dict_keys reasons))
    /\ Permutation (sorted (dict_keys reasons)) (dict_keys reasons).
Proof.
  intros Strategy BetSystem Core c bj total reasons.
  split; [apply reason_names_report|].
  split; [apply sorted_sorted | apply sorted_perm].
Qed.
